(** * boreas/process.py: feature extraction, cleaning and bookkeeping

    A shallow embedding of [src/boreas/process.py].

    - numpy arrays of dtype float64 are lists of primitive binary64
      floats (a 2-D array is the list of its rows), with the IEEE 754
      operations of the kernel; boolean arrays are lists of [bool];
    - Python exceptions are the [Err] results of a small error monad, a
      failed [assert] being [AssertionError];
    - the values of [boreas.constants] are a record passed to the
      functions that read them;
    - the state of numpy's random generator and the files on disk are
      passed explicitly, in and out;
    - [x ** 1.5], the C library's [pow], is a parameter of the one
      function that calls it.

    The definitions come first, in the order of the source; the facts
    proved about them follow. *)

From Stdlib Require Import String ZArith List Bool Lia Floats Permutation.
From Stdlib Require Uint63.
Import ListNotations.

Set Implicit Arguments.
Local Open Scope string_scope.
Local Open Scope list_scope.

(* ================================================================== *)
(** ** Exceptions and the error monad *)

Inductive exn : Type :=
| AssertionError (msg : string)   (* a failed [assert]: the ValidationError of the design *)
| IndexError
| ValueError
| OverflowError
| AttributeError
| KeyError
| ZeroDivisionError
| FileNotFoundError.

Inductive result (A : Type) : Type :=
| Ok (a : A)
| Err (e : exn).

Arguments Ok {A} a.
Arguments Err {A} e.

Definition bind {A B : Type} (r : result A) (k : A -> result B) : result B :=
  match r with
  | Ok a => k a
  | Err e => Err e
  end.

Notation "x <- e ;; k" := (bind e (fun x => k))
  (at level 61, e at next level, right associativity).
Notation "e ;;; k" := (bind e (fun _ => k))
  (at level 61, right associativity).

(** [assert cond, msg] *)
Definition assert (cond : bool) (msg : string) : result unit :=
  if cond then Ok tt else Err (AssertionError msg).

Definition is_ValidationError {A : Type} (r : result A) : Prop :=
  match r with
  | Err (AssertionError _) => True
  | _ => False
  end.

Fixpoint mapM {A B : Type} (f : A -> result B) (l : list A) : result (list B) :=
  match l with
  | [] => Ok []
  | a :: l' => b <- f a ;; bs <- mapM f l' ;; Ok (b :: bs)
  end.

(* ================================================================== *)
(** ** The constants module *)

(** The values that the functions read from [boreas.constants]: the
    number of features and of basis tensors, the hyperparameters of the
    cleaning loop and the default turbulent Prandtl number. *)
Record Constants : Type := {
  N_FEATURES : nat;
  N_BASIS : nat;
  N_STD : float;
  MAX_ITER : nat;
  TOL : float;
  MAX_CLEAN : float;
  PR_T : float
}.

(* ================================================================== *)
(** ** Python and numpy scalars *)

(** A Python [int] or a numpy [int64] read as a float64 (the integers
    here are row counts and their differences, well inside 63 bits). *)
Definition float_of_Z (z : Z) : float :=
  if (z <? 0)%Z then PrimFloat.opp (of_uint63 (Uint63.of_Z (- z)))
  else of_uint63 (Uint63.of_Z z).

Definition float_of_nat (n : nat) : float := float_of_Z (Z.of_nat n).

(** A Python number: an [int] or a [float]. *)
Inductive number : Type :=
| PyInt (z : Z)
| PyFloat (f : float).

(** [int(f)] of a float: truncation toward zero. *)
Definition int_of_float (f : float) : result Z :=
  match Prim2SF f with
  | S754_zero _ => Ok 0%Z
  | S754_finite s m e =>
      let a := if (0 <=? e)%Z then (Zpos m * 2 ^ e)%Z else (Zpos m / 2 ^ (- e))%Z in
      Ok (if s then (- a)%Z else a)
  | S754_infinity _ => Err OverflowError
  | S754_nan => Err ValueError
  end.

(** [int(x)] *)
Definition int (x : number) : result Z :=
  match x with
  | PyInt z => Ok z
  | PyFloat f => int_of_float f
  end.

(** [x > 0] *)
Definition number_positive (x : number) : bool :=
  match x with
  | PyInt z => (0 <? z)%Z
  | PyFloat f => PrimFloat.ltb 0 f
  end.

(** [x * n] for a Python int [n] *)
Definition number_mul_int (x : number) (n : Z) : number :=
  match x with
  | PyInt z => PyInt (z * n)
  | PyFloat f => PyFloat (PrimFloat.mul f (float_of_Z n))
  end.

(* ================================================================== *)
(** ** numpy on lists *)

Module np.

Definition vec : Type := list float.
Definition mat : Type := list (list float).

(** An elementwise operation on two arrays of one shape, entry by entry.
    (The arrays of a container that passed [check] have one entry per
    cell; numpy raises on shapes that do not match.) *)
Fixpoint map2 {A B C : Type} (f : A -> B -> C) (l : list A) (l' : list B) : list C :=
  match l, l' with
  | a :: t, b :: t' => f a b :: map2 f t t'
  | _, _ => []
  end.

(** [np.sum] of a 1-D array: the accumulator starts at zero. *)
Definition sum (v : vec) : float := fold_left PrimFloat.add v 0%float.

(** Number of [True] entries of a boolean array, [np.sum(mask)]. *)
Fixpoint count_true (m : list bool) : nat :=
  match m with
  | [] => 0
  | b :: m' => (if b then 1 else 0) + count_true m'
  end.

(** [a[mask]]: the rows of [a] at the [True] positions of [mask].  The
    shorter of the two decides where the selection stops. *)
Fixpoint select {A : Type} (a : list A) (mask : list bool) : list A :=
  match a, mask with
  | x :: a', b :: m' => if b then x :: select a' m' else select a' m'
  | _, _ => []
  end.

(** [a[mask]] where numpy insists that the mask is as long as the array. *)
Definition getmask {A : Type} (a : list A) (mask : list bool) : result (list A) :=
  if Nat.eqb (length mask) (length a) then Ok (select a mask) else Err IndexError.

Fixpoint scatter {A : Type} (full : list A) (mask : list bool) (vals : list A) : list A :=
  match full, mask with
  | x :: full', true :: m' =>
      match vals with
      | v :: vals' => v :: scatter full' m' vals'
      | [] => x :: scatter full' m' []
      end
  | x :: full', false :: m' => x :: scatter full' m' vals
  | _, _ => full
  end.

(** [full[mask] = vals]: as many values as selected positions, or one
    value broadcast to all of them; anything else is a [ValueError]. *)
Definition setmask {A : Type} (full : list A) (mask : list bool) (vals : list A)
  : result (list A) :=
  if negb (Nat.eqb (length mask) (length full)) then Err IndexError
  else if Nat.eqb (length vals) (count_true mask) then Ok (scatter full mask vals)
  else match vals with
       | [v] => Ok (scatter full mask (repeat v (count_true mask)))
       | _ => Err ValueError
       end.

(** [a[i] = v] on a 1-D array. *)
Fixpoint setitem {A : Type} (a : list A) (i : nat) (v : A) : result (list A) :=
  match a, i with
  | [], _ => Err IndexError
  | _ :: a', O => Ok (v :: a')
  | x :: a', S j => r <- setitem a' j v ;; Ok (x :: r)
  end.

(** [np.empty(n)]: storage whose content is whatever was there. *)
Definition empty (n : nat) : vec := repeat nan n.

(** [np.empty(n)] for a Python integer [n]: a negative dimension is
    refused with a [ValueError]. *)
Definition empty_int (n : Z) : result vec :=
  if (n <? 0)%Z then Err ValueError else Ok (empty (Z.to_nat n)).

Fixpoint transpose (m : mat) : mat :=
  match m with
  | [] => []
  | r :: m' =>
      match m' with
      | [] => map (fun x => [x]) r
      | _ => map2 cons r (transpose m')
      end
  end.

Definition madd (a b : mat) : mat := map2 (map2 PrimFloat.add) a b.
Definition msub (a b : mat) : mat := map2 (map2 PrimFloat.sub) a b.

(** Inner product of two 1-D arrays. *)
Definition dot (a b : vec) : float := sum (map2 PrimFloat.mul a b).

(** Row vector times matrix, and the matrix product. *)
Definition vecmat (v : vec) (m : mat) : vec := map (dot v) (transpose m).
Definition matmul (a b : mat) : mat := map (fun r => vecmat r b) a.

Definition diagonal (m : mat) : vec :=
  map (fun i => nth i (nth i m []) 0%float) (seq 0 (length m)).

Definition trace (m : mat) : float := sum (diagonal m).

(** [a.shape[1]] of a 2-D array given by its rows, and its column [j]. *)
Definition shape1 (a : mat) : nat :=
  match a with
  | [] => 0
  | r :: _ => length r
  end.

Definition column (a : mat) (j : nat) : vec := map (fun r => nth j r 0%float) a.

(** [np.mean] of a 1-D array: the sum divided by the number of entries. *)
Definition mean (v : vec) : float := PrimFloat.div (sum v) (float_of_nat (length v)).

(** [np.std] of a 1-D array: the root of the mean squared deviation. *)
Definition std (v : vec) : float :=
  let arrmean := mean v in
  let x := map (fun a => PrimFloat.sub a arrmean) v in
  let x := map (fun a => PrimFloat.mul a a) x in
  PrimFloat.sqrt (PrimFloat.div (sum x) (float_of_nat (length v))).

(** [np.mean(a, axis=0)] and [np.std(a, axis=0)] of an array with [ncols] columns. *)
Definition mean0 (ncols : nat) (a : mat) : vec := map (fun j => mean (column a j)) (seq 0 ncols).
Definition std0 (ncols : nat) (a : mat) : vec := map (fun j => std (column a j)) (seq 0 ncols).

(** Elementwise product of two 2-D arrays of one shape. *)
Definition emul (a b : mat) : mat := map2 (map2 PrimFloat.mul) a b.

Definition eye (n : nat) : mat :=
  map (fun i => map (fun j => if Nat.eqb i j then 1%float else 0%float) (seq 0 n))
      (seq 0 n).

(** [np.linalg.multi_dot] of a chain of matrices, multiplied from left
    to right.  (numpy picks the association by cost; the association
    does not change the chain's value wherever the products are exact.) *)
Definition multi_dot (chain : list mat) : mat :=
  match chain with
  | [] => []
  | a :: rest => fold_left matmul rest a
  end.

(** [np.linalg.multi_dot([g, M1, ..., Mk, g'])]: a 1-D first argument is
    a row vector, a 1-D last argument a column vector, the result a scalar. *)
Definition multi_dot_v (g : vec) (chain : list mat) (g' : vec) : float :=
  dot (fold_left vecmat chain g) g'.

End np.

(* ================================================================== *)
(** ** calcInvariants *)

Definition calcInvariants_S (gradU : np.mat) : np.mat := np.madd gradU (np.transpose gradU).
Definition calcInvariants_R (gradU : np.mat) : np.mat := np.msub gradU (np.transpose gradU).

(** The invariant basis at one point; with [basis] also the tensor basis. *)
Definition calcInvariants (constants : Constants) (gradU : np.mat) (gradT : np.vec)
    (basis : bool) : result (np.vec * option (list np.mat)) :=
  let S := calcInvariants_S gradU in
  let R := calcInvariants_R gradU in
  let S2 := np.multi_dot [S; S] in
  let R2 := np.multi_dot [R; R] in
  let S_R2 := np.multi_dot [S; R2] in
  invariants <- np.empty_int (Z.of_nat (N_FEATURES constants) - 2) ;;
  invariants <- np.setitem invariants 0 (np.trace S2) ;;
  invariants <- np.setitem invariants 1 (np.trace (np.multi_dot [S2; S])) ;;
  invariants <- np.setitem invariants 2 (np.trace R2) ;;
  invariants <- np.setitem invariants 3 (np.trace S_R2) ;;
  invariants <- np.setitem invariants 4 (np.trace (np.multi_dot [S2; R2])) ;;
  invariants <- np.setitem invariants 5 (np.trace (np.multi_dot [S2; R2; S; R])) ;;
  invariants <- np.setitem invariants 6 (np.multi_dot_v gradT [] gradT) ;;
  invariants <- np.setitem invariants 7 (np.multi_dot_v gradT [S] gradT) ;;
  invariants <- np.setitem invariants 8 (np.multi_dot_v gradT [S2] gradT) ;;
  invariants <- np.setitem invariants 9 (np.multi_dot_v gradT [R2] gradT) ;;
  invariants <- np.setitem invariants 10 (np.multi_dot_v gradT [S; R] gradT) ;;
  invariants <- np.setitem invariants 11 (np.multi_dot_v gradT [S2; R] gradT) ;;
  invariants <- np.setitem invariants 12 (np.multi_dot_v gradT [R; S_R2] gradT) ;;
  if basis then
    let tensor_basis := repeat (repeat (np.empty 3) 3) (N_BASIS constants) in
    tensor_basis <- np.setitem tensor_basis 0 (np.eye 3) ;;
    tensor_basis <- np.setitem tensor_basis 1 S ;;
    tensor_basis <- np.setitem tensor_basis 2 S2 ;;
    tensor_basis <- np.setitem tensor_basis 3 R ;;
    tensor_basis <- np.setitem tensor_basis 4 R2 ;;
    tensor_basis <- np.setitem tensor_basis 5
      (np.madd (np.multi_dot [S; R]) (np.multi_dot [R; S])) ;;
    Ok (invariants, Some tensor_basis)
  else
    Ok (invariants, None).

(* ================================================================== *)
(** ** MeanFlowQuantities *)

Module MeanFlowQuantities.

(** Arrays that only exist on an instance built for labels. *)
Record LabelArrays : Type := {
  u : np.mat;
  uc : np.mat;
  t : np.vec
}.

(** Arrays that only exist on an instance built for features. *)
Record FeatureArrays : Type := {
  gradU : list np.mat;
  tke : np.vec;
  epsilon : np.vec;
  mu : np.vec;
  d : np.vec
}.

Record obj : Type := {
  n_points : nat;
  gradT : np.mat;
  rho : np.vec;
  mut : np.vec;
  mode : LabelArrays + FeatureArrays
}.

(** [self.labels] *)
Definition labels (self : obj) : bool :=
  match mode self with
  | inl _ => true
  | inr _ => false
  end.

(** Reading an attribute that the instance does not have raises. *)
Definition label_arrays (self : obj) : result LabelArrays :=
  match mode self with
  | inl a => Ok a
  | inr _ => Err AttributeError
  end.

Definition feature_arrays (self : obj) : result FeatureArrays :=
  match mode self with
  | inl _ => Err AttributeError
  | inr a => Ok a
  end.

(** The tecplot zone: the number of elements and, for a variable name,
    its array (or the exception the reader raises for that name). *)
Record Zone : Type := {
  num_elements : nat;
  values : string -> result np.vec
}.

(** [zone.values(var_names[key]).as_numpy_array()[mask]] *)
Definition read (zone : Zone) (var_names : string -> option string)
    (mask : list bool) (key : string) : result np.vec :=
  match var_names key with
  | None => Err KeyError
  | Some name => a <- values zone name ;; np.getmask a mask
  end.

(** [a[:, j] = col] on an array of shape (n, 3): one value per row, or a
    single value for all rows. *)
Definition setcol (a : np.mat) (j : nat) (col : np.vec) : result np.mat :=
  let put := fun row v => firstn j row ++ v :: skipn (S j) row in
  if Nat.eqb (length col) (length a) then Ok (np.map2 put a col)
  else match col with
       | [v] => Ok (map (fun row => put row v) a)
       | _ => Err ValueError
       end.

(** [a[:, i, j] = col] on an array of shape (n, 3, 3). *)
Definition setcol2 (a : list np.mat) (i j : nat) (col : np.vec) : result (list np.mat) :=
  let put := fun (m : np.mat) v =>
    firstn i m ++ (firstn j (nth i m []) ++ v :: skipn (S j) (nth i m [])) :: skipn (S i) m in
  if Nat.eqb (length col) (length a) then Ok (np.map2 put a col)
  else match col with
       | [v] => Ok (map (fun m => put m v) a)
       | _ => Err ValueError
       end.

(** [np.empty((n, 3))] and [np.empty((n, 3, 3))] *)
Definition empty3 (n : nat) : np.mat := repeat (np.empty 3) n.
Definition empty33 (n : nat) : list np.mat := repeat (repeat (np.empty 3) 3) n.

(** Three columns read from the zone into an array of shape (n, 3). *)
Definition read3 (rd : string -> result np.vec) (n : nat) (k0 k1 k2 : string)
  : result np.mat :=
  let a := empty3 n in
  c <- rd k0 ;; a <- setcol a 0 c ;;
  c <- rd k1 ;; a <- setcol a 1 c ;;
  c <- rd k2 ;; setcol a 2 c.

(** The temperature gradient is divided by [deltaT0] on a feature instance. *)
Definition nonDimensionalize (self : obj) (deltaT0 : float) : obj :=
  if negb (labels self) then
    {| n_points := n_points self;
       gradT := map (map (fun x => PrimFloat.div x deltaT0)) (gradT self);
       rho := rho self; mut := mut self; mode := mode self |}
  else self.

Definition nonneg (v : np.vec) : bool := forallb (fun x => PrimFloat.leb 0 x) v.

(** The assertions on the size and the range of the arrays. *)
Definition check (self : obj) : result unit :=
  assert (Nat.eqb (length (rho self)) (n_points self))
         "Wrong number of entries for rho. Check that it is cell centered." ;;;
  assert (Nat.eqb (length (mut self)) (n_points self))
         "Wrong number of entries for mu_t. Check that it is cell centered." ;;;
  assert (nonneg (rho self)) "Found negative entries for rho!" ;;;
  assert (nonneg (mut self)) "Found negative entries for mut!" ;;;
  match mode self with
  | inl la =>
      assert (Nat.eqb (length (t la)) (n_points self)) "Wrong number of entries for T"
  | inr fa =>
      assert (Nat.eqb (length (tke fa)) (n_points self))
             "Wrong number of entries for TKE. Check that it is cell centered." ;;;
      assert (Nat.eqb (length (epsilon fa)) (n_points self))
             "Wrong number of entries for epsilon. Check that it is cell centered." ;;;
      assert (Nat.eqb (length (mu fa)) (n_points self))
             "Wrong number of entries for mu. Check that it is cell centered." ;;;
      assert (Nat.eqb (length (d fa)) (n_points self))
             "Wrong number of entries for d. Check that it is cell centered." ;;;
      assert (nonneg (tke fa)) "Found negative entries for tke!" ;;;
      assert (nonneg (epsilon fa)) "Found negative entries for epsilon!" ;;;
      assert (nonneg (mu fa)) "Found negative entries for mu!" ;;;
      assert (nonneg (d fa)) "Found negative entries for d!"
  end.

(** The arrays as the constructor reads them from the zone, before
    [nonDimensionalize] and [check]. *)
Definition load (zone : Zone) (var_names : string -> option string)
    (labels : bool) (mask : option (list bool)) : result obj :=
  let mask := match mask with
              | None => repeat true (num_elements zone)
              | Some m => m
              end in
  let n := np.count_true mask in
  let rd := read zone var_names mask in
  gT <- read3 rd n "ddx_T" "ddy_T" "ddz_T" ;;
  r <- rd "Density" ;;
  mt <- rd "turbulent viscosity" ;;
  if labels then
    u <- read3 rd n "U" "V" "W" ;;
    uc <- read3 rd n "uc" "vc" "wc" ;;
    t <- rd "T" ;;
    Ok {| n_points := n; gradT := gT; rho := r; mut := mt;
          mode := inl {| u := u; uc := uc; t := t |} |}
  else
    let gU := empty33 n in
    c <- rd "ddx_U" ;; gU <- setcol2 gU 0 0 c ;;
    c <- rd "ddy_U" ;; gU <- setcol2 gU 1 0 c ;;
    c <- rd "ddz_U" ;; gU <- setcol2 gU 2 0 c ;;
    c <- rd "ddx_V" ;; gU <- setcol2 gU 0 1 c ;;
    c <- rd "ddy_V" ;; gU <- setcol2 gU 1 1 c ;;
    c <- rd "ddz_V" ;; gU <- setcol2 gU 2 1 c ;;
    c <- rd "ddx_W" ;; gU <- setcol2 gU 0 2 c ;;
    c <- rd "ddy_W" ;; gU <- setcol2 gU 1 2 c ;;
    c <- rd "ddz_W" ;; gU <- setcol2 gU 2 2 c ;;
    k <- rd "TKE" ;;
    e <- rd "epsilon" ;;
    m <- rd "laminar viscosity" ;;
    dw <- rd "distance to wall" ;;
    Ok {| n_points := n; gradT := gT; rho := r; mut := mt;
          mode := inr {| gradU := gU; tke := k; epsilon := e; mu := m; d := dw |} |}.

(** [MeanFlowQuantities(zone, var_names, deltaT0, labels, mask)] *)
Definition init (zone : Zone) (var_names : string -> option string)
    (deltaT0 : float) (labels : bool) (mask : option (list bool)) : result obj :=
  self <- load zone var_names labels mask ;;
  let self := nonDimensionalize self deltaT0 in
  check self ;;;
  Ok self.

End MeanFlowQuantities.

Module MFQ := MeanFlowQuantities.

(* ================================================================== *)
(** ** calculateShouldUse *)

Section ShouldUse.

(** [x ** y] on floats is the C library's [pow]; it is not one of the
    primitive float operations and stays a parameter. *)
Variable np_power : float -> float -> float.

(** [np.sqrt(np.sum(gradT**2, axis=1))] *)
Definition grad_norm (gradT : np.mat) : np.vec :=
  map (fun row => PrimFloat.sqrt (np.sum (map (fun x => PrimFloat.mul x x) row))) gradT.

Definition calculateShouldUse (mfq : MFQ.obj) (threshold : float) : result (list bool) :=
  let grad_mag := grad_norm (MFQ.gradT mfq) in
  fa <- MFQ.feature_arrays mfq ;;
  let grad_mag :=
    np.map2 PrimFloat.mul grad_mag
      (np.map2 PrimFloat.div (map (fun k => np_power k 1.5) (MFQ.tke fa)) (MFQ.epsilon fa)) in
  let should_use := map (fun g => PrimFloat.leb threshold g) grad_mag in
  Ok should_use.

End ShouldUse.

(* ================================================================== *)
(** ** calculateFeatures and calculateFeaturesAndBasis *)

(** A Python index [j] into an axis of length [n]: a negative index
    counts from the end. *)
Definition py_index (n : nat) (j : Z) : result nat :=
  if ((0 <=? j) && (j <? Z.of_nat n))%Z then Ok (Z.to_nat j)
  else if ((j <? 0) && (- Z.of_nat n <=? j))%Z then Ok (Z.to_nat (Z.of_nat n + j))
  else Err IndexError.

(** [a[i]] on the first axis, for [i] in [range(len(a))]. *)
Definition getitem {A : Type} (a : list A) (i : nat) : result A :=
  match nth_error a i with
  | Some x => Ok x
  | None => Err IndexError
  end.

(** [row[0:stop] = v] on a 1-D array: as many values as the slice is
    long, or a single value for all of it. *)
Definition setslice0 (row : np.vec) (stop : Z) (v : np.vec) : result np.vec :=
  let len := Z.of_nat (length row) in
  let stop := if (stop <? 0)%Z then Z.max 0 (len + stop) else Z.min stop len in
  let k := Z.to_nat stop in
  if Nat.eqb (length v) k then Ok (v ++ skipn k row)
  else match v with
       | [a] => Ok (repeat a k ++ skipn k row)
       | _ => Err ValueError
       end.

(** [a[:, j] = col] on an array of shape (n, ncols). *)
Definition setcolumn (ncols : nat) (a : np.mat) (j : Z) (col : np.vec) : result np.mat :=
  j <- py_index ncols j ;;
  let put := fun row v => firstn j row ++ v :: skipn (S j) row in
  if Nat.eqb (length col) (length a) then Ok (np.map2 put a col)
  else match col with
       | [v] => Ok (map (fun row => put row v) a)
       | _ => Err ValueError
       end.

Section Features.

Variable np_power : float -> float -> float.

Definition calculateFeatures (constants : Constants) (mfq : MFQ.obj)
    (should_use : list bool) : result np.mat :=
  let n_useful := np.count_true should_use in
  let n_features := N_FEATURES constants in
  let x_features := repeat (np.empty n_features) n_useful in
  fa <- MFQ.feature_arrays mfq ;;
  tke <- np.getmask (MFQ.tke fa) should_use ;;
  epsilon <- np.getmask (MFQ.epsilon fa) should_use ;;
  let gradU_factor :=
    np.map2 PrimFloat.div (map (fun k => PrimFloat.mul 0.5 k) tke) epsilon in
  let gradT_factor :=
    np.map2 PrimFloat.div (map (fun k => np_power k 1.5) tke) epsilon in
  gradU <- np.getmask (MFQ.gradU fa) should_use ;;
  let gradU_temporary :=
    np.map2 (fun g f => map (map (fun x => PrimFloat.mul x f)) g) gradU gradU_factor in
  gradT <- np.getmask (MFQ.gradT mfq) should_use ;;
  let gradT_temporary :=
    np.map2 (fun g f => map (fun x => PrimFloat.mul x f) g) gradT gradT_factor in
  x_features <-
    mapM (fun i =>
            gU <- getitem gradU_temporary i ;;
            gT <- getitem gradT_temporary i ;;
            r <- calcInvariants constants gU gT false ;;
            row <- getitem x_features i ;;
            setslice0 row (Z.of_nat n_features - 2) (fst r))
         (seq 0 n_useful) ;;
  d <- np.getmask (MFQ.d fa) should_use ;;
  rho <- np.getmask (MFQ.rho mfq) should_use ;;
  mu <- np.getmask (MFQ.mu fa) should_use ;;
  let Re_wall :=
    np.map2 PrimFloat.div
      (np.map2 PrimFloat.mul (np.map2 PrimFloat.mul (map PrimFloat.sqrt tke) d) rho) mu in
  mut <- np.getmask (MFQ.mut mfq) should_use ;;
  let nut_over_nu := np.map2 PrimFloat.div mut mu in
  x_features <- setcolumn n_features x_features (Z.of_nat n_features - 2) Re_wall ;;
  x_features <- setcolumn n_features x_features (Z.of_nat n_features - 1) nut_over_nu ;;
  Ok x_features.

Definition calculateFeaturesAndBasis (constants : Constants) (mfq : MFQ.obj)
    (should_use : list bool) : result (np.mat * list (list np.mat)) :=
  let n_useful := np.count_true should_use in
  let n_features := N_FEATURES constants in
  let x_features := repeat (np.empty n_features) n_useful in
  let tensor_basis :=
    repeat (repeat (repeat (np.empty 3) 3) (N_BASIS constants)) n_useful in
  fa <- MFQ.feature_arrays mfq ;;
  tke <- np.getmask (MFQ.tke fa) should_use ;;
  epsilon <- np.getmask (MFQ.epsilon fa) should_use ;;
  let gradU_factor :=
    np.map2 PrimFloat.div (map (fun k => PrimFloat.mul 0.5 k) tke) epsilon in
  let gradT_factor :=
    np.map2 PrimFloat.div (map (fun k => np_power k 1.5) tke) epsilon in
  gradU <- np.getmask (MFQ.gradU fa) should_use ;;
  let gradU_temporary :=
    np.map2 (fun g f => map (map (fun x => PrimFloat.mul x f)) g) gradU gradU_factor in
  gradT <- np.getmask (MFQ.gradT mfq) should_use ;;
  let gradT_temporary :=
    np.map2 (fun g f => map (fun x => PrimFloat.mul x f) g) gradT gradT_factor in
  both <-
    mapM (fun i =>
            gU <- getitem gradU_temporary i ;;
            gT <- getitem gradT_temporary i ;;
            r <- calcInvariants constants gU gT true ;;
            row <- getitem x_features i ;;
            row <- setslice0 row (Z.of_nat n_features - 2) (fst r) ;;
            _ <- getitem tensor_basis i ;;
            match snd r with
            | Some tb => Ok (row, tb)
            | None => Err ValueError
            end)
         (seq 0 n_useful) ;;
  let x_features := map fst both in
  let tensor_basis := map snd both in
  d <- np.getmask (MFQ.d fa) should_use ;;
  rho <- np.getmask (MFQ.rho mfq) should_use ;;
  mu <- np.getmask (MFQ.mu fa) should_use ;;
  let Re_wall :=
    np.map2 PrimFloat.div
      (np.map2 PrimFloat.mul (np.map2 PrimFloat.mul (map PrimFloat.sqrt tke) d) rho) mu in
  mut <- np.getmask (MFQ.mut mfq) should_use ;;
  let nut_over_nu := np.map2 PrimFloat.div mut mu in
  x_features <- setcolumn n_features x_features (Z.of_nat n_features - 2) Re_wall ;;
  x_features <- setcolumn n_features x_features (Z.of_nat n_features - 1) nut_over_nu ;;
  Ok (x_features, tensor_basis).

End Features.

(* ================================================================== *)
(** ** cleanFeatures *)

(** The variables of the cleaning loop. *)
Record clean_state : Type := {
  mask : list bool;
  cleaned_exs : option Z;
  warning_flag : bool
}.

(** Rows with a feature outside [mean - n_std*std, mean + n_std*std],
    the statistics being those of the rows selected by [mask]. *)
Definition outliers (constants : Constants) (x_features : np.mat) (mask : list bool)
  : list bool :=
  let n_std := N_STD constants in
  let ncols := np.shape1 x_features in
  let x_mean := np.mean0 ncols (np.select x_features mask) in
  let x_std := np.std0 ncols (np.select x_features mask) in
  let lo := np.map2 (fun m s => PrimFloat.sub m (PrimFloat.mul n_std s)) x_mean x_std in
  let hi := np.map2 (fun m s => PrimFloat.add m (PrimFloat.mul n_std s)) x_mean x_std in
  map (fun row =>
         existsb (fun b => b)
           (np.map2 orb (np.map2 PrimFloat.ltb row lo)
                        (np.map2 (fun v h => PrimFloat.ltb h v) row hi)))
      x_features.

(** [(new_cleaned_exs - cleaned_exs)/cleaned_exs < tol] on numpy integers:
    the quotient is a float64, [nan] or [inf] when the divisor is zero. *)
Definition converged (constants : Constants) (cleaned_exs : option Z) (new_cleaned_exs : Z)
  : bool :=
  match cleaned_exs with
  | None => false
  | Some c =>
      PrimFloat.ltb (PrimFloat.div (float_of_Z (new_cleaned_exs - c)) (float_of_Z c))
                    (TOL constants)
  end.

(** [cleaned_exs/x_features.shape[0] > max_clean] *)
Definition too_many_cleaned (constants : Constants) (cleaned_exs : Z) (n : nat) : bool :=
  PrimFloat.ltb (MAX_CLEAN constants)
                (PrimFloat.div (float_of_Z cleaned_exs) (float_of_nat n)).

(** One pass through the body of the loop; the boolean tells whether the
    pass ended in a [break]. *)
Definition clean_body (constants : Constants) (x_features : np.mat) (st : clean_state)
  : clean_state * bool :=
  let new_mask := outliers constants x_features (mask st) in
  let mask := map negb new_mask in
  let new_cleaned_exs := (Z.of_nat (length x_features) - Z.of_nat (np.count_true mask))%Z in
  if converged constants (cleaned_exs st) new_cleaned_exs then
    ({| mask := mask; cleaned_exs := Some new_cleaned_exs; warning_flag := false |}, true)
  else
    let st' := {| mask := mask; cleaned_exs := Some new_cleaned_exs;
                  warning_flag := warning_flag st |} in
    if too_many_cleaned constants new_cleaned_exs (length x_features) then (st', true)
    else (st', false).

(** [for i in range(max_iter)]: the states at the end of every pass that
    was executed, in order. *)
Fixpoint clean_loop (constants : Constants) (x_features : np.mat) (max_iter : nat)
    (st : clean_state) : list clean_state :=
  match max_iter with
  | O => []
  | S k =>
      let (st', break) := clean_body constants x_features st in
      st' :: (if break then [] else clean_loop constants x_features k st')
  end.

Definition clean_init (x_features : np.mat) : clean_state :=
  {| mask := repeat true (length x_features); cleaned_exs := None; warning_flag := true |}.

(** The passes of the loop of [cleanFeatures] on [x_features]. *)
Definition clean_passes (constants : Constants) (x_features : np.mat) : list clean_state :=
  clean_loop constants x_features (MAX_ITER constants) (clean_init x_features).

(** What [cleanFeatures] returns, and whether it printed the warning
    that the cleaning did not converge. *)
Record cleaned (B : Type) : Type := {
  new_x_features : np.mat;
  new_should_use : list bool;
  new_tensor_basis : option (list B);
  warning_printed : bool
}.

Definition cleanFeatures {B : Type} (constants : Constants) (x_features : np.mat)
    (should_use : list bool) (tensor_basis : option (list B)) : result (cleaned B) :=
  let st := last (clean_passes constants x_features) (clean_init x_features) in
  let mask := mask st in
  new_x_features <- np.getmask x_features mask ;;
  let new_should_use := repeat false (length should_use) in
  new_should_use <- np.setmask new_should_use should_use mask ;;
  match tensor_basis with
  | None =>
      Ok {| new_x_features := new_x_features; new_should_use := new_should_use;
            new_tensor_basis := None; warning_printed := warning_flag st |}
  | Some tensor_basis =>
      new_tensor_basis <- np.getmask tensor_basis mask ;;
      Ok {| new_x_features := new_x_features; new_should_use := new_should_use;
            new_tensor_basis := Some new_tensor_basis; warning_printed := warning_flag st |}
  end.

(* ================================================================== *)
(** ** fillPrt and fillAlpha *)

(** [if default_prt is None: default_prt = constants.PR_T] *)
Definition default_or_PR_T (constants : Constants) (default_prt : option float) : float :=
  match default_prt with
  | None => PR_T constants
  | Some p => p
  end.

Definition fillPrt (constants : Constants) (Prt : np.vec) (should_use : list bool)
    (default_prt : option float) : result np.vec :=
  let n_cells := length should_use in
  let n_useful := np.count_true should_use in
  assert (Nat.eqb (length Prt) n_useful) "Pr_t has wrong number of entries!" ;;;
  assert (forallb (fun x => PrimFloat.leb 0 x) Prt) "Found negative entries for Prt!" ;;;
  let default_prt := default_or_PR_T constants default_prt in
  assert (PrimFloat.ltb 0 default_prt)
         "default_prt must be a positive floating point number!" ;;;
  let Prt_full := map (fun one => PrimFloat.mul one default_prt) (repeat 1%float n_cells) in
  np.setmask Prt_full should_use Prt.

(** [a.shape[1] == 3 and a.shape[2] == 3] for an array given by its
    (n_useful) blocks. *)
Definition is_3x3 (m : np.mat) : bool :=
  Nat.eqb (length m) 3 && forallb (fun r => Nat.eqb (length r) 3) m.

(** [alphaij[:, i, i]] *)
Definition diag_entry (i : nat) (m : np.mat) : float := nth i (nth i m []) 0%float.

(** [a[:, i, i] = v] on an array of shape (n, 3, 3). *)
Definition set_diag (a : list np.mat) (i : nat) (v : float) : list np.mat :=
  map (fun m => firstn i m ++ (firstn i (nth i m []) ++ v :: skipn (S i) (nth i m []))
                  :: skipn (S i) m) a.

Definition fillAlpha (constants : Constants) (alphaij : list np.mat) (should_use : list bool)
    (default_prt : option float) : result (list np.mat) :=
  let n_cells := length should_use in
  let n_useful := np.count_true should_use in
  assert (Nat.eqb (length alphaij) n_useful) "alphaij has wrong number of entries!" ;;;
  assert (forallb is_3x3 alphaij) "alphaij is not a 3D tensor!" ;;;
  assert (forallb (fun m => PrimFloat.leb 0 (diag_entry 0 m)) alphaij)
         "Found negative entries for alpha_xx" ;;;
  assert (forallb (fun m => PrimFloat.leb 0 (diag_entry 1 m)) alphaij)
         "Found negative entries for alpha_yy" ;;;
  assert (forallb (fun m => PrimFloat.leb 0 (diag_entry 2 m)) alphaij)
         "Found negative entries for alpha_zz" ;;;
  let default_prt := default_or_PR_T constants default_prt in
  assert (PrimFloat.ltb 0 default_prt)
         "default_prt must be a positive floating point number!" ;;;
  let alphaij_full := repeat (repeat (repeat 0%float 3) 3) n_cells in
  let alphaij_full :=
    fold_left (fun a i => set_diag a i (PrimFloat.div 1 default_prt)) (seq 0 3) alphaij_full in
  np.setmask alphaij_full should_use alphaij.

(* ================================================================== *)
(** ** calculateGamma *)

(** [gamma[gamma > prt_cap] = prt_cap], then
    [gamma[gamma < 1.0/prt_cap] = 1.0/prt_cap].  [prt_cap] is a Python
    number, whose division by zero raises. *)
Definition clip_gamma (gamma : np.vec) (prt_cap : float) : result np.vec :=
  let gamma := map (fun g => if PrimFloat.ltb prt_cap g then prt_cap else g) gamma in
  if PrimFloat.eqb prt_cap 0 then Err ZeroDivisionError
  else
    let lo := PrimFloat.div 1 prt_cap in
    Ok (map (fun g => if PrimFloat.ltb g lo then lo else g) gamma).

(** The label before clipping. *)
Definition raw_gamma (mfq : MFQ.obj) (use_correction : bool) : result np.vec :=
  la <- MFQ.label_arrays mfq ;;
  let uc := MFQ.uc la in
  let gradT := MFQ.gradT mfq in
  let sq := fun x => PrimFloat.mul x x in
  let alpha_t :=
    if use_correction then
      let F1 :=
        np.map2 (fun n row => map (fun a => PrimFloat.add n a) row)
          (map (fun r => PrimFloat.sqrt (np.sum (map sq r))) uc)
          (np.map2 (fun urow ti => map (fun ui => PrimFloat.abs (PrimFloat.mul ui ti)) urow)
                   (MFQ.u la) (MFQ.t la)) in
      let F := map (map (fun f => PrimFloat.div 1 f)) F1 in
      let top := map np.sum (np.emul (np.emul F uc) gradT) in
      let bottom := map np.sum (np.emul (np.emul F gradT) gradT) in
      np.map2 PrimFloat.div (map (fun x => PrimFloat.mul (-1) x) top) bottom
    else
      let top := map np.sum (np.emul uc gradT) in
      let bottom := map np.sum (np.emul gradT gradT) in
      np.map2 PrimFloat.div (map (fun x => PrimFloat.mul (-1) x) top) bottom in
  Ok (np.map2 PrimFloat.mul alpha_t (np.map2 PrimFloat.div (MFQ.rho mfq) (MFQ.mut mfq))).

Definition calculateGamma (mfq : MFQ.obj) (prt_cap : float) (use_correction : bool)
  : result np.vec :=
  gamma <- raw_gamma mfq use_correction ;;
  clip_gamma gamma prt_cap.

(* ================================================================== *)
(** ** Downsampling and persistence *)

Section Persistence.

(** The state of numpy's global random generator, and
    [np.random.shuffle] on an index array. *)
Variable rng : Type.
Variable np_random_shuffle : rng -> list nat -> rng * list nat.

(** A training array is the list of its rows along the first axis. *)
Variable row : Type.

Definition downsampleIdx (g : rng) (n_total : nat) (downsample : option number)
  : result (rng * list nat) :=
  let idx_tot := seq 0 n_total in
  let (g, idx_tot) := np_random_shuffle g idx_tot in
  match downsample with
  | None => Ok (g, idx_tot)
  | Some downsample =>
      assert (number_positive downsample) "downsample must be greater than 0!" ;;;
      k <- int downsample ;;
      n_take <-
        (if (1 <? k)%Z then
           let n_take := k in
           Ok (if (Z.of_nat n_total <? n_take)%Z then Z.of_nat n_total else n_take)
         else
           n_take <- int (number_mul_int downsample (Z.of_nat n_total)) ;;
           Ok (if (Z.of_nat n_total <? n_take)%Z then Z.of_nat n_total else n_take)) ;;
      let idx := firstn (Z.to_nat n_take) idx_tot in
      Ok (g, idx)
  end.

(** [var[idx]]: the rows of [var] at the indices [idx]. *)
Definition take (var : list row) (idx : list nat) : result (list row) :=
  mapM (fun i => match nth_error var i with
                 | Some r => Ok r
                 | None => Err IndexError
                 end) idx.

(** What [joblib.dump] writes: the model type and the saved arrays. *)
Definition pickle : Type := string * list (list row).

(** The files on disk, by name. *)
Definition disk : Type := string -> option pickle.

Definition joblib_dump (fs : disk) (obj : pickle) (filename : string) : disk :=
  fun f => if String.eqb f filename then Some obj else fs f.

Definition joblib_load (fs : disk) (file : string) : result pickle :=
  match fs file with
  | Some obj => Ok obj
  | None => Err FileNotFoundError
  end.

Definition saveTrainingFeatures (g : rng) (fs : disk) (training_list : list (list row))
    (model_type : string) (filename : string) (downsample : option number)
  : result (rng * disk) :=
  first <- match training_list with
           | [] => Err IndexError
           | first :: _ => Ok first
           end ;;
  let n_total := length first in
  gi <- downsampleIdx g n_total downsample ;;
  let (g, idx) := gi : rng * list nat in
  save_var <- mapM (fun var => take var idx) training_list ;;
  Ok (g, joblib_dump fs (model_type, save_var) filename).

Definition loadTrainingFeatures (g : rng) (fs : disk) (file : string) (model_type : string)
    (downsample : option number) : result (rng * list (list row)) :=
  obj <- joblib_load fs file ;;
  let (model_type_disk, save_vars) := obj : pickle in
  assert (String.eqb model_type model_type_disk) "Features from the wrong model!" ;;;
  first <- match save_vars with
           | [] => Err IndexError
           | first :: _ => Ok first
           end ;;
  let n_points := length first in
  gi <- downsampleIdx g n_points downsample ;;
  let (g, idx) := gi : rng * list nat in
  training_list <-
    mapM (fun var =>
            assert (Nat.eqb (length var) n_points) "Wrong number of points in file" ;;;
            take var idx) save_vars ;;
  Ok (g, training_list).

End Persistence.

(* ================================================================== *)
(** ** Notions used in the statements *)

(** Less than or equal, read off a comparison of two floats. *)
Definition le_cmp (c : option comparison) : bool :=
  match c with Some Lt | Some Eq => true | _ => false end.

(** The isotropic default of [fillAlpha]: 1/default on the diagonal. *)
Definition isotropic (default_prt : float) : np.mat :=
  let a := PrimFloat.div 1 default_prt in
  [[a; 0; 0]; [0; a; 0]; [0; 0; a]]%float.

(** One entry through both clipping steps. *)
Definition clip1 (prt_cap g : float) : float :=
  let g := if PrimFloat.ltb prt_cap g then prt_cap else g in
  if PrimFloat.ltb g (PrimFloat.div 1 prt_cap) then PrimFloat.div 1 prt_cap else g.

(** The arrays that [check] validates on a feature instance. *)
Definition checked_arrays (self : MFQ.obj) (fa : MFQ.FeatureArrays) : list np.vec :=
  [MFQ.rho self; MFQ.mut self; MFQ.tke fa; MFQ.epsilon fa; MFQ.mu fa; MFQ.d fa].

(** An array of the wrong size, or with a negative entry. *)
Definition invalid (n : nat) (a : np.vec) : Prop :=
  length a <> n \/ Exists (fun x => PrimFloat.ltb x 0 = true) a.

Definition valid (n : nat) (a : np.vec) : Prop :=
  length a = n /\ Forall (fun x => PrimFloat.leb 0 x = true) a.

(** A tensor that passes the assertions of [fillAlpha]: 3x3 with a
    diagonal that is >= 0. *)
Definition valid_tensor (m : np.mat) : Prop :=
  is_3x3 m = true
  /\ PrimFloat.leb 0 (diag_entry 0 m) = true
  /\ PrimFloat.leb 0 (diag_entry 1 m) = true
  /\ PrimFloat.leb 0 (diag_entry 2 m) = true.

(** The sign of a float that is not [nan]. *)
Definition has_sign (s : bool) (x : spec_float) : Prop :=
  match x with
  | S754_zero s' | S754_infinity s' | S754_finite s' _ _ => s' = s
  | S754_nan => False
  end.

(** The state in which the loop of [cleanFeatures] stops: its mask is
    the one that is applied, its flag the one that is printed. *)
Definition clean_final (constants : Constants) (x_features : np.mat) : clean_state :=
  last (clean_passes constants x_features) (clean_init x_features).

(** A zero of either sign; a zero or a finite number. *)
Definition Zr (x : float) : Prop := exists s, Prim2SF x = S754_zero s.
Definition Fn (x : float) : Prop :=
  match Prim2SF x with
  | S754_zero _ | S754_finite _ _ _ => True
  | _ => False
  end.

(** A row of three entries, a tensor of three by three. *)
Definition row3 (r : np.vec) : Prop := length r = 3.
Definition tensor33 (m : np.mat) : Prop := is_3x3 m = true.

(** The band of feature [j]: mean - n_std*std and mean + n_std*std, the
    mean and the standard deviation being those of column [j] of the
    selected rows. *)
Definition band_lo (constants : Constants) (selected : np.mat) (j : nat) : float :=
  PrimFloat.sub (np.mean (np.column selected j))
                (PrimFloat.mul (N_STD constants) (np.std (np.column selected j))).

Definition band_hi (constants : Constants) (selected : np.mat) (j : nat) : float :=
  PrimFloat.add (np.mean (np.column selected j))
                (PrimFloat.mul (N_STD constants) (np.std (np.column selected j))).

(** The state every pass ends in when nothing is flagged. *)
Definition nothing_cleaned (x_features : np.mat) : clean_state :=
  {| mask := repeat true (length x_features); cleaned_exs := Some 0%Z;
     warning_flag := true |}.

(** Arrays without [nan] and without infinities. *)
Definition finite_vec (v : np.vec) : bool := forallb PrimFloat.is_finite v.
Definition finite_mat (m : np.mat) : bool := forallb finite_vec m.

(** The velocity gradient, its strain S, the square of S, the temperature
    gradient and its products with S and with the square of S are finite:
    none of the products that [calcInvariants] forms with the strain
    overflows. *)
Definition strain_finite (gradU : np.mat) (gradT : np.vec) : bool :=
  let S := calcInvariants_S gradU in
  let S2 := np.multi_dot [S; S] in
  finite_mat gradU && finite_mat S && finite_mat S2 && finite_vec gradT
  && finite_vec (np.vecmat gradT S) && finite_vec (np.vecmat gradT S2).

(** The keys of [var_names] that the constructor looks up, in the order
    of the lookups: five for both modes, then those of the mode. *)
Definition required_keys (labels : bool) : list string :=
  ["ddx_T"; "ddy_T"; "ddz_T"; "Density"; "turbulent viscosity"]
  ++ (if labels then ["U"; "V"; "W"; "uc"; "vc"; "wc"; "T"]
      else ["ddx_U"; "ddy_U"; "ddz_U"; "ddx_V"; "ddy_V"; "ddz_V";
            "ddx_W"; "ddy_W"; "ddz_W";
            "TKE"; "epsilon"; "laminar viscosity"; "distance to wall"]).

(** The two scalars that [calculateFeatures] appends to the invariants. *)
Definition Re_wall (mfq : MFQ.obj) (fa : MFQ.FeatureArrays) (should_use : list bool)
  : np.vec :=
  np.map2 PrimFloat.div
    (np.map2 PrimFloat.mul
       (np.map2 PrimFloat.mul (map PrimFloat.sqrt (np.select (MFQ.tke fa) should_use))
                              (np.select (MFQ.d fa) should_use))
       (np.select (MFQ.rho mfq) should_use))
    (np.select (MFQ.mu fa) should_use).

Definition nut_over_nu (mfq : MFQ.obj) (fa : MFQ.FeatureArrays) (should_use : list bool)
  : np.vec :=
  np.map2 PrimFloat.div (np.select (MFQ.mut mfq) should_use)
                        (np.select (MFQ.mu fa) should_use).

(* ================================================================== *)
(** ** Inputs for evaluation *)

(** A generator for evaluation: its state counts the calls and a shuffle
    reverses the array. *)
Definition reversing_shuffle (g : nat) (l : list nat) : nat * list nat := (S g, rev l).

(** The velocity gradient of a pure strain. *)
Definition pure_strain : np.mat := [[1; 0; 0]; [0; -1; 0]; [0; 0; 0]]%float.

(** Constants for evaluation: 15 features (13 invariants and 2 scalars),
    6 basis tensors, outliers beyond 2 standard deviations, at most 10
    passes, a tolerance of 0.5, at most half of the rows cleaned. *)
Definition constants_15 : Constants :=
  {| N_FEATURES := 15; N_BASIS := 6; N_STD := 2; MAX_ITER := 10;
     TOL := 0.5; MAX_CLEAN := 0.5; PR_T := 1 |}.

(** The C library's [pow] with base 1 is 1 whatever the exponent; this
    stand-in for [np_power] agrees with it there and is [nan] elsewhere. *)
Definition power_of_one (x y : float) : float :=
  if PrimFloat.eqb x 1 then 1%float else nan.

(** One cell with a temperature gradient of norm 1 and tke = epsilon = 1. *)
Definition one_cell : MFQ.obj :=
  {| MFQ.n_points := 1;
     MFQ.gradT := [[1; 0; 0]]%float;
     MFQ.rho := [1]%float;
     MFQ.mut := [1]%float;
     MFQ.mode := inr {| MFQ.gradU := [[[0; 0; 0]; [0; 0; 0]; [0; 0; 0]]]%float;
                        MFQ.tke := [1]%float; MFQ.epsilon := [1]%float;
                        MFQ.mu := [1]%float; MFQ.d := [1]%float |} |}.

(** One cell in label mode whose temperature gradient vanishes, and one
    whose label before clipping is 5. *)
Definition degenerate_cell : MFQ.obj :=
  {| MFQ.n_points := 1;
     MFQ.gradT := [[0; 0; 0]]%float;
     MFQ.rho := [1]%float;
     MFQ.mut := [1]%float;
     MFQ.mode := inl {| MFQ.u := [[1; 0; 0]]%float; MFQ.uc := [[0; 0; 0]]%float;
                        MFQ.t := [1]%float |} |}.

Definition label_cell : MFQ.obj :=
  {| MFQ.n_points := 1;
     MFQ.gradT := [[1; 0; 0]]%float;
     MFQ.rho := [1]%float;
     MFQ.mut := [1]%float;
     MFQ.mode := inl {| MFQ.u := [[1; 0; 0]]%float; MFQ.uc := [[-5; 0; 0]]%float;
                        MFQ.t := [1]%float |} |}.

(** Two outliers at +2 and -2 in the first feature, thirty rows at +1 and
    -1, and eight rows that sit at the mean of the first feature and are
    outliers in the second. *)
Definition noisy : np.mat :=
  ([[2; 0]; [-2; 0]] ++ repeat [1; 0] 15 ++ repeat [-1; 0] 15
   ++ repeat [0; 1] 4 ++ repeat [0; -1] 4)%float.

(** A disk without files, and two training arrays of ten rows each. *)
Definition empty_disk : disk nat := fun _ => None.
Definition ten_rows : list (list nat) := [seq 0 10; seq 100 10].

(** Three cells of which the first and the last are selected. *)
Definition three_cells : list bool := [true; false; true].

Definition two_tensors : list np.mat :=
  [[[1; 2; 3]; [4; 5; 6]; [7; 8; 9]]; [[0; -1; 0]; [1; 0; 0]; [0; 0; 2]]]%float.

(** Two rows, one per selected cell, in which nothing is an outlier. *)
Definition steady : np.mat := [[1; 5]; [1; 5]]%float.

(** A zone of two cells, every variable under its default name; in
    [bad_zone] the density of the second cell is negative. *)
Definition good_zone : MFQ.Zone :=
  {| MFQ.num_elements := 2; MFQ.values := fun _ => Ok [1; 2]%float |}.

Definition bad_zone : MFQ.Zone :=
  {| MFQ.num_elements := 2;
     MFQ.values := fun name => if String.eqb name "Density" then Ok [1; -2]%float
                               else Ok [1; 2]%float |}.

(** The gating mask and the tensor basis that go with [noisy]: 42 cells
    of which the 40 in the middle are selected, and one block of two
    tensors per selected cell. *)
Definition noisy_cells : list bool := false :: repeat true 40 ++ [false].
Definition noisy_basis : list (list np.mat) := repeat two_tensors 40.

(** A zone of three cells in which the density is stored with two
    entries only (a variable that is not cell centered). *)
Definition short_zone : MFQ.Zone :=
  {| MFQ.num_elements := 3;
     MFQ.values := fun name => if String.eqb name "Density" then Ok [1; 2]%float
                               else Ok [1; 2; 3]%float |}.

(** A feature container of one cell that holds a density of two entries. *)
Definition long_rho_cell : MFQ.obj :=
  {| MFQ.n_points := 1;
     MFQ.gradT := [[1; 0; 0]]%float;
     MFQ.rho := [1; 1]%float;
     MFQ.mut := [1]%float;
     MFQ.mode := inr {| MFQ.gradU := [[[0; 0; 0]; [0; 0; 0]; [0; 0; 0]]]%float;
                        MFQ.tke := [1]%float; MFQ.epsilon := [1]%float;
                        MFQ.mu := [1]%float; MFQ.d := [1]%float |} |}.

(** A disk with one file of two training arrays of unequal length. *)
Definition uneven_disk : disk nat :=
  fun f => if String.eqb f "features.pckl" then Some ("RF", [[1; 2; 3]; [4; 5]]) else None.

(** Two rows with a [nan] in each of the two columns. *)
Definition nan_rows : np.mat := [[nan; 1]; [2; nan]]%float.

(* ================================================================== *)
(** * Facts *)

(** ** Binary64 comparison, multiplication by one, division by zero *)

Module FloatFacts.

Lemma SFcompare_refl x : x <> S754_nan -> SFcompare x x = Some Eq.
Proof.
  destruct x as [s|s| |s m e]; simpl; intros H; try congruence.
  - destruct s; reflexivity.
  - rewrite Z.compare_refl.
    change (Pos.compare_cont Eq m m) with (Pos.compare m m).
    rewrite Pos.compare_refl. destruct s; reflexivity.
Qed.

Lemma SFcompare_antisym x y c :
  SFcompare x y = Some c -> SFcompare y x = Some (CompOpp c).
Proof.
  destruct x as [sx|sx| |sx mx ex], y as [sy|sy| |sy my ey]; simpl;
    try destruct sx; try destruct sy; simpl; intros H; inversion H; subst; clear H;
    try reflexivity.
  all: rewrite (Z.compare_antisym ex ey);
    change (Pos.compare_cont Eq my mx) with (Pos.compare my mx);
    change (Pos.compare_cont Eq mx my) with (Pos.compare mx my);
    rewrite (Pos.compare_antisym mx my);
    destruct (ex ?= ey)%Z; simpl; try reflexivity;
    destruct (mx ?= my)%positive; reflexivity.
Qed.

Lemma SFleb_le_cmp x y : SFleb x y = le_cmp (SFcompare x y).
Proof. unfold SFleb. destruct (SFcompare x y) as [[]|]; reflexivity. Qed.

Lemma SFleb_trans x y z : SFleb x y = true -> SFleb y z = true -> SFleb x z = true.
Proof.
  rewrite !SFleb_le_cmp.
  destruct x as [sx|sx| |sx mx ex], y as [sy|sy| |sy my ey], z as [sz|sz| |sz mz ez];
    simpl; try destruct sx; try destruct sy; try destruct sz; simpl;
    try reflexivity; try discriminate;
    change (Pos.compare_cont Eq) with Pos.compare;
    destruct (Z.compare_spec ex ey), (Z.compare_spec ey ez), (Z.compare_spec ex ez);
    simpl; try reflexivity; try discriminate; try lia; subst;
    destruct (Pos.compare_spec mx my), (Pos.compare_spec my mz), (Pos.compare_spec mx mz);
    simpl; try reflexivity; try discriminate; try lia.
Qed.

Lemma leb_trans (x y z : float) :
  PrimFloat.leb x y = true -> PrimFloat.leb y z = true -> PrimFloat.leb x z = true.
Proof. rewrite !leb_spec. apply SFleb_trans. Qed.

Lemma is_nan_spec (x : float) : is_nan x = false <-> Prim2SF x <> S754_nan.
Proof.
  unfold is_nan. rewrite eqb_spec. unfold SFeqb.
  destruct (Prim2SF x) as [s|s| |s m e] eqn:E; simpl.
  - split; [congruence | reflexivity].
  - destruct s; simpl; split; congruence.
  - split; [discriminate | congruence].
  - rewrite Z.compare_refl.
    change (Pos.compare_cont Eq m m) with (Pos.compare m m).
    rewrite Pos.compare_refl. destruct s; simpl; split; congruence.
Qed.

Lemma SFcompare_None x y :
  SFcompare x y = None -> x = S754_nan \/ y = S754_nan.
Proof.
  destruct x as [sx|sx| |sx mx ex], y as [sy|sy| |sy my ey]; simpl; auto; discriminate.
Qed.

Lemma leb_not_nan (x y : float) :
  PrimFloat.leb x y = true -> is_nan x = false /\ is_nan y = false.
Proof.
  rewrite leb_spec, !is_nan_spec, SFleb_le_cmp.
  destruct (Prim2SF x) as [sx|sx| |sx mx ex], (Prim2SF y) as [sy|sy| |sy my ey]; simpl;
    intros H; try discriminate; split; congruence.
Qed.

Lemma leb_refl (x : float) : is_nan x = false -> PrimFloat.leb x x = true.
Proof.
  rewrite is_nan_spec, leb_spec, SFleb_le_cmp. intros H.
  rewrite (@SFcompare_refl _ H). reflexivity.
Qed.

Lemma ltb_false_leb (x y : float) :
  is_nan x = false -> is_nan y = false -> PrimFloat.ltb x y = false -> PrimFloat.leb y x = true.
Proof.
  rewrite !is_nan_spec, ltb_spec, leb_spec, SFleb_le_cmp. unfold SFltb.
  intros Hx Hy H.
  destruct (SFcompare (Prim2SF x) (Prim2SF y)) as [c|] eqn:E.
  - rewrite (@SFcompare_antisym _ _ _ E). destruct c; simpl; try reflexivity; discriminate.
  - destruct (@SFcompare_None _ _ E); contradiction.
Qed.

Lemma leb_ltb_false (x y : float) :
  PrimFloat.leb x y = true -> PrimFloat.ltb y x = false.
Proof.
  rewrite ltb_spec, leb_spec, SFleb_le_cmp. unfold SFltb.
  destruct (SFcompare (Prim2SF x) (Prim2SF y)) as [c|] eqn:E; simpl; try discriminate.
  rewrite (@SFcompare_antisym _ _ _ E). destruct c; simpl; try reflexivity; discriminate.
Qed.

Lemma ltb_leb_false (x y : float) :
  PrimFloat.ltb x y = true -> PrimFloat.leb y x = false.
Proof.
  intros H. destruct (PrimFloat.leb y x) eqn:E; [|reflexivity].
  apply leb_ltb_false in E. congruence.
Qed.

(** Multiplying by the float 1 changes nothing. *)
Lemma mul_pow52 m : Pos.mul 4503599627370496 m = Pos.iter xO m 52.
Proof. reflexivity. Qed.

Lemma digits_iter_xO m n : Zpos (digits2_pos (Pos.iter xO m n)) = (Zpos (digits2_pos m) + Zpos n)%Z.
Proof.
  induction n using Pos.peano_ind.
  - simpl. lia.
  - rewrite Pos.iter_succ. simpl digits2_pos. lia.
Qed.

Lemma iter_pos_iter {A} (f : A -> A) n x : iter_pos f n x = Pos.iter f x n.
Proof.
  revert x. induction n; intros x; simpl.
  - rewrite !IHn, !Pos.iter_swap. reflexivity.
  - rewrite !IHn. reflexivity.
  - reflexivity.
Qed.

Lemma shr_iter_xO m n :
  Pos.iter shr_1 {| shr_m := Zpos (Pos.iter xO m n); shr_r := false; shr_s := false |} n
  = {| shr_m := Zpos m; shr_r := false; shr_s := false |}.
Proof.
  induction n using Pos.peano_ind.
  - reflexivity.
  - rewrite Pos.iter_succ_r. rewrite Pos.iter_succ. simpl shr_1. exact IHn.
Qed.

Lemma SFmul_1_l x : valid_binary x = true ->
  SFmul prec emax (S754_finite false 4503599627370496 (-52)) x = x.
Proof.
  intros V. destruct x as [s|s| |s m e]; try reflexivity.
  unfold SpecFloat.valid_binary, bounded, canonical_mantissa in V.
  apply andb_prop in V. destruct V as [V1 V2].
  apply Z.eqb_eq in V1. apply Z.leb_le in V2.
  unfold SFmul. rewrite mul_pow52.
  change (xorb false s) with s.
  unfold binary_round_aux, shr_fexp. unfold Zdigits2.
  rewrite digits_iter_xO.
  replace (fexp prec emax (Z.pos (digits2_pos m) + 52 + (-52 + e)) - (-52 + e))%Z with 52%Z.
  2:{ replace (Z.pos (digits2_pos m) + 52 + (-52 + e))%Z with (Z.pos (digits2_pos m) + e)%Z by lia.
      rewrite V1. lia. }
  unfold shr at 1. rewrite iter_pos_iter.
  unfold shr_record_of_loc. rewrite shr_iter_xO.
  cbv [shr_m loc_of_shr_record round_nearest_even Zdigits2].
  replace (-52 + e + 52)%Z with e by lia.
  rewrite V1, Z.sub_diag. cbv [shr].
  apply Z.leb_le in V2. rewrite V2. reflexivity.
Qed.

Lemma mul_1_l (d : float) : PrimFloat.mul 1 d = d.
Proof.
  apply Prim2SF_inj. rewrite mul_spec.
  replace (Prim2SF 1) with (S754_finite false 4503599627370496 (-52))
    by (vm_compute; reflexivity).
  apply SFmul_1_l, Prim2SF_valid.
Qed.

(** A float read from an unsigned integer is never negative. *)
Lemma of_uint63_sign (i : PrimInt63.int) :
  match Prim2SF (of_uint63 i) with
  | S754_zero s | S754_infinity s | S754_finite s _ _ => s = false
  | S754_nan => True
  end.
Proof.
  rewrite of_uint63_spec. unfold binary_normalize.
  pose proof (Uint63.to_Z_bounded i) as B.
  destruct (Uint63.to_Z i) as [|p|p]; [reflexivity| |lia].
  unfold binary_round.
  destruct (shl_align p 0 (fexp prec emax (Z.pos (digits2_pos p) + 0))) as [mz ez].
  unfold binary_round_aux.
  destruct (shr_fexp prec emax (Z.pos mz) ez loc_Exact) as [mrs' e'].
  destruct (shr_fexp prec emax _ e' loc_Exact) as [mrs'' e''].
  destruct (shr_m mrs''); [reflexivity| |exact I].
  destruct (e'' <=? emax - prec)%Z; reflexivity.
Qed.

(** A count divided by a zero count is [nan] or [+inf]: below nothing. *)
Lemma count_div_zero_not_lt (n : Z) (tol : float) :
  (0 <= n)%Z ->
  PrimFloat.ltb (PrimFloat.div (float_of_Z n) (float_of_Z 0)) tol = false.
Proof.
  intros Hn. unfold float_of_Z at 1.
  replace (n <? 0)%Z with false by (symmetry; apply Z.ltb_ge; exact Hn).
  rewrite ltb_spec, div_spec.
  replace (Prim2SF (float_of_Z 0)) with (S754_zero false) by (vm_compute; reflexivity).
  pose proof (of_uint63_sign (Uint63.of_Z n)) as S.
  destruct (Prim2SF (of_uint63 (Uint63.of_Z n))) as [s|s| |s m e]; subst; simpl;
    try reflexivity; destruct (Prim2SF tol) as [st|st| |st mt et]; try destruct st; reflexivity.
Qed.

(** Zero divided by anything is a zero or [nan]: above nothing that is
    not negative. *)
Lemma zero_div_not_gt (mc y : float) :
  PrimFloat.ltb mc 0 = false ->
  PrimFloat.ltb mc (PrimFloat.div (float_of_Z 0) y) = false.
Proof.
  rewrite !ltb_spec, div_spec.
  replace (Prim2SF (float_of_Z 0)) with (S754_zero false) by (vm_compute; reflexivity).
  replace (Prim2SF 0) with (S754_zero false) by (vm_compute; reflexivity).
  intros H.
  destruct (Prim2SF y) as [s|s| |s m e]; simpl SF64div; unfold SF64div, SFdiv;
    destruct (Prim2SF mc) as [sc|sc| |sc mc' ec]; try destruct sc; simpl in *;
    try reflexivity; try discriminate.
Qed.

End FloatFacts.

(** ** Masks: counting, selecting, scattering *)

Module MaskFacts.

Lemma count_true_le (m : list bool) : np.count_true m <= length m.
Proof. induction m as [|[] m IH]; simpl; lia. Qed.

Lemma count_true_repeat_true (n : nat) : np.count_true (repeat true n) = n.
Proof. induction n; simpl; congruence. Qed.

Lemma select_length {A : Type} (a : list A) (m : list bool) :
  length a = length m -> length (np.select a m) = np.count_true m.
Proof.
  revert m. induction a as [|x a IH]; intros [|b m] H; simpl in *; try discriminate;
    try reflexivity.
  injection H as H. destruct b; simpl; rewrite (IH m H); reflexivity.
Qed.

Lemma select_repeat_true {A : Type} (a : list A) :
  np.select a (repeat true (length a)) = a.
Proof. induction a; simpl; congruence. Qed.

Lemma scatter_length {A : Type} (full : list A) (m : list bool) (vals : list A) :
  length (np.scatter full m vals) = length full.
Proof.
  revert m vals. induction full as [|x full IH]; intros [|[] m] vals; simpl; try reflexivity.
  - destruct vals; simpl; rewrite IH; reflexivity.
  - rewrite IH; reflexivity.
Qed.

(** Reading back the selected positions returns the scattered values. *)
Lemma select_scatter {A : Type} (full : list A) (m : list bool) (vals : list A) :
  length full = length m -> length vals = np.count_true m ->
  np.select (np.scatter full m vals) m = vals.
Proof.
  revert m vals. induction full as [|x full IH]; intros [|[] m] vals Hl Hc; simpl in *;
    try discriminate.
  - destruct vals; [reflexivity | discriminate].
  - destruct vals as [|v vals]; [discriminate|]. simpl. f_equal. simpl in Hc. apply IH; lia.
  - apply IH; lia.
Qed.

(** A position that is not selected keeps what the array held. *)
Lemma scatter_unselected {A : Type} (full : list A) (m : list bool) (vals : list A) (i : nat) :
  nth_error m i = Some false ->
  nth_error (np.scatter full m vals) i = nth_error full i.
Proof.
  revert m vals i. induction full as [|x full IH]; intros [|b m] vals i H; try reflexivity.
  destruct i as [|i]; simpl in H.
  - inversion H; subst. reflexivity.
  - destruct b; simpl; [destruct vals|]; simpl; apply IH; exact H.
Qed.

Lemma count_true_scatter_false (m vals : list bool) :
  length vals = np.count_true m ->
  np.count_true (np.scatter (repeat false (length m)) m vals) = np.count_true vals.
Proof.
  revert vals. induction m as [|[] m IH]; intros vals H; simpl in *.
  - destruct vals; [reflexivity | discriminate].
  - destruct vals as [|v vals]; [discriminate|]. simpl in *. rewrite IH by lia. reflexivity.
  - apply IH. exact H.
Qed.

(** What was scattered into an all-[False] array is [True] only where
    the mask is. *)
Lemma scatter_false_subset (m vals : list bool) (i : nat) :
  nth_error (np.scatter (repeat false (length m)) m vals) i = Some true ->
  nth_error m i = Some true.
Proof.
  intros H.
  destruct (nth_error m i) as [[]|] eqn:E; [reflexivity| |].
  - rewrite scatter_unselected in H by exact E.
    apply nth_error_In, repeat_spec in H. discriminate.
  - apply nth_error_None in E.
    assert (nth_error (np.scatter (repeat false (length m)) m vals) i = None) as N.
    { apply nth_error_None. rewrite scatter_length, repeat_length. exact E. }
    congruence.
Qed.

End MaskFacts.

(* ================================================================== *)
(** * The invariants of a pure strain *)

(** C1.  For the velocity gradient [[1,0,0],[0,-1,0],[0,0,0]] and the
    temperature gradient [1,0,0], [calcInvariants] returns 13 entries of
    which those at 2, 3, 4, 5, 9, 10, 11 and 12 are exactly 0, entry 6
    is 1 and entry 7 is 2: the symmetric part is twice the gradient and
    the antisymmetric part is zero, neither being halved. *)
Theorem calcInvariants_pure_strain (constants : Constants) :
  N_FEATURES constants = 15 ->
  exists invariants,
    calcInvariants constants pure_strain [1; 0; 0]%float false = Ok (invariants, None)
    /\ length invariants = 13
    /\ (forall i, In i [2; 3; 4; 5; 9; 10; 11; 12] -> nth i invariants nan = 0%float)
    /\ nth 6 invariants nan = 1%float
    /\ nth 7 invariants nan = 2%float
    /\ calcInvariants_S pure_strain = map (map (fun x => PrimFloat.mul 2 x)) pure_strain
    /\ calcInvariants_R pure_strain = repeat (repeat 0%float 3) 3.
Proof.
  intros H.
  exists [8; 0; 0; 0; 0; 0; 1; 2; 4; 0; 0; 0; 0]%float.
  split.
  - unfold calcInvariants. rewrite H. vm_compute. reflexivity.
  - split; [reflexivity|]. split.
    + intros i Hi. simpl in Hi.
      repeat (destruct Hi as [<-|Hi]; [reflexivity|]). contradiction.
    + repeat split; vm_compute; reflexivity.
Qed.

Lemma calcInvariants_pure_strain_witness :
  N_FEATURES constants_15 = 15 /\
  exists invariants,
    calcInvariants constants_15 pure_strain [1; 0; 0]%float false = Ok (invariants, None)
    /\ length invariants = 13
    /\ (forall i, In i [2; 3; 4; 5; 9; 10; 11; 12] -> nth i invariants nan = 0%float)
    /\ nth 6 invariants nan = 1%float
    /\ nth 7 invariants nan = 2%float
    /\ calcInvariants_S pure_strain = map (map (fun x => PrimFloat.mul 2 x)) pure_strain
    /\ calcInvariants_R pure_strain = repeat (repeat 0%float 3) 3.
Proof.
  split; [reflexivity|].
  apply (@calcInvariants_pure_strain constants_15). reflexivity.
Defined.

(* ================================================================== *)
(** * Downsampling and the persistence round trip *)

Module MonadFacts.

Lemma mapM_Forall2 {A B : Type} (f : A -> result B) (l : list A) (r : list B) :
  mapM f l = Ok r <-> Forall2 (fun a b => f a = Ok b) l r.
Proof.
  revert r. induction l as [|a l IH]; intros r; simpl.
  - split; intros H; [inversion H; constructor | inversion H; reflexivity].
  - split.
    + intros H. destruct (f a) as [b|e] eqn:Ea; simpl in H; [|discriminate].
      destruct (mapM f l) as [bs|e] eqn:El; simpl in H; [|discriminate].
      inversion H; subst. constructor; [exact Ea | apply IH; reflexivity].
    + intros H. inversion H as [|a' b l' bs Ha Hl]; subst.
      rewrite Ha. simpl. apply IH in Hl. rewrite Hl. reflexivity.
Qed.

Lemma mapM_total {A B : Type} (f : A -> result B) (P : A -> Prop) (l : list A) :
  (forall a, P a -> exists b, f a = Ok b) -> Forall P l -> exists r, mapM f l = Ok r.
Proof.
  intros Hf H. induction H as [|a l Ha Hl [r IH]]; simpl.
  - exists []. reflexivity.
  - destruct (Hf a Ha) as [b Hb]. exists (b :: r). rewrite Hb, IH. reflexivity.
Qed.

End MonadFacts.

Section PersistenceFacts.

Variable rng : Type.
Variable np_random_shuffle : rng -> list nat -> rng * list nat.
Variable row : Type.

(** Shuffling an array permutes it. *)
Hypothesis shuffle_Permutation :
  forall g l, Permutation (snd (np_random_shuffle g l)) l.

Lemma take_spec (var : list row) (idx : list nat) (r : list row) :
  take var idx = Ok r <-> Forall2 (fun i x => nth_error var i = Some x) idx r.
Proof.
  unfold take. rewrite MonadFacts.mapM_Forall2.
  split; intros H; induction H as [|i x idx' r' Hi _ IH]; constructor; try exact IH.
  - destruct (nth_error var i); [inversion Hi; reflexivity | discriminate].
  - rewrite Hi. reflexivity.
Qed.

Lemma take_length (var : list row) (idx : list nat) (r : list row) :
  take var idx = Ok r -> length r = length idx.
Proof.
  rewrite take_spec. intros H. symmetry. eapply Forall2_length. exact H.
Qed.

Lemma take_total (var : list row) (idx : list nat) :
  Forall (fun i => i < length var) idx -> exists r, take var idx = Ok r.
Proof.
  intros H. unfold take.
  apply MonadFacts.mapM_total with (P := fun i => i < length var); [|exact H].
  intros i Hi. destruct (nth_error var i) as [x|] eqn:E; [exists x; reflexivity|].
  apply nth_error_None in E. lia.
Qed.

Lemma map_nth_error_seq (var : list row) :
  map (nth_error var) (seq 0 (length var)) = map Some var.
Proof.
  induction var as [|x var IH]; [reflexivity|].
  simpl. f_equal. rewrite <- seq_shift, map_map. exact IH.
Qed.

Lemma map_Some_inj (l l' : list row) : map Some l = map Some l' -> l = l'.
Proof.
  revert l'. induction l as [|x l IH]; intros [|y l'] H; simpl in H; try discriminate.
  - reflexivity.
  - inversion H; subst. f_equal. apply IH. assumption.
Qed.

(** Taking the rows at a permutation of all indices permutes the rows. *)
Lemma take_Permutation (var : list row) (idx : list nat) (r : list row) :
  Permutation idx (seq 0 (length var)) -> take var idx = Ok r -> Permutation var r.
Proof.
  intros Hp Ht. apply take_spec in Ht.
  assert (map Some r = map (nth_error var) idx) as E.
  { clear Hp. induction Ht as [|i x idx' r' Hi _ IH]; simpl; [reflexivity|]. rewrite Hi. f_equal.
    exact IH. }
  apply (Permutation_map (nth_error var)) in Hp.
  rewrite map_nth_error_seq, <- E in Hp.
  apply Permutation_map_inv in Hp. destruct Hp as [l3 [E3 Hp]].
  apply map_Some_inj in E3. subst l3. exact Hp.
Qed.

Lemma map_nth_seq (l : list nat) : map (fun j => nth j l 0) (seq 0 (length l)) = l.
Proof.
  induction l as [|x l IH]; [reflexivity|].
  simpl. f_equal. rewrite <- seq_shift, map_map. exact IH.
Qed.

(** Indexing twice is indexing once with the composed indices. *)
Lemma take_take (var s r : list row) (idx1 idx2 : list nat) :
  take var idx1 = Ok s -> take s idx2 = Ok r ->
  take var (map (fun j => nth j idx1 0) idx2) = Ok r.
Proof.
  rewrite !take_spec. intros H1 H2.
  induction H2 as [|j x idx2' r' Hj _ IH]; simpl; constructor; [|exact IH].
  clear IH. revert j Hj. induction H1 as [|i y idx1' s' Hi _ IH]; intros j Hj.
  - destruct j; discriminate.
  - destruct j as [|j]; simpl in *.
    + inversion Hj; subst. exact Hi.
    + apply IH. exact Hj.
Qed.

Lemma compose_Permutation (n : nat) (idx1 idx2 : list nat) :
  Permutation idx1 (seq 0 n) -> Permutation idx2 (seq 0 n) ->
  Permutation (map (fun j => nth j idx1 0) idx2) (seq 0 n).
Proof.
  intros H1 H2.
  assert (length idx1 = n) as L.
  { rewrite (Permutation_length H1). apply length_seq. }
  apply (Permutation_map (fun j => nth j idx1 0)) in H2.
  rewrite <- L, map_nth_seq in H2.
  eapply Permutation_trans; eassumption.
Qed.

(** Without a downsampling spec the indices are the shuffled range. *)
Lemma downsampleIdx_None (g : rng) (n : nat) :
  exists g' idx,
    downsampleIdx np_random_shuffle g n None = Ok (g', idx)
    /\ Permutation idx (seq 0 n).
Proof.
  unfold downsampleIdx.
  pose proof (shuffle_Permutation g (seq 0 n)) as P.
  destruct (np_random_shuffle g (seq 0 n)) as [g' idx]. simpl in P.
  exists g', idx. split; [reflexivity | exact P].
Qed.

(** With the spec 1.5 on ten rows the fraction branch takes them all. *)
Lemma downsampleIdx_1_5 (g : rng) :
  exists g' idx,
    downsampleIdx np_random_shuffle g 10 (Some (PyFloat 1.5)) = Ok (g', idx)
    /\ Permutation idx (seq 0 10).
Proof.
  unfold downsampleIdx.
  pose proof (shuffle_Permutation g (seq 0 10)) as P.
  destruct (np_random_shuffle g (seq 0 10)) as [g' idx]. simpl snd in P.
  exists g', idx. split; [|exact P].
  assert (length idx = 10) as L by (rewrite (Permutation_length P); reflexivity).
  replace (number_positive (PyFloat 1.5)) with true by (vm_compute; reflexivity).
  replace (int (PyFloat 1.5)) with (Ok 1%Z) by (vm_compute; reflexivity).
  replace (int (number_mul_int (PyFloat 1.5) (Z.of_nat 10))) with (Ok 15%Z)
    by (vm_compute; reflexivity).
  cbn -[firstn]. rewrite <- L at 1. rewrite firstn_all. reflexivity.
Qed.

(** Saving arrays of [n] rows with indices that permute [0..n-1] stores
    arrays of [n] rows. *)
Lemma save_var_rows (training_list : list (list row)) (idx : list nat) (n : nat) :
  Forall (fun var => length var = n) training_list ->
  Permutation idx (seq 0 n) ->
  exists save_var,
    mapM (fun var => take var idx) training_list = Ok save_var
    /\ Forall2 (fun var saved => take var idx = Ok saved /\ length saved = n)
               training_list save_var.
Proof.
  intros H P. induction H as [|var l Hv Hl [sv [E IH]]]; simpl.
  - exists []. split; [reflexivity | constructor].
  - destruct (@take_total var idx) as [s Hs].
    { rewrite Hv. apply Forall_forall. intros i Hi.
      apply (Permutation_in _ P), in_seq in Hi. lia. }
    exists (s :: sv). rewrite Hs, E. split; [reflexivity|].
    constructor; [|exact IH]. split; [exact Hs|].
    rewrite (take_length _ _ Hs), (Permutation_length P). apply length_seq.
Qed.

(** Loading arrays of [n] rows: every size assertion passes. *)
Lemma load_vars_rows (save_vars : list (list row)) (idx : list nat) (n : nat) (msg : string) :
  Forall (fun var => length var = n) save_vars ->
  Permutation idx (seq 0 n) ->
  exists training_list,
    mapM (fun var => assert (Nat.eqb (length var) n) msg ;;; take var idx) save_vars
      = Ok training_list
    /\ Forall2 (fun var loaded => take var idx = Ok loaded) save_vars training_list.
Proof.
  intros H P. induction H as [|var l Hv Hl [tl [E IH]]]; simpl.
  - exists []. split; [reflexivity | constructor].
  - destruct (@take_total var idx) as [s Hs].
    { rewrite Hv. apply Forall_forall. intros i Hi.
      apply (Permutation_in _ P), in_seq in Hi. lia. }
    exists (s :: tl). rewrite Hv, Nat.eqb_refl. simpl. rewrite Hs, E.
    split; [reflexivity|]. constructor; assumption.
Qed.

Lemma Forall2_take_take (training_list save_var loaded : list (list row))
    (idx1 idx2 : list nat) (n : nat) :
  Forall2 (fun var saved => take var idx1 = Ok saved /\ length saved = n)
          training_list save_var ->
  Forall2 (fun var l => take var idx2 = Ok l) save_var loaded ->
  Forall2 (fun var l => take var (map (fun j => nth j idx1 0) idx2) = Ok l)
          training_list loaded.
Proof.
  intros H. revert loaded.
  induction H as [|var s tl sv [Hs _] _ IH]; intros loaded H2; inversion H2; subst;
    constructor.
  - eapply take_take; eassumption.
  - apply IH. assumption.
Qed.

(** C2, amended.  On a 10-row dataset the downsample spec 1.5 selects
    all 10 rows, in [downsampleIdx] and hence in [saveTrainingFeatures]:
    [int(1.5)] is 1, which is not above 1, so the spec is read as a
    fraction, and [int(1.5 * 10)] = 15 is clamped to the 10 rows. *)
Theorem downsample_1_5_takes_all_rows (g : rng) (fs : disk row)
    (training_list : list (list row)) (model_type filename : string) :
  training_list <> [] ->
  Forall (fun var => length var = 10) training_list ->
  (exists g' idx,
     downsampleIdx np_random_shuffle g 10 (Some (PyFloat 1.5)) = Ok (g', idx)
     /\ length idx = 10)
  /\ (exists g' fs' save_var,
        saveTrainingFeatures np_random_shuffle g fs training_list model_type filename
          (Some (PyFloat 1.5)) = Ok (g', fs')
        /\ fs' filename = Some (model_type, save_var)
        /\ Forall (fun saved => length saved = 10) save_var).
Proof.
  intros Hne Hrows.
  destruct (downsampleIdx_1_5 g) as (g' & idx & E & P).
  split.
  - exists g', idx. split; [exact E|].
    rewrite (Permutation_length P). reflexivity.
  - destruct training_list as [|first rest]; [contradiction|].
    unfold saveTrainingFeatures. cbn [bind].
    inversion Hrows as [|? ? Hfirst _]; subst.
    rewrite Hfirst, E. cbn [bind].
    destruct (save_var_rows Hrows P) as (save_var & Esv & F).
    rewrite Esv. simpl.
    exists g', (joblib_dump fs (model_type, save_var) filename), save_var.
    split; [reflexivity|]. split.
    + unfold joblib_dump. rewrite String.eqb_refl. reflexivity.
    + clear -F. induction F as [|? ? ? ? [_ L] _ IH]; constructor; assumption.
Qed.

(** C7.  Loading, with the same model type and no downsampling, a file
    that [saveTrainingFeatures] wrote without downsampling returns the
    saved arrays with their rows reordered by one common permutation (so
    each array holds the same rows); loading it with another model type
    fails on the assertion of the model type. *)
Theorem persistence_round_trip (g g2 : rng) (fs : disk row)
    (training_list : list (list row)) (model_type filename : string) :
  training_list <> [] ->
  Forall (fun var => length var = length (hd [] training_list)) training_list ->
  exists g1 fs1,
    saveTrainingFeatures np_random_shuffle g fs training_list model_type filename None
      = Ok (g1, fs1)
    /\ (exists g3 loaded idx,
          loadTrainingFeatures np_random_shuffle g2 fs1 filename model_type None
            = Ok (g3, loaded)
          /\ Permutation idx (seq 0 (length (hd [] training_list)))
          /\ mapM (fun var => take var idx) training_list = Ok loaded
          /\ Forall2 (@Permutation row) training_list loaded)
    /\ (forall wrong downsample, wrong <> model_type ->
          is_ValidationError
            (loadTrainingFeatures np_random_shuffle g2 fs1 filename wrong downsample)).
Proof.
  intros Hne Hrows.
  destruct training_list as [|first rest]; [contradiction|].
  simpl hd in *. set (n := length first) in *.
  destruct (downsampleIdx_None g n) as (g1 & idx1 & E1 & P1).
  destruct (save_var_rows Hrows P1) as (save_var & Esv & F).
  exists g1, (joblib_dump fs (model_type, save_var) filename).
  split; [|split].
  - unfold saveTrainingFeatures. cbn [bind]. fold n. rewrite E1. cbn [bind].
    rewrite Esv. reflexivity.
  - destruct (downsampleIdx_None g2 n) as (g3 & idx2 & E2 & P2).
    assert (Forall (fun var => length var = n) save_var) as Hsv.
    { clear -F. induction F as [|? ? ? ? [_ L] _ IH]; constructor; assumption. }
    destruct (load_vars_rows "Wrong number of points in file" Hsv P2) as (loaded & El & F2).
    exists g3, loaded, (map (fun j => nth j idx1 0) idx2).
    split; [|split; [|split]].
    + unfold loadTrainingFeatures, joblib_load, joblib_dump.
      rewrite String.eqb_refl. cbn [bind]. rewrite String.eqb_refl. cbn [bind].
      inversion F as [|? s ? svr [_ Ls] _]; subst. cbn [bind].
      rewrite Ls, E2. cbn [bind]. rewrite El. reflexivity.
    + apply compose_Permutation; assumption.
    + apply MonadFacts.mapM_Forall2. eapply Forall2_take_take; eassumption.
    + pose proof (@Forall2_take_take _ _ _ _ _ _ F F2) as C.
      pose proof (@compose_Permutation _ _ _ P1 P2) as PC.
      clear -C PC Hrows. revert C Hrows. generalize (first :: rest) as tl.
      intros tl C. induction C as [|var l tl' ld Hv _ IH]; intros Hrows; constructor.
      * inversion Hrows; subst. eapply take_Permutation; [|exact Hv].
        replace (length var) with n by (symmetry; assumption). exact PC.
      * apply IH. inversion Hrows; assumption.
  - intros wrong downsample Hw.
    unfold loadTrainingFeatures, joblib_load, joblib_dump.
    rewrite String.eqb_refl. cbn [bind].
    apply String.eqb_neq in Hw. rewrite Hw. exact I.
Qed.

End PersistenceFacts.

(** The spec 1.5 on ten rows does not select exactly one row. *)
Lemma downsample_1_5_not_one_row :
  exists g' idx,
    downsampleIdx reversing_shuffle 0 10 (Some (PyFloat 1.5)) = Ok (g', idx)
    /\ length idx = 10 /\ length idx <> 1.
Proof.
  exists 1, [9; 8; 7; 6; 5; 4; 3; 2; 1; 0].
  split; [vm_compute; reflexivity|]. split; [reflexivity | discriminate].
Qed.

Lemma reversing_shuffle_Permutation :
  forall g l, Permutation (snd (reversing_shuffle g l)) l.
Proof. intros g l. simpl. apply Permutation_sym, Permutation_rev. Qed.

(* ================================================================== *)
(** * Scattering predictions back onto the mesh *)

Lemma nth_error_repeat_lt {A : Type} (a : A) (n i : nat) :
  i < n -> nth_error (repeat a n) i = Some a.
Proof.
  revert i. induction n as [|n IH]; intros i H; [lia|].
  destruct i as [|i]; simpl; [reflexivity | apply IH; lia].
Qed.

Lemma fillAlpha_default (n : nat) (a : float) :
  fold_left (fun t i => set_diag t i a) (seq 0 3) (repeat (repeat (repeat 0%float 3) 3) n)
  = repeat [[a; 0; 0]; [0; a; 0]; [0; 0; a]]%float n.
Proof.
  cbn [fold_left seq]. unfold set_diag. rewrite !map_repeat. reflexivity.
Qed.

(** C4.  For a mask, values on its [True] positions that pass the
    validation (as many nonnegative values as selected cells; for the
    tensors 3x3 blocks with nonnegative diagonals) and a positive
    default, [fillPrt] returns an array that holds exactly the values at
    the [True] positions and the default at every [False] position, and
    [fillAlpha] one that holds the tensors at the [True] positions and
    the diagonal matrix of 1/default at every [False] position. *)
Theorem fill_round_trip (constants : Constants) (should_use : list bool)
    (Prt : np.vec) (alphaij : list np.mat) (default_prt : option float) :
  length Prt = np.count_true should_use ->
  Forall (fun x => PrimFloat.leb 0 x = true) Prt ->
  length alphaij = np.count_true should_use ->
  Forall (fun m => is_3x3 m = true
                   /\ PrimFloat.leb 0 (diag_entry 0 m) = true
                   /\ PrimFloat.leb 0 (diag_entry 1 m) = true
                   /\ PrimFloat.leb 0 (diag_entry 2 m) = true) alphaij ->
  PrimFloat.ltb 0 (default_or_PR_T constants default_prt) = true ->
  (exists Prt_full,
     fillPrt constants Prt should_use default_prt = Ok Prt_full
     /\ np.select Prt_full should_use = Prt
     /\ forall i, nth_error should_use i = Some false ->
                  nth_error Prt_full i = Some (default_or_PR_T constants default_prt))
  /\ (exists alphaij_full,
        fillAlpha constants alphaij should_use default_prt = Ok alphaij_full
        /\ np.select alphaij_full should_use = alphaij
        /\ forall i, nth_error should_use i = Some false ->
                     nth_error alphaij_full i
                     = Some (isotropic (default_or_PR_T constants default_prt))).
Proof.
  intros HP HPn HA HAn Hd. set (d := default_or_PR_T constants default_prt) in *. split.
  - exists (np.scatter (repeat d (length should_use)) should_use Prt).
    split; [|split].
    + unfold fillPrt. rewrite HP, Nat.eqb_refl. cbn [assert bind].
      replace (forallb (fun x => PrimFloat.leb 0 x) Prt) with true
        by (symmetry; apply forallb_forall, Forall_forall; exact HPn).
      cbn [assert bind]. fold d. rewrite Hd. cbn [assert bind].
      rewrite map_repeat, FloatFacts.mul_1_l.
      unfold np.setmask. rewrite repeat_length, Nat.eqb_refl, HP, Nat.eqb_refl.
      reflexivity.
    + apply MaskFacts.select_scatter; [apply repeat_length | exact HP].
    + intros i Hi. rewrite MaskFacts.scatter_unselected by exact Hi.
      apply nth_error_repeat_lt. apply nth_error_Some. congruence.
  - exists (np.scatter (repeat (isotropic d) (length should_use)) should_use alphaij).
    split; [|split].
    + unfold fillAlpha. rewrite HA, Nat.eqb_refl. cbn [assert bind].
      replace (forallb is_3x3 alphaij) with true.
      2:{ symmetry. apply forallb_forall. intros m Hm.
          apply (proj1 (Forall_forall _ _) HAn m Hm). }
      cbn [assert bind].
      replace (forallb (fun m => PrimFloat.leb 0 (diag_entry 0 m)) alphaij) with true.
      2:{ symmetry. apply forallb_forall. intros m Hm.
          apply (proj1 (Forall_forall _ _) HAn m Hm). }
      cbn [assert bind].
      replace (forallb (fun m => PrimFloat.leb 0 (diag_entry 1 m)) alphaij) with true.
      2:{ symmetry. apply forallb_forall. intros m Hm.
          apply (proj1 (Forall_forall _ _) HAn m Hm). }
      cbn [assert bind].
      replace (forallb (fun m => PrimFloat.leb 0 (diag_entry 2 m)) alphaij) with true.
      2:{ symmetry. apply forallb_forall. intros m Hm.
          apply (proj1 (Forall_forall _ _) HAn m Hm). }
      cbn [assert bind]. fold d. rewrite Hd. cbn [assert bind].
      rewrite fillAlpha_default. fold (isotropic d).
      unfold np.setmask. rewrite repeat_length, Nat.eqb_refl, HA, Nat.eqb_refl.
      reflexivity.
    + apply MaskFacts.select_scatter; [apply repeat_length | exact HA].
    + intros i Hi. rewrite MaskFacts.scatter_unselected by exact Hi.
      apply nth_error_repeat_lt. apply nth_error_Some. congruence.
Qed.

(* ================================================================== *)
(** * The gating mask and its threshold *)

Lemma threshold_mask_antitone (grad_mag : np.vec) (t1 t2 : float) :
  PrimFloat.leb t1 t2 = true ->
  let m1 := map (fun g => PrimFloat.leb t1 g) grad_mag in
  let m2 := map (fun g => PrimFloat.leb t2 g) grad_mag in
  np.count_true m2 <= np.count_true m1
  /\ forall i, nth_error m2 i = Some true -> nth_error m1 i = Some true.
Proof.
  intros H. induction grad_mag as [|g gm [IHc IHp]]; simpl.
  - split; [lia|]. intros i Hi. destruct i; discriminate.
  - assert (PrimFloat.leb t2 g = true -> PrimFloat.leb t1 g = true) as Hg.
    { intros H2. exact (FloatFacts.leb_trans H H2). }
    split.
    + destruct (PrimFloat.leb t2 g); [rewrite Hg by reflexivity; lia|].
      destruct (PrimFloat.leb t1 g); lia.
    + intros [|i] Hi; simpl in *.
      * inversion Hi as [Hi']. rewrite Hi'. rewrite Hg by exact Hi'. reflexivity.
      * apply IHp. exact Hi.
Qed.

(** C5, amended.  [calculateShouldUse] is monotonic in the threshold:
    for thresholds t1 <= t2 the mask at t2 has at most as many [True]
    entries as the mask at t1, and the mask at t2 pointwise implies the
    mask at t1 (a cell selected at t2 is selected at t1). *)
Theorem calculateShouldUse_monotone (np_power : float -> float -> float)
    (mfq : MFQ.obj) (fa : MFQ.FeatureArrays) (t1 t2 : float) :
  MFQ.mode mfq = inr fa ->
  PrimFloat.leb t1 t2 = true ->
  exists m1 m2,
    calculateShouldUse np_power mfq t1 = Ok m1
    /\ calculateShouldUse np_power mfq t2 = Ok m2
    /\ np.count_true m2 <= np.count_true m1
    /\ forall i, nth_error m2 i = Some true -> nth_error m1 i = Some true.
Proof.
  intros Hm Ht. unfold calculateShouldUse, MFQ.feature_arrays. rewrite Hm. cbn [bind].
  eexists. eexists. split; [reflexivity|]. split; [reflexivity|].
  apply threshold_mask_antitone. exact Ht.
Qed.

(** The mask at the lower threshold does not imply the mask at the
    higher one: the cell is selected at 0 and not selected at 2. *)
Lemma lower_threshold_mask_not_below :
  PrimFloat.leb 0 2 = true
  /\ calculateShouldUse power_of_one one_cell 0 = Ok [true]
  /\ calculateShouldUse power_of_one one_cell 2 = Ok [false]
  /\ ~ (forall i, nth_error [true] i = Some true -> nth_error [false] i = Some true).
Proof.
  split; [reflexivity|]. split; [vm_compute; reflexivity|].
  split; [vm_compute; reflexivity|].
  intros H. specialize (H 0 eq_refl). discriminate.
Qed.

Lemma calculateShouldUse_monotone_witness :
  PrimFloat.leb 0 2 = true /\
  exists m1 m2,
    calculateShouldUse power_of_one one_cell 0 = Ok m1
    /\ calculateShouldUse power_of_one one_cell 2 = Ok m2
    /\ np.count_true m2 <= np.count_true m1
    /\ forall i, nth_error m2 i = Some true -> nth_error m1 i = Some true.
Proof.
  split; [reflexivity|].
  exact (@calculateShouldUse_monotone power_of_one one_cell _ 0%float 2%float
           eq_refl eq_refl).
Defined.

(* ================================================================== *)
(** * Clipping the label *)

Lemma clip1_bounds (prt_cap g : float) :
  PrimFloat.leb (PrimFloat.div 1 prt_cap) prt_cap = true ->
  is_nan g = false ->
  PrimFloat.leb (PrimFloat.div 1 prt_cap) (clip1 prt_cap g) = true
  /\ PrimFloat.leb (clip1 prt_cap g) prt_cap = true.
Proof.
  intros Hc Hg. unfold clip1.
  destruct (FloatFacts.leb_not_nan Hc) as [Nlo Ncap].
  destruct (PrimFloat.ltb prt_cap g) eqn:E1.
  - rewrite (FloatFacts.leb_ltb_false Hc).
    split; [exact Hc | apply FloatFacts.leb_refl; exact Ncap].
  - pose proof (FloatFacts.ltb_false_leb Ncap Hg E1) as Hle.
    destruct (PrimFloat.ltb g (PrimFloat.div 1 prt_cap)) eqn:E2.
    + split; [apply FloatFacts.leb_refl; exact Nlo | exact Hc].
    + split; [apply FloatFacts.ltb_false_leb; assumption | exact Hle].
Qed.

Lemma clip1_nan (prt_cap : float) : clip1 prt_cap nan = nan.
Proof.
  unfold clip1.
  assert (forall x, PrimFloat.ltb x nan = false /\ PrimFloat.ltb nan x = false) as N.
  { intros x. rewrite !ltb_spec.
    replace (Prim2SF nan) with S754_nan by reflexivity.
    destruct (Prim2SF x); split; reflexivity. }
  rewrite (proj1 (N prt_cap)), (proj2 (N _)). reflexivity.
Qed.

(** C6, amended.  For a positive cap with 1/cap <= cap (a cap of at
    least 1) [calculateGamma], plain or corrected, returns one entry per
    unclipped label, and every entry whose unclipped label is not [nan]
    lies in the closed interval [1/cap, cap]; a [nan] label is returned
    as it is. *)
Theorem calculateGamma_clipped (mfq : MFQ.obj) (la : MFQ.LabelArrays)
    (prt_cap : float) (use_correction : bool) :
  MFQ.mode mfq = inl la ->
  PrimFloat.ltb 0 prt_cap = true ->
  PrimFloat.leb (PrimFloat.div 1 prt_cap) prt_cap = true ->
  exists raw gamma,
    raw_gamma mfq use_correction = Ok raw
    /\ calculateGamma mfq prt_cap use_correction = Ok gamma
    /\ length gamma = length raw
    /\ forall i g, nth_error raw i = Some g ->
         (is_nan g = false ->
          exists c, nth_error gamma i = Some c
                    /\ PrimFloat.leb (PrimFloat.div 1 prt_cap) c = true
                    /\ PrimFloat.leb c prt_cap = true)
         /\ (is_nan g = true -> nth_error gamma i = Some nan).
Proof.
  intros Hm Hpos Hc.
  assert (PrimFloat.eqb prt_cap 0 = false) as Hz.
  { rewrite eqb_spec. rewrite ltb_spec in Hpos. unfold SFltb in Hpos. unfold SFeqb.
    destruct (SFcompare (Prim2SF 0) (Prim2SF prt_cap)) as [c|] eqn:E; [|discriminate].
    rewrite (@FloatFacts.SFcompare_antisym _ _ _ E).
    destruct c; try discriminate. reflexivity. }
  assert (exists raw, raw_gamma mfq use_correction = Ok raw) as [raw Hraw].
  { unfold raw_gamma, MFQ.label_arrays. rewrite Hm. cbn [bind]. eexists. reflexivity. }
  exists raw, (map (clip1 prt_cap) raw).
  split; [exact Hraw|]. split; [|split].
  - unfold calculateGamma. rewrite Hraw. cbn [bind]. unfold clip_gamma. rewrite Hz.
    rewrite map_map. reflexivity.
  - apply length_map.
  - intros i g Hi. rewrite nth_error_map, Hi. simpl option_map. split.
    + intros Hg. exists (clip1 prt_cap g). split; [reflexivity|].
      apply clip1_bounds; assumption.
    + intros Hg. f_equal.
      assert (g = nan) as ->.
      { apply Prim2SF_inj. replace (Prim2SF nan) with S754_nan by reflexivity.
        destruct (Prim2SF g) eqn:E; try reflexivity;
          assert (is_nan g = false) as F
            by (apply FloatFacts.is_nan_spec; rewrite E; discriminate);
          congruence. }
      apply clip1_nan.
Qed.

(** Entries outside [1/cap, cap]: the label of a vanishing gradient
    stays [nan] under the cap 10, and under the cap 0.5 the label 5 is
    clipped to 0.5 and then raised to 1/0.5 = 2, above the cap. *)
Lemma calculateGamma_outside_interval :
  (calculateGamma degenerate_cell 10 false = Ok [nan]
   /\ PrimFloat.leb (PrimFloat.div 1 10) nan = false)
  /\ (raw_gamma label_cell true = Ok [5]%float
      /\ calculateGamma label_cell 0.5 true = Ok [2]%float
      /\ PrimFloat.leb 2 0.5 = false).
Proof. repeat split; vm_compute; reflexivity. Qed.

Lemma calculateGamma_clipped_witness :
  MFQ.mode label_cell = inl {| MFQ.u := [[1; 0; 0]]%float; MFQ.uc := [[-5; 0; 0]]%float;
                               MFQ.t := [1]%float |}
  /\ PrimFloat.ltb 0 4 = true
  /\ PrimFloat.leb (PrimFloat.div 1 4) 4 = true
  /\ exists raw gamma,
       raw_gamma label_cell true = Ok raw
       /\ calculateGamma label_cell 4 true = Ok gamma
       /\ length gamma = length raw
       /\ forall i g, nth_error raw i = Some g ->
            (is_nan g = false ->
             exists c, nth_error gamma i = Some c
                       /\ PrimFloat.leb (PrimFloat.div 1 4) c = true
                       /\ PrimFloat.leb c 4 = true)
            /\ (is_nan g = true -> nth_error gamma i = Some nan).
Proof.
  split; [reflexivity|]. split; [reflexivity|]. split; [reflexivity|].
  exact (@calculateGamma_clipped label_cell _ 4%float true eq_refl eq_refl eq_refl).
Defined.

(* ================================================================== *)
(** * Validation of a container *)

Module CheckFacts.
Import MeanFlowQuantities.

Lemma valid_not_invalid (n : nat) (a : np.vec) : valid n a -> ~ invalid n a.
Proof.
  intros [L N] [H|H]; [contradiction|].
  apply Exists_exists in H. destruct H as [x [Hx Hneg]].
  apply (proj1 (Forall_forall _ _) N) in Hx.
  apply FloatFacts.ltb_leb_false in Hneg. congruence.
Qed.

Lemma nonneg_Forall (a : np.vec) :
  nonneg a = true -> Forall (fun x => PrimFloat.leb 0 x = true) a.
Proof. intros H. apply Forall_forall, forallb_forall. exact H. Qed.

Ltac step_assert :=
  match goal with
  | |- context [assert ?b _] => destruct b eqn:?; cbn [assert bind]
  | H : context [assert ?b _] |- _ => destruct b eqn:?; cbn [assert bind] in H
  end.

(** [check] returns, or raises the assertion error: nothing else. *)
Lemma check_cases (self : obj) : check self = Ok tt \/ is_ValidationError (check self).
Proof.
  unfold check. destruct (mode self) as [la|fa];
    repeat (step_assert; [|right; exact I]); left; reflexivity.
Qed.

Lemma check_Ok_valid (self : obj) (fa : FeatureArrays) :
  mode self = inr fa -> check self = Ok tt ->
  Forall (valid (n_points self)) (checked_arrays self fa).
Proof.
  intros Hm H. unfold check in H. rewrite Hm in H.
  repeat (step_assert; [|discriminate]).
  unfold checked_arrays, valid.
  repeat constructor;
    try (apply Nat.eqb_eq; assumption); apply nonneg_Forall; assumption.
Qed.

Lemma nonDimensionalize_arrays (self : obj) (deltaT0 : float) :
  n_points (nonDimensionalize self deltaT0) = n_points self
  /\ rho (nonDimensionalize self deltaT0) = rho self
  /\ mut (nonDimensionalize self deltaT0) = mut self
  /\ mode (nonDimensionalize self deltaT0) = mode self.
Proof.
  unfold nonDimensionalize. destruct (negb (labels self)); repeat split.
Qed.

(** An array read through the mask has one entry per selected cell. *)
Lemma read_length (zone : Zone) (var_names : string -> option string)
    (mask : list bool) (key : string) (v : np.vec) :
  read zone var_names mask key = Ok v -> length v = np.count_true mask.
Proof.
  unfold read. destruct (var_names key) as [name|]; [|discriminate].
  destruct (values zone name) as [a|e]; cbn [bind]; [|discriminate].
  unfold np.getmask. destruct (Nat.eqb_spec (length mask) (length a)) as [E|E];
    [|discriminate].
  intros H. inversion H. apply MaskFacts.select_length. symmetry. exact E.
Qed.

(** So do the six validated arrays of an instance that was read for
    features: the size assertions of [check] hold for it. *)
Lemma load_sizes (zone : Zone) (var_names : string -> option string)
    (mask : option (list bool)) (loaded : obj) (fa : FeatureArrays) :
  load zone var_names false mask = Ok loaded ->
  mode loaded = inr fa ->
  Forall (fun a => length a = n_points loaded) (checked_arrays loaded fa).
Proof.
  intros H Hm. unfold load in H.
  repeat match type of H with
         | bind ?r _ = _ => destruct r eqn:?; cbn [bind] in H; [|discriminate]
         end.
  inversion H; subst. cbn in Hm. inversion Hm; subst.
  unfold checked_arrays. cbn.
  repeat constructor; eapply read_length; eassumption.
Qed.

End CheckFacts.

(** C9.  The size assertions of [check] are never reached through the
    constructor.  In the zone [short_zone] the density has two entries
    for three cells: the construction fails at the boolean indexing of
    the density with an index error, not with the assertion error of
    [check], although [check] on a container that holds a density of the
    wrong size does raise "Wrong number of entries for rho".  In general
    the six validated arrays of whatever the constructor has read have
    n_points entries before [check] runs. *)
Theorem construction_wrong_length :
  MFQ.init short_zone (fun k => Some k) 1 false None = Err IndexError
  /\ ~ is_ValidationError (MFQ.init short_zone (fun k => Some k) 1 false None)
  /\ MFQ.check long_rho_cell
     = Err (AssertionError
              "Wrong number of entries for rho. Check that it is cell centered.")
  /\ (forall zone var_names mask loaded fa,
        MFQ.load zone var_names false mask = Ok loaded ->
        MFQ.mode loaded = inr fa ->
        Forall (fun a => length a = MFQ.n_points loaded) (checked_arrays loaded fa)).
Proof.
  assert (MFQ.init short_zone (fun k => Some k) 1 false None = Err IndexError) as E
    by (vm_compute; reflexivity).
  split; [exact E|]. split; [rewrite E; exact (fun H => H)|].
  split; [vm_compute; reflexivity|].
  intros zone var_names mask loaded fa Hl Hm.
  exact (@CheckFacts.load_sizes zone var_names mask loaded fa Hl Hm).
Qed.

(** X23.  The sign assertions of [check] guard the constructor.  [check]
    raises the assertion error on every feature container in which one
    of density, turbulent viscosity, turbulence kinetic energy,
    dissipation rate, molecular viscosity and wall distance has a
    negative entry or a size other than n_points; a construction whose
    arrays were read fails with that error as soon as one of the six has
    a negative entry; and when the construction succeeds all six are
    nonnegative and have n_points entries. *)
Theorem check_feature_mode (zone : MFQ.Zone) (var_names : string -> option string)
    (deltaT0 : float) (mask : option (list bool)) :
  (forall self fa,
     MFQ.mode self = inr fa ->
     Exists (invalid (MFQ.n_points self)) (checked_arrays self fa) ->
     is_ValidationError (MFQ.check self))
  /\ (forall loaded fa,
        MFQ.load zone var_names false mask = Ok loaded ->
        MFQ.mode loaded = inr fa ->
        Exists (fun a => Exists (fun x => PrimFloat.ltb x 0 = true) a)
               (checked_arrays loaded fa) ->
        is_ValidationError (MFQ.init zone var_names deltaT0 false mask))
  /\ (forall self,
        MFQ.init zone var_names deltaT0 false mask = Ok self ->
        exists fa,
          MFQ.mode self = inr fa
          /\ Forall (valid (MFQ.n_points self))
                    (checked_arrays self fa)).
Proof.
  assert (forall self fa,
            MFQ.mode self = inr fa ->
            Exists (invalid (MFQ.n_points self))
                   (checked_arrays self fa) ->
            is_ValidationError (MFQ.check self)) as Hcheck.
  { intros self fa Hm Hbad.
    destruct (CheckFacts.check_cases self) as [Hok|Herr]; [|exact Herr].
    exfalso. pose proof (@CheckFacts.check_Ok_valid _ _ Hm Hok) as Hv.
    apply Exists_exists in Hbad. destruct Hbad as [a [Ha Hi]].
    apply (proj1 (Forall_forall _ _) Hv) in Ha.
    exact (@CheckFacts.valid_not_invalid _ _ Ha Hi). }
  split; [exact Hcheck|]. split.
  - intros loaded fa Hl Hm Hneg.
    assert (Exists (invalid (MFQ.n_points loaded)) (checked_arrays loaded fa)) as Hbad.
    { eapply Exists_impl; [|exact Hneg]. intros a Ha. right. exact Ha. }
    unfold MFQ.init. rewrite Hl. cbn [bind].
    destruct (CheckFacts.nonDimensionalize_arrays loaded deltaT0) as (En & Er & Emt & Emo).
    assert (is_ValidationError (MFQ.check (MFQ.nonDimensionalize loaded deltaT0))) as V.
    { apply (Hcheck _ fa); [congruence|].
      unfold checked_arrays in *. rewrite En, Er, Emt. exact Hbad. }
    destruct (MFQ.check (MFQ.nonDimensionalize loaded deltaT0)) as [[]|[]];
      try contradiction. exact I.
  - intros self H. unfold MFQ.init in H.
    destruct (MFQ.load zone var_names false mask) as [loaded|e] eqn:Hl; [|discriminate].
    cbn [bind] in H.
    destruct (MFQ.check (MFQ.nonDimensionalize loaded deltaT0)) as [[]|e] eqn:Hc;
      [|discriminate].
    cbn [bind] in H. inversion H; subst. clear H.
    destruct (MFQ.mode (MFQ.nonDimensionalize loaded deltaT0)) as [la|fa] eqn:Hm.
    + exfalso.
      destruct (CheckFacts.nonDimensionalize_arrays loaded deltaT0) as (_ & _ & _ & Emo).
      rewrite Emo in Hm. clear -Hl Hm. unfold MFQ.load in Hl.
      repeat match type of Hl with
             | bind ?r _ = _ => destruct r; cbn [bind] in Hl; [|discriminate]
             end.
      inversion Hl; subst. discriminate.
    + exists fa. split; [reflexivity|]. apply CheckFacts.check_Ok_valid; assumption.
Qed.

(* ================================================================== *)
(** * The cleaning loop *)

Module CleanFacts.

Lemma outliers_length (constants : Constants) (x_features : np.mat) (m : list bool) :
  length (outliers constants x_features m) = length x_features.
Proof. unfold outliers. apply length_map. Qed.

(** Whatever exit a pass takes, its mask is the negation of the outliers
    found with the statistics of the previous mask. *)
Lemma clean_body_mask (constants : Constants) (x_features : np.mat) (st : clean_state) :
  mask (fst (clean_body constants x_features st))
  = map negb (outliers constants x_features (mask st)).
Proof.
  unfold clean_body.
  destruct (converged _ _ _); [reflexivity|].
  destruct (too_many_cleaned _ _ _); reflexivity.
Qed.

Lemma clean_loop_masks (constants : Constants) (x_features : np.mat) (max_iter : nat)
    (st : clean_state) :
  map mask (clean_loop constants x_features max_iter st)
  = map (fun s => map negb (outliers constants x_features (mask s)))
        (removelast (st :: clean_loop constants x_features max_iter st)).
Proof.
  revert st. induction max_iter as [|k IH]; intros st; [reflexivity|].
  cbn [clean_loop].
  pose proof (clean_body_mask constants x_features st) as Hm.
  destruct (clean_body constants x_features st) as [st' brk]. cbn [fst] in Hm.
  destruct brk.
  - cbn. rewrite Hm. reflexivity.
  - change (removelast (st :: st' :: clean_loop constants x_features k st'))
      with (st :: removelast (st' :: clean_loop constants x_features k st')).
    cbn [map]. rewrite Hm, <- IH. reflexivity.
Qed.

Lemma clean_loop_mask_length (constants : Constants) (x_features : np.mat) (max_iter : nat)
    (st : clean_state) :
  Forall (fun s => length (mask s) = length x_features)
         (clean_loop constants x_features max_iter st).
Proof.
  revert st. induction max_iter as [|k IH]; intros st; [constructor|].
  cbn [clean_loop].
  pose proof (clean_body_mask constants x_features st) as Hm.
  destruct (clean_body constants x_features st) as [st' brk]. cbn [fst] in Hm.
  constructor.
  - rewrite Hm, length_map. apply outliers_length.
  - destruct brk; [constructor | apply IH].
Qed.

Lemma last_Forall {A : Type} (P : A -> Prop) (l : list A) (d : A) :
  Forall P l -> P d -> P (last l d).
Proof.
  intros H Hd. induction H as [|a l Ha Hl IH]; [exact Hd|].
  destruct l; [exact Ha | exact IH].
Qed.

(** The mask that [cleanFeatures] applies has one entry per row. *)
Lemma final_mask_length (constants : Constants) (x_features : np.mat) :
  length (mask (last (clean_passes constants x_features) (clean_init x_features)))
  = length x_features.
Proof.
  apply (@last_Forall _ (fun s => length (mask s) = length x_features)).
  - apply clean_loop_mask_length.
  - apply repeat_length.
Qed.

End CleanFacts.

(** The first pass excludes the rows at +2 and -2 and keeps 30 rows; the
    second pass, with the statistics of those 30 rows, includes both
    again and keeps 32 rows: the number of included rows increases. *)
Lemma clean_mask_grows :
  map (fun st => np.count_true (mask st)) (clean_passes constants_15 noisy) = [30; 32]
  /\ map (fun st => firstn 2 (mask st)) (clean_passes constants_15 noisy)
     = [[false; false]; [true; true]]
  /\ ~ (forall i st st',
          nth_error (clean_passes constants_15 noisy) i = Some st ->
          nth_error (clean_passes constants_15 noisy) (S i) = Some st' ->
          np.count_true (mask st') <= np.count_true (mask st)).
Proof.
  assert (map (fun st => np.count_true (mask st)) (clean_passes constants_15 noisy)
          = [30; 32]) as E by (vm_compute; reflexivity).
  split; [exact E|]. split; [vm_compute; reflexivity|].
  intros H.
  destruct (clean_passes constants_15 noisy) as [|st [|st' rest]]; try discriminate E.
  specialize (H 0 st st' eq_refl eq_refl).
  cbn [map] in E. inversion E as [[E1 E2]]. lia.
Qed.

Module BandFacts.

Lemma nth_error_map2 {A B C : Type} (f : A -> B -> C) (l : list A) (l' : list B)
    (j : nat) :
  nth_error (np.map2 f l l') j
  = match nth_error l j, nth_error l' j with
    | Some a, Some b => Some (f a b)
    | _, _ => None
    end.
Proof.
  revert l' j. induction l as [|a l IH]; intros [|b l'] [|j]; cbn; try reflexivity.
  - destruct (nth_error l j); reflexivity.
  - apply IH.
Qed.

Lemma nth_error_map_seq {A : Type} (f : nat -> A) (n j : nat) :
  nth_error (map f (seq 0 n)) j = if Nat.ltb j n then Some (f j) else None.
Proof.
  destruct (Nat.ltb_spec j n) as [H|H].
  - rewrite (nth_error_map f), nth_error_seq.
    replace (Nat.ltb j n) with true by (symmetry; apply Nat.ltb_lt; exact H).
    reflexivity.
  - apply nth_error_None. rewrite length_map, length_seq. exact H.
Qed.

(** The bounds that [outliers] compares column [j] with. *)
Lemma bounds_nth (constants : Constants) (selected : np.mat) (ncols j : nat) :
  nth_error (np.map2 (fun m s => PrimFloat.sub m (PrimFloat.mul (N_STD constants) s))
               (np.mean0 ncols selected) (np.std0 ncols selected)) j
  = (if Nat.ltb j ncols then Some (band_lo constants selected j) else None)
  /\ nth_error (np.map2 (fun m s => PrimFloat.add m (PrimFloat.mul (N_STD constants) s))
                  (np.mean0 ncols selected) (np.std0 ncols selected)) j
     = (if Nat.ltb j ncols then Some (band_hi constants selected j) else None).
Proof.
  unfold np.mean0, np.std0. rewrite !nth_error_map2, !nth_error_map_seq.
  destruct (Nat.ltb j ncols); split; reflexivity.
Qed.

(** A row is flagged when one of its entries is below the lower or above
    the upper bound at its position. *)
Lemma row_flag (row lo hi : np.vec) :
  existsb (fun b => b)
    (np.map2 orb (np.map2 PrimFloat.ltb row lo)
                 (np.map2 (fun v h => PrimFloat.ltb h v) row hi)) = false
  <-> forall j v l h,
        nth_error row j = Some v -> nth_error lo j = Some l -> nth_error hi j = Some h ->
        PrimFloat.ltb v l = false /\ PrimFloat.ltb h v = false.
Proof.
  revert lo hi. induction row as [|x row IH]; intros lo hi.
  - split; [|reflexivity]. intros _ [|j] v l h H; discriminate H.
  - destruct lo as [|l0 lo].
    { split; [|reflexivity]. intros _ [|j] v l h _ H; discriminate H. }
    destruct hi as [|h0 hi].
    { split; [|reflexivity]. intros _ [|j] v l h _ _ H; discriminate H. }
    cbn [np.map2 existsb]. rewrite orb_false_iff, orb_false_iff, IH. split.
    + intros [[A B] H] [|j] v l h Hv Hl Hh; cbn in Hv, Hl, Hh.
      * inversion Hv; inversion Hl; inversion Hh; subst. split; assumption.
      * exact (H j v l h Hv Hl Hh).
    + intros H. split.
      * exact (H 0 x l0 h0 eq_refl eq_refl eq_refl).
      * intros j v l h Hv Hl Hh. exact (H (S j) v l h Hv Hl Hh).
Qed.

(** The entry of [outliers] at a row: the row has a feature outside the
    band of the selected rows. *)
Lemma outliers_nth (constants : Constants) (x_features : np.mat) (m : list bool)
    (i : nat) (row : np.vec) :
  nth_error x_features i = Some row ->
  exists flag,
    nth_error (outliers constants x_features m) i = Some flag
    /\ (flag = false <->
        forall j v, j < np.shape1 x_features -> nth_error row j = Some v ->
          PrimFloat.ltb v (band_lo constants (np.select x_features m) j) = false
          /\ PrimFloat.ltb (band_hi constants (np.select x_features m) j) v = false).
Proof.
  intros Hrow. unfold outliers. cbv zeta.
  eexists. split; [apply map_nth_error; exact Hrow|].
  rewrite row_flag. split.
  - intros H j v Hj Hv.
    destruct (bounds_nth constants (np.select x_features m) (np.shape1 x_features) j)
      as [Hl Hh].
    replace (Nat.ltb j (np.shape1 x_features)) with true in Hl, Hh
      by (symmetry; apply Nat.ltb_lt; exact Hj).
    exact (H j v _ _ Hv Hl Hh).
  - intros H j v l h Hv Hl Hh.
    destruct (bounds_nth constants (np.select x_features m) (np.shape1 x_features) j)
      as [Hl' Hh'].
    rewrite Hl in Hl'. rewrite Hh in Hh'.
    destruct (Nat.ltb_spec j (np.shape1 x_features)) as [Hj|Hj]; [|discriminate Hl'].
    inversion Hl'; inversion Hh'; subst. exact (H j v Hj Hv).
Qed.

Lemma map_eq_Forall2 {A B C : Type} (f : A -> C) (g : B -> C) (l : list A)
    (l' : list B) :
  map f l = map g l' -> Forall2 (fun b a => f a = g b) l' l.
Proof.
  revert l'. induction l as [|a l IH]; intros [|b l'] H; try discriminate H.
  - constructor.
  - cbn in H. inversion H. constructor; [assumption | apply IH; assumption].
Qed.

End BandFacts.

(** C3, amended.  Within [cleanFeatures] every pass of the loop computes
    the row-inclusion mask afresh over all rows: a row is included
    exactly when none of its features lies below mean - n_std*std or
    above mean + n_std*std, the mean and the standard deviation of each
    feature being those of the rows that the previous pass included (all
    rows, for the first pass).  Each mask has one entry per input row,
    so it is a subset of the initial all-included mask and never counts
    more rows than the input has. *)
Theorem clean_passes_masks (constants : Constants) (x_features : np.mat) :
  Forall2
    (fun prev st =>
       length (mask st) = length x_features
       /\ np.count_true (mask st) <= length x_features
       /\ forall i row,
            nth_error x_features i = Some row ->
            exists included,
              nth_error (mask st) i = Some included
              /\ (included = true <->
                  forall j v,
                    j < np.shape1 x_features -> nth_error row j = Some v ->
                    PrimFloat.ltb v
                      (band_lo constants (np.select x_features (mask prev)) j) = false
                    /\ PrimFloat.ltb
                         (band_hi constants (np.select x_features (mask prev)) j) v
                       = false))
    (removelast (clean_init x_features :: clean_passes constants x_features))
    (clean_passes constants x_features).
Proof.
  pose proof (BandFacts.map_eq_Forall2 _ _ _ _
                (CleanFacts.clean_loop_masks constants x_features (MAX_ITER constants)
                   (clean_init x_features))) as F.
  fold (clean_passes constants x_features) in F.
  eapply Forall2_impl; [|exact F]. cbv beta.
  intros prev st Hm.
  assert (length (mask st) = length x_features) as L
    by (rewrite Hm, length_map; apply CleanFacts.outliers_length).
  split; [exact L|]. split; [rewrite <- L; apply MaskFacts.count_true_le|].
  intros i row Hrow.
  destruct (BandFacts.outliers_nth constants x_features (mask prev) i Hrow)
    as (flag & Hf & Hiff).
  exists (negb flag). split.
  - rewrite Hm. apply map_nth_error. exact Hf.
  - rewrite <- Hiff. destruct flag; cbn; split; congruence.
Qed.

(** C8.  For features with one row per selected cell, [cleanFeatures]
    returns the gating mask with the cleaned-out rows unset: every
    [True] of the new mask is a [True] of [should_use], on the selected
    cells the new mask is the cleaning mask, and its [True]-count is the
    number of rows of the cleaned features, and of the cleaned tensor
    basis when one is passed. *)
Theorem cleanFeatures_mask {B : Type} (constants : Constants) (x_features : np.mat)
    (should_use : list bool) (tensor_basis : option (list B)) :
  length x_features = np.count_true should_use ->
  (forall tb, tensor_basis = Some tb -> length tb = length x_features) ->
  exists out,
    cleanFeatures constants x_features should_use tensor_basis = Ok out
    /\ (forall i, nth_error (new_should_use out) i = Some true ->
                  nth_error should_use i = Some true)
    /\ np.select (new_should_use out) should_use
       = mask (last (clean_passes constants x_features) (clean_init x_features))
    /\ np.count_true (new_should_use out) = length (new_x_features out)
    /\ (forall tb, tensor_basis = Some tb ->
          exists ntb, new_tensor_basis out = Some ntb
                      /\ length ntb = np.count_true (new_should_use out)).
Proof.
  intros Hx Htb. unfold cleanFeatures.
  pose proof (CleanFacts.final_mask_length constants x_features) as Hl.
  set (st := last (clean_passes constants x_features) (clean_init x_features)) in *.
  unfold np.getmask at 1. rewrite Hl, Nat.eqb_refl. cbn [bind].
  unfold np.setmask. rewrite repeat_length, Nat.eqb_refl. cbn [negb].
  rewrite Hl, Hx, Nat.eqb_refl. cbn [bind].
  assert (length (mask st) = np.count_true should_use) as Hc by congruence.
  assert (np.count_true (np.scatter (repeat false (length should_use)) should_use (mask st))
          = length (np.select x_features (mask st))) as Hcount.
  { rewrite MaskFacts.count_true_scatter_false by exact Hc.
    symmetry. apply MaskFacts.select_length. congruence. }
  destruct tensor_basis as [tb|].
  - unfold np.getmask. rewrite Hl, (Htb tb eq_refl), Nat.eqb_refl. cbn [bind].
    eexists. split; [reflexivity|]. cbn.
    split; [intros i; apply MaskFacts.scatter_false_subset|].
    split; [apply MaskFacts.select_scatter; [apply repeat_length | exact Hc]|].
    split; [exact Hcount|].
    intros tb' E. inversion E; subst tb'. eexists. split; [reflexivity|].
    rewrite Hcount, !MaskFacts.select_length; [reflexivity | congruence |].
    rewrite (Htb tb eq_refl). congruence.
  - eexists. split; [reflexivity|]. cbn.
    split; [intros i; apply MaskFacts.scatter_false_subset|].
    split; [apply MaskFacts.select_scatter; [apply repeat_length | exact Hc]|].
    split; [exact Hcount|].
    intros tb' E. discriminate.
Qed.

Module ZeroCountFacts.

(** With a previous count of zero the convergence test fails and the
    pass leaves the warning flag alone. *)
Lemma clean_body_zero (constants : Constants) (x_features : np.mat) (st : clean_state) :
  cleaned_exs st = Some 0%Z ->
  exists new_cleaned_exs,
    cleaned_exs (fst (clean_body constants x_features st)) = Some new_cleaned_exs
    /\ converged constants (cleaned_exs st) new_cleaned_exs = false
    /\ warning_flag (fst (clean_body constants x_features st)) = warning_flag st.
Proof.
  intros H. unfold clean_body.
  set (m := map negb (outliers constants x_features (mask st))).
  set (new := (Z.of_nat (length x_features) - Z.of_nat (np.count_true m))%Z).
  assert (converged constants (cleaned_exs st) new = false) as C.
  { rewrite H. unfold converged. rewrite Z.sub_0_r.
    apply FloatFacts.count_div_zero_not_lt.
    pose proof (MaskFacts.count_true_le m) as L.
    unfold m in L at 2. rewrite length_map, CleanFacts.outliers_length in L.
    unfold new. lia. }
  rewrite C. exists new.
  destruct (too_many_cleaned constants new (length x_features)); cbn; auto.
Qed.

Lemma clean_body_nothing_flagged (constants : Constants) (x_features : np.mat)
    (st : clean_state) :
  PrimFloat.ltb (MAX_CLEAN constants) 0 = false ->
  outliers constants x_features (repeat true (length x_features))
    = repeat false (length x_features) ->
  mask st = repeat true (length x_features) ->
  cleaned_exs st = None \/ cleaned_exs st = Some 0%Z ->
  warning_flag st = true ->
  clean_body constants x_features st = (nothing_cleaned x_features, false).
Proof.
  intros Hmc Hout Hm Hc Hw. unfold clean_body. rewrite Hm, Hout, map_repeat.
  cbn [negb]. rewrite MaskFacts.count_true_repeat_true, Z.sub_diag.
  assert (converged constants (cleaned_exs st) 0 = false) as C.
  { destruct Hc as [-> | ->]; [reflexivity|]. unfold converged.
    apply FloatFacts.count_div_zero_not_lt. lia. }
  rewrite C. unfold too_many_cleaned.
  rewrite (@FloatFacts.zero_div_not_gt _ _ Hmc), Hw. reflexivity.
Qed.

Lemma clean_loop_nothing_flagged (constants : Constants) (x_features : np.mat)
    (max_iter : nat) (st : clean_state) :
  PrimFloat.ltb (MAX_CLEAN constants) 0 = false ->
  outliers constants x_features (repeat true (length x_features))
    = repeat false (length x_features) ->
  mask st = repeat true (length x_features) ->
  cleaned_exs st = None \/ cleaned_exs st = Some 0%Z ->
  warning_flag st = true ->
  clean_loop constants x_features max_iter st = repeat (nothing_cleaned x_features) max_iter.
Proof.
  intros Hmc Hout. revert st.
  induction max_iter as [|k IH]; intros st Hm Hc Hw; [reflexivity|].
  cbn [clean_loop].
  rewrite (@clean_body_nothing_flagged constants x_features st Hmc Hout Hm Hc Hw).
  cbn [repeat]. f_equal. apply IH; [reflexivity | right; reflexivity | reflexivity].
Qed.

Lemma last_repeat {A : Type} (a d : A) (n : nat) :
  last (repeat a n) d = a \/ (n = 0 /\ last (repeat a n) d = d).
Proof.
  induction n as [|n IH]; [right; split; reflexivity|].
  left. cbn [repeat]. destruct n as [|n]; [reflexivity|].
  destruct IH as [IH|[IH _]]; [|discriminate].
  cbn [repeat] in *. exact IH.
Qed.

(** Scattering an all-[True] cleaning mask gives the gating mask back. *)
Lemma scatter_all_true (m : list bool) :
  np.scatter (repeat false (length m)) m (repeat true (np.count_true m)) = m.
Proof.
  induction m as [|[] m IH]; [reflexivity| |]; cbn; rewrite IH; reflexivity.
Qed.

End ZeroCountFacts.

(** C10.  The early-convergence exit of [cleanFeatures] divides the
    change in the cleaned-row count by the count of the previous pass.
    Whenever that previous count is zero the convergence test fails and
    the pass does not clear the warning flag; in particular, when no row
    is flagged (and MAX_CLEAN is not negative) the loop runs all MAX_ITER
    passes, every pass cleans nothing, and the result, with all rows and
    the unchanged gating mask, is reported as not converged. *)
Theorem clean_zero_previous_count (constants : Constants) (x_features : np.mat) :
  (forall st,
     cleaned_exs st = Some 0%Z ->
     exists new_cleaned_exs,
       cleaned_exs (fst (clean_body constants x_features st)) = Some new_cleaned_exs
       /\ converged constants (cleaned_exs st) new_cleaned_exs = false
       /\ warning_flag (fst (clean_body constants x_features st)) = warning_flag st)
  /\ (PrimFloat.ltb (MAX_CLEAN constants) 0 = false ->
      outliers constants x_features (repeat true (length x_features))
        = repeat false (length x_features) ->
      clean_passes constants x_features
        = repeat (nothing_cleaned x_features) (MAX_ITER constants)
      /\ length (clean_passes constants x_features) = MAX_ITER constants
      /\ forall (B : Type) should_use (tensor_basis : option (list B)) out,
           cleanFeatures constants x_features should_use tensor_basis = Ok out ->
           warning_printed out = true
           /\ new_x_features out = x_features
           /\ new_should_use out = should_use).
Proof.
  split; [apply ZeroCountFacts.clean_body_zero|].
  intros Hmc Hout.
  assert (clean_passes constants x_features
          = repeat (nothing_cleaned x_features) (MAX_ITER constants)) as E.
  { unfold clean_passes.
    apply ZeroCountFacts.clean_loop_nothing_flagged;
      [exact Hmc | exact Hout | reflexivity | left; reflexivity | reflexivity]. }
  split; [exact E|]. split; [rewrite E; apply repeat_length|].
  intros B should_use tensor_basis out H. unfold cleanFeatures in H. rewrite E in H.
  set (st := last (repeat (nothing_cleaned x_features) (MAX_ITER constants))
                  (clean_init x_features)) in *.
  assert (mask st = repeat true (length x_features) /\ warning_flag st = true) as [Hm Hw].
  { unfold st.
    destruct (ZeroCountFacts.last_repeat (nothing_cleaned x_features)
                (clean_init x_features) (MAX_ITER constants)) as [->|[_ ->]];
      split; reflexivity. }
  rewrite Hm, Hw in H. unfold np.getmask at 1 in H.
  rewrite repeat_length, Nat.eqb_refl, MaskFacts.select_repeat_true in H. cbn [bind] in H.
  assert (forall r, np.setmask (repeat false (length should_use)) should_use
                      (repeat true (length x_features)) = Ok r -> r = should_use) as Hs.
  { intros r. unfold np.setmask. rewrite !repeat_length, Nat.eqb_refl. cbn [negb].
    destruct (Nat.eqb (length x_features) (np.count_true should_use)) eqn:En.
    - apply Nat.eqb_eq in En. rewrite En. intros Hr. inversion Hr.
      apply ZeroCountFacts.scatter_all_true.
    - destruct (length x_features) as [|[|n]]; cbn [repeat]; try discriminate.
      intros Hr. inversion Hr. apply ZeroCountFacts.scatter_all_true. }
  destruct (np.setmask (repeat false (length should_use)) should_use
              (repeat true (length x_features))) as [r|e] eqn:Er; [|discriminate].
  cbn [bind] in H. rewrite (Hs r eq_refl) in H.
  destruct tensor_basis as [tb|].
  - destruct (np.getmask tb (repeat true (length x_features))); [|discriminate].
    cbn [bind] in H. inversion H; subst. cbn. auto.
  - inversion H; subst. cbn. auto.
Qed.

(* ================================================================== *)
(** * The statements at concrete inputs *)

Lemma downsample_1_5_takes_all_rows_witness :
  (forall g l, Permutation (snd (reversing_shuffle g l)) l)
  /\ ten_rows <> []
  /\ Forall (fun var => length var = 10) ten_rows
  /\ (exists g' idx,
        downsampleIdx reversing_shuffle 0 10 (Some (PyFloat 1.5)) = Ok (g', idx)
        /\ length idx = 10)
  /\ (exists g' fs' save_var,
        saveTrainingFeatures reversing_shuffle 0 empty_disk ten_rows "RF" "features.pckl"
          (Some (PyFloat 1.5)) = Ok (g', fs')
        /\ fs' "features.pckl" = Some ("RF", save_var)
        /\ Forall (fun saved => length saved = 10) save_var).
Proof.
  assert (ten_rows <> []) as Hne by discriminate.
  assert (Forall (fun var => length var = 10) ten_rows) as Hrows
    by (repeat constructor).
  split; [exact reversing_shuffle_Permutation|].
  split; [exact Hne|]. split; [exact Hrows|].
  exact (@downsample_1_5_takes_all_rows nat reversing_shuffle nat
           reversing_shuffle_Permutation 0 empty_disk ten_rows "RF" "features.pckl"
           Hne Hrows).
Defined.

Lemma persistence_round_trip_witness :
  (forall g l, Permutation (snd (reversing_shuffle g l)) l)
  /\ ten_rows <> []
  /\ Forall (fun var => length var = length (hd [] ten_rows)) ten_rows
  /\ exists g1 fs1,
       saveTrainingFeatures reversing_shuffle 0 empty_disk ten_rows "RF" "features.pckl" None
         = Ok (g1, fs1)
       /\ (exists g3 loaded idx,
             loadTrainingFeatures reversing_shuffle 7 fs1 "features.pckl" "RF" None
               = Ok (g3, loaded)
             /\ Permutation idx (seq 0 (length (hd [] ten_rows)))
             /\ mapM (fun var => take var idx) ten_rows = Ok loaded
             /\ Forall2 (@Permutation nat) ten_rows loaded)
       /\ (forall wrong downsample, wrong <> "RF" ->
             is_ValidationError
               (loadTrainingFeatures reversing_shuffle 7 fs1 "features.pckl" wrong
                  downsample)).
Proof.
  assert (ten_rows <> []) as Hne by discriminate.
  assert (Forall (fun var => length var = length (hd [] ten_rows)) ten_rows) as Hrows
    by (repeat constructor).
  split; [exact reversing_shuffle_Permutation|].
  split; [exact Hne|]. split; [exact Hrows|].
  exact (@persistence_round_trip nat reversing_shuffle nat
           reversing_shuffle_Permutation 0 7 empty_disk ten_rows "RF" "features.pckl"
           Hne Hrows).
Defined.

Lemma fill_round_trip_witness :
  length [3; 0.25]%float = np.count_true three_cells
  /\ Forall (fun x => PrimFloat.leb 0 x = true) [3; 0.25]%float
  /\ length two_tensors = np.count_true three_cells
  /\ Forall (fun m => is_3x3 m = true
                      /\ PrimFloat.leb 0 (diag_entry 0 m) = true
                      /\ PrimFloat.leb 0 (diag_entry 1 m) = true
                      /\ PrimFloat.leb 0 (diag_entry 2 m) = true) two_tensors
  /\ PrimFloat.ltb 0 0.5 = true
  /\ (exists Prt_full,
        fillPrt constants_15 [3; 0.25]%float three_cells (Some 0.5%float) = Ok Prt_full
        /\ np.select Prt_full three_cells = [3; 0.25]%float
        /\ forall i, nth_error three_cells i = Some false ->
                     nth_error Prt_full i = Some 0.5%float)
  /\ (exists alphaij_full,
        fillAlpha constants_15 two_tensors three_cells (Some 0.5%float) = Ok alphaij_full
        /\ np.select alphaij_full three_cells = two_tensors
        /\ forall i, nth_error three_cells i = Some false ->
                     nth_error alphaij_full i = Some (isotropic 0.5)).
Proof.
  assert (Forall (fun x => PrimFloat.leb 0 x = true) [3; 0.25]%float) as HP
    by (repeat constructor).
  assert (Forall (fun m => is_3x3 m = true
                      /\ PrimFloat.leb 0 (diag_entry 0 m) = true
                      /\ PrimFloat.leb 0 (diag_entry 1 m) = true
                      /\ PrimFloat.leb 0 (diag_entry 2 m) = true) two_tensors) as HA
    by (repeat constructor).
  split; [reflexivity|]. split; [exact HP|]. split; [reflexivity|].
  split; [exact HA|]. split; [reflexivity|].
  exact (@fill_round_trip constants_15 three_cells [3; 0.25]%float two_tensors
           (Some 0.5%float) eq_refl HP eq_refl HA eq_refl).
Defined.

Lemma cleanFeatures_mask_witness :
  length noisy = np.count_true noisy_cells
  /\ (forall tb, Some noisy_basis = Some tb -> length tb = length noisy)
  /\ exists out,
       cleanFeatures constants_15 noisy noisy_cells (Some noisy_basis) = Ok out
       /\ length noisy = 40
       /\ length (new_x_features out) = 32
       /\ (forall i, nth_error (new_should_use out) i = Some true ->
                     nth_error noisy_cells i = Some true)
       /\ np.select (new_should_use out) noisy_cells
          = mask (last (clean_passes constants_15 noisy) (clean_init noisy))
       /\ np.count_true (new_should_use out) = length (new_x_features out)
       /\ (forall tb, Some noisy_basis = Some tb ->
             exists ntb, new_tensor_basis out = Some ntb
                         /\ length ntb = np.count_true (new_should_use out)).
Proof.
  assert (length noisy = np.count_true noisy_cells) as Hx by reflexivity.
  assert (forall tb, Some noisy_basis = Some tb -> length tb = length noisy) as Htb
    by (intros tb E; inversion E; reflexivity).
  assert (forall out,
            cleanFeatures constants_15 noisy noisy_cells (Some noisy_basis) = Ok out ->
            length (new_x_features out) = 32) as H32.
  { intros out H. vm_compute in H. injection H as <-. reflexivity. }
  split; [exact Hx|]. split; [exact Htb|].
  destruct (@cleanFeatures_mask (list np.mat) constants_15 noisy noisy_cells
              (Some noisy_basis) Hx Htb) as (out & Ho & Hrest).
  exists out. split; [exact Ho|]. split; [reflexivity|].
  split; [exact (H32 out Ho) | exact Hrest].
Defined.

(** On [steady] no row is flagged: all MAX_ITER passes run and the
    warning is printed. *)
Lemma clean_zero_previous_count_witness :
  PrimFloat.ltb (MAX_CLEAN constants_15) 0 = false
  /\ outliers constants_15 steady (repeat true (length steady))
     = repeat false (length steady)
  /\ length (clean_passes constants_15 steady) = MAX_ITER constants_15.
Proof.
  split; [reflexivity|]. split; [vm_compute; reflexivity|].
  exact (proj1 (proj2 (proj2 (clean_zero_previous_count constants_15 steady)
                         eq_refl eq_refl))).
Defined.

Example init_good_zone :
  exists self, MFQ.init good_zone (fun k => Some k) 1 false None = Ok self
               /\ MFQ.n_points self = 2 /\ MFQ.rho self = [1; 2]%float.
Proof. eexists. split; [vm_compute; reflexivity|]. split; reflexivity. Qed.

Example init_bad_zone :
  MFQ.init bad_zone (fun k => Some k) 1 false None
  = Err (AssertionError "Found negative entries for rho!").
Proof. vm_compute. reflexivity. Qed.

Lemma check_feature_mode_witness :
  exists loaded fa,
    MFQ.load bad_zone (fun k => Some k) false None = Ok loaded
    /\ MFQ.mode loaded = inr fa
    /\ Exists (fun a => Exists (fun x => PrimFloat.ltb x 0 = true) a)
              (checked_arrays loaded fa)
    /\ is_ValidationError (MFQ.init bad_zone (fun k => Some k) 1 false None).
Proof.
  eexists. eexists.
  assert (forall l f (H1 : MFQ.load bad_zone (fun k => Some k) false None = Ok l)
                 (H2 : MFQ.mode l = inr f)
                 (H3 : Exists (fun a => Exists (fun x => PrimFloat.ltb x 0 = true) a)
                              (checked_arrays l f)),
             MFQ.load bad_zone (fun k => Some k) false None = Ok l
             /\ MFQ.mode l = inr f
             /\ Exists (fun a => Exists (fun x => PrimFloat.ltb x 0 = true) a)
                       (checked_arrays l f)
             /\ is_ValidationError (MFQ.init bad_zone (fun k => Some k) 1 false None)) as K.
  { intros l f H1 H2 H3.
    split; [exact H1|]. split; [exact H2|]. split; [exact H3|].
    exact (proj1 (proj2 (check_feature_mode bad_zone (fun k => Some k) 1 None))
             l f H1 H2 H3). }
  apply K.
  - vm_compute. reflexivity.
  - reflexivity.
  - apply Exists_cons_hd. apply Exists_cons_tl, Exists_cons_hd. reflexivity.
Defined.

(* ================================================================== *)
(** * More on downsampling and persistence *)

Section DownsampleFacts.

Variable rng : Type.
Variable np_random_shuffle : rng -> list nat -> rng * list nat.
Variable row : Type.

Hypothesis shuffle_Permutation :
  forall g l, Permutation (snd (np_random_shuffle g l)) l.

(** Whatever the spec, the indices are a prefix of the shuffled range. *)
Lemma downsampleIdx_prefix (g g' : rng) (n : nat) (downsample : option number)
    (idx : list nat) :
  downsampleIdx np_random_shuffle g n downsample = Ok (g', idx) ->
  exists k, idx = firstn k (snd (np_random_shuffle g (seq 0 n))).
Proof.
  unfold downsampleIdx.
  destruct (np_random_shuffle g (seq 0 n)) as [g1 p]. cbn [snd].
  destruct downsample as [ds|].
  - destruct (assert (number_positive ds) _); cbn [bind]; [|discriminate].
    destruct (int ds) as [k|]; cbn [bind]; [|discriminate].
    destruct (1 <? k)%Z; cbn [bind].
    + intros H. inversion H. eexists. reflexivity.
    + destruct (int (number_mul_int ds (Z.of_nat n))); cbn [bind]; [|discriminate].
      intros H. inversion H. eexists. reflexivity.
  - intros H. inversion H. exists (length idx). symmetry. apply firstn_all.
Qed.

Lemma prefix_of_range (n k : nat) (p : list nat) :
  Permutation p (seq 0 n) ->
  NoDup (firstn k p)
  /\ (forall i, In i (firstn k p) -> i < n)
  /\ length (firstn k p) <= n
  /\ Permutation (firstn k p ++ skipn k p) (seq 0 n).
Proof.
  intros P.
  assert (NoDup p) as ND.
  { apply (Permutation_NoDup (Permutation_sym P)), seq_NoDup. }
  rewrite <- (firstn_skipn k p) in ND.
  split; [exact (NoDup_app_remove_r _ _ ND)|]. split; [|split].
  - intros i Hi. assert (In i p) as Hp.
    { rewrite <- (firstn_skipn k p). apply in_or_app. left. exact Hi. }
    apply (Permutation_in _ P), in_seq in Hp. lia.
  - rewrite length_firstn, (Permutation_length P), length_seq. lia.
  - rewrite firstn_skipn. exact P.
Qed.

(** X1.  The indices that [downsampleIdx] returns, whatever the spec, are
    distinct, lie in [range(n_total)] and are at most [n_total]: they
    are the first entries of one shuffle of the range. *)
Theorem downsampleIdx_indices (g g' : rng) (n_total : nat) (downsample : option number)
    (idx : list nat) :
  downsampleIdx np_random_shuffle g n_total downsample = Ok (g', idx) ->
  NoDup idx
  /\ (forall i, In i idx -> i < n_total)
  /\ length idx <= n_total
  /\ exists rest, Permutation (idx ++ rest) (seq 0 n_total).
Proof.
  intros H. destruct (downsampleIdx_prefix _ _ _ H) as [k ->].
  destruct (@prefix_of_range n_total k _ (shuffle_Permutation g (seq 0 n_total)))
    as (ND & Hin & Hlen & P).
  split; [exact ND|]. split; [exact Hin|]. split; [exact Hlen|].
  eexists. exact P.
Qed.

(** X2.  An integer spec above 1 is a number of rows: [downsampleIdx]
    returns min(spec, n_total) indices.  The integer spec 1 is not one
    row but the fraction 1: all [n_total] indices are returned. *)
Theorem downsampleIdx_integer_spec (g : rng) (n_total : nat) (k : Z) :
  (1 <= k)%Z ->
  exists g' idx,
    downsampleIdx np_random_shuffle g n_total (Some (PyInt k)) = Ok (g', idx)
    /\ length idx = (if (k =? 1)%Z then n_total else Nat.min (Z.to_nat k) n_total).
Proof.
  intros Hk. unfold downsampleIdx.
  pose proof (shuffle_Permutation g (seq 0 n_total)) as P.
  destruct (np_random_shuffle g (seq 0 n_total)) as [g1 p]. cbn [snd] in P.
  assert (length p = n_total) as L by (rewrite (Permutation_length P); apply length_seq).
  exists g1. cbn [number_positive int bind number_mul_int].
  replace (0 <? k)%Z with true by (symmetry; apply Z.ltb_lt; lia).
  cbn [assert bind].
  destruct (Z.ltb_spec 1 k) as [H1|H1]; cbn [bind].
  - eexists. split; [reflexivity|].
    replace (k =? 1)%Z with false by (symmetry; apply Z.eqb_neq; lia).
    rewrite length_firstn, L.
    destruct (Z.ltb_spec (Z.of_nat n_total) k); lia.
  - assert (k = 1%Z) as -> by lia. eexists. split; [reflexivity|].
    cbn [Z.eqb Pos.eqb]. rewrite length_firstn, L.
    replace (1 * Z.of_nat n_total)%Z with (Z.of_nat n_total) by lia.
    rewrite Z.ltb_irrefl. lia.
Qed.

(** X3.  A spec that is not above zero, a float [nan] included, fails
    the assertion of [downsampleIdx], and so does a save or a load with
    that spec: nothing is written and nothing is returned. *)
Theorem downsample_not_positive (g : rng) (fs : disk row) (n_total : nat)
    (downsample : number) (first : list row) (rest : list (list row))
    (model_type file : string) :
  number_positive downsample = false ->
  is_ValidationError (downsampleIdx np_random_shuffle g n_total (Some downsample))
  /\ is_ValidationError
       (saveTrainingFeatures np_random_shuffle g fs (first :: rest) model_type file
          (Some downsample))
  /\ (fs file = Some (model_type, first :: rest) ->
      is_ValidationError
        (loadTrainingFeatures np_random_shuffle g fs file model_type (Some downsample))).
Proof.
  intros H.
  assert (forall n, exists msg,
            downsampleIdx np_random_shuffle g n (Some downsample)
            = Err (AssertionError msg)) as D.
  { intros n. unfold downsampleIdx.
    destruct (np_random_shuffle g (seq 0 n)) as [g1 p]. rewrite H.
    eexists. reflexivity. }
  split; [|split].
  - destruct (D n_total) as [msg ->]. exact I.
  - unfold saveTrainingFeatures. cbn [bind].
    destruct (D (length first)) as [msg ->]. exact I.
  - intros Hf. unfold loadTrainingFeatures, joblib_load. rewrite Hf. cbn [bind].
    rewrite String.eqb_refl. cbn [assert bind].
    destruct (D (length first)) as [msg ->]. exact I.
Qed.

(** What a successful save did: it drew its indices from [downsampleIdx]
    on the rows of the first array and stored every array at them. *)
Lemma save_stored (g g' : rng) (fs fs' : disk row) (training_list : list (list row))
    (model_type filename : string) (downsample : option number) :
  saveTrainingFeatures np_random_shuffle g fs training_list model_type filename downsample
    = Ok (g', fs') ->
  exists idx save_var,
    downsampleIdx np_random_shuffle g (length (hd [] training_list)) downsample
      = Ok (g', idx)
    /\ fs' = joblib_dump fs (model_type, save_var) filename
    /\ Forall2 (fun var saved => take var idx = Ok saved) training_list save_var
    /\ training_list <> [].
Proof.
  unfold saveTrainingFeatures. destruct training_list as [|first rest]; [discriminate|].
  cbn [bind hd].
  destruct (downsampleIdx np_random_shuffle g (length first) downsample) as [[g1 idx]|e];
    cbn [bind]; [|discriminate].
  destruct (mapM (fun var => take var idx) (first :: rest)) as [save_var|e] eqn:E;
    cbn [bind]; [|discriminate].
  intros H. inversion H; subst. exists idx, save_var.
  split; [reflexivity|]. split; [reflexivity|].
  split; [apply MonadFacts.mapM_Forall2; exact E | discriminate].
Qed.

(** X4.  A save, whatever the spec, stores the arrays aligned: there is
    one list of distinct row indices of the first array such that every
    stored array holds the rows of its source array at those indices, in
    that order.  All stored arrays have that many rows; a source array
    with more rows than the first one loses the rows beyond. *)
Theorem saveTrainingFeatures_aligned (g g' : rng) (fs fs' : disk row)
    (training_list : list (list row)) (model_type filename : string)
    (downsample : option number) :
  saveTrainingFeatures np_random_shuffle g fs training_list model_type filename downsample
    = Ok (g', fs') ->
  exists idx save_var,
    fs' filename = Some (model_type, save_var)
    /\ NoDup idx
    /\ (forall i, In i idx -> i < length (hd [] training_list))
    /\ Forall2 (fun var saved => take var idx = Ok saved /\ length saved = length idx)
               training_list save_var.
Proof.
  intros H. destruct (save_stored _ _ _ _ _ _ H) as (idx & save_var & D & -> & F & _).
  destruct (downsampleIdx_prefix _ _ _ D) as [k E].
  destruct (@prefix_of_range (length (hd [] training_list)) k _
              (shuffle_Permutation g (seq 0 (length (hd [] training_list)))))
    as (ND & Hin & _ & _).
  rewrite <- E in ND, Hin.
  exists idx, save_var. split; [|split; [exact ND|split; [exact Hin|]]].
  - unfold joblib_dump. rewrite String.eqb_refl. reflexivity.
  - clear -F. induction F as [|var saved tl sv Hv _ IH]; constructor; [|exact IH].
    split; [exact Hv | exact (take_length _ _ Hv)].
Qed.

(** X5.  Without downsampling a save succeeds exactly when there is a
    first array and no array has fewer rows than it; an array that is
    shorter makes the save fail on its index, and nothing is written. *)
Theorem saveTrainingFeatures_None_succeeds (g : rng) (fs : disk row)
    (training_list : list (list row)) (model_type filename : string) :
  (exists g' fs',
     saveTrainingFeatures np_random_shuffle g fs training_list model_type filename None
       = Ok (g', fs'))
  <-> (training_list <> []
       /\ Forall (fun var => length (hd [] training_list) <= length var) training_list).
Proof.
  split.
  - intros (g' & fs' & H).
    destruct (save_stored _ _ _ _ _ _ H) as (idx & save_var & D & _ & F & Hne).
    split; [exact Hne|].
    set (n := length (hd [] training_list)) in *.
    assert (Permutation idx (seq 0 n)) as P.
    { unfold downsampleIdx in D.
      pose proof (shuffle_Permutation g (seq 0 n)) as P.
      destruct (np_random_shuffle g (seq 0 n)) as [g1 p]. inversion D; subst. exact P. }
    clearbody n. clear -F P.
    induction F as [|var saved tl sv Hv _ IH]; constructor; [|exact IH].
    destruct n as [|n]; [lia|].
    assert (In n idx) as Hn.
    { apply (Permutation_in _ (Permutation_sym P)), in_seq. lia. }
    apply take_spec in Hv. clear -Hv Hn.
    induction Hv as [|i x idx' r' Hi _ IH]; [contradiction|].
    destruct Hn as [->|Hn]; [|exact (IH Hn)].
    assert (n < length var) by (apply nth_error_Some; congruence). lia.
  - intros [Hne Hrows]. destruct training_list as [|first rest]; [contradiction|].
    cbn [hd] in Hrows. unfold saveTrainingFeatures. cbn [bind].
    destruct (downsampleIdx_None np_random_shuffle shuffle_Permutation g (length first))
      as (g1 & idx & D & P).
    rewrite D. cbn [bind].
    destruct (@MonadFacts.mapM_total _ _ (fun var => take var idx)
                (fun var => length first <= length var) (first :: rest)) as [sv Hsv].
    + intros var Hv. apply take_total. apply Forall_forall. intros i Hi.
      apply (Permutation_in _ P), in_seq in Hi. lia.
    + exact Hrows.
    + rewrite Hsv. eexists. eexists. reflexivity.
Qed.

(** X6.  A file that a save wrote, whatever its spec and whatever the
    lengths of the arrays, loads again under the same model type: every
    row-count assertion of the load passes, and the loaded arrays hold
    the rows of the source arrays at one common list of distinct
    indices. *)
Theorem save_then_load (g g1 g2 : rng) (fs fs1 : disk row)
    (training_list : list (list row)) (model_type filename : string)
    (downsample : option number) :
  saveTrainingFeatures np_random_shuffle g fs training_list model_type filename downsample
    = Ok (g1, fs1) ->
  exists g3 loaded idx,
    loadTrainingFeatures np_random_shuffle g2 fs1 filename model_type None = Ok (g3, loaded)
    /\ NoDup idx
    /\ (forall i, In i idx -> i < length (hd [] training_list))
    /\ mapM (fun var => take var idx) training_list = Ok loaded.
Proof.
  intros H. destruct (save_stored _ _ _ _ _ _ H) as (idx1 & save_var & D & -> & F & Hne).
  destruct (downsampleIdx_prefix _ _ _ D) as [k E].
  destruct (@prefix_of_range (length (hd [] training_list)) k _
              (shuffle_Permutation g (seq 0 (length (hd [] training_list)))))
    as (ND & Hin & _ & _).
  rewrite <- E in ND, Hin. clear E k.
  set (m := length idx1).
  assert (Forall2 (fun var saved => take var idx1 = Ok saved /\ length saved = m)
                  training_list save_var) as F'.
  { clear -F. induction F as [|var saved tl sv Hv _ IH]; constructor; [|exact IH].
    split; [exact Hv | exact (take_length _ _ Hv)]. }
  assert (Forall (fun var => length var = m) save_var) as Hsv.
  { clear -F'. induction F' as [|? ? ? ? [_ L] _ IH]; constructor; assumption. }
  destruct (downsampleIdx_None np_random_shuffle shuffle_Permutation g2 m)
    as (g3 & idx2 & D2 & P2).
  destruct (load_vars_rows "Wrong number of points in file" Hsv P2) as (loaded & El & F2).
  exists g3, loaded, (map (fun j => nth j idx1 0) idx2).
  assert (Permutation (map (fun j => nth j idx1 0) idx2) idx1) as PC.
  { apply (Permutation_map (fun j => nth j idx1 0)) in P2.
    unfold m in P2. rewrite map_nth_seq in P2. exact P2. }
  split; [|split; [|split]].
  - unfold loadTrainingFeatures, joblib_load, joblib_dump.
    rewrite String.eqb_refl. cbn [bind]. rewrite String.eqb_refl. cbn [assert bind].
    destruct training_list as [|first rest]; [contradiction|].
    inversion F' as [|? s ? svr [_ Ls] _]; subst. cbn [bind].
    rewrite Ls, D2. cbn [bind]. rewrite El. reflexivity.
  - exact (Permutation_NoDup (Permutation_sym PC) ND).
  - intros i Hi. apply Hin. exact (Permutation_in _ PC Hi).
  - apply MonadFacts.mapM_Forall2. eapply Forall2_take_take; eassumption.
Qed.

(** X7.  A load checks the row counts: when a stored array does not have
    as many rows as the first stored array, loading the file without
    downsampling fails the assertion, even though the model type
    matches. *)
Theorem loadTrainingFeatures_uneven (g : rng) (fs : disk row) (file model_type : string)
    (first : list row) (rest : list (list row)) :
  fs file = Some (model_type, first :: rest) ->
  Exists (fun var => length var <> length first) rest ->
  is_ValidationError (loadTrainingFeatures np_random_shuffle g fs file model_type None).
Proof.
  intros Hf Hbad. unfold loadTrainingFeatures, joblib_load. rewrite Hf. cbn [bind].
  rewrite String.eqb_refl. cbn [assert bind].
  destruct (downsampleIdx_None np_random_shuffle shuffle_Permutation g (length first))
    as (g1 & idx & D & P).
  rewrite D. cbn [bind].
  set (n := length first) in *.
  assert (forall vars : list (list row),
            Exists (fun var => length var <> n) vars ->
            is_ValidationError
              (mapM (fun var =>
                       assert (Nat.eqb (length var) n) "Wrong number of points in file" ;;;
                       take var idx) vars)) as K.
  { intros vars Hex. induction Hex as [var l Hv|var l Hl IH]; cbn [mapM].
    - apply Nat.eqb_neq in Hv. rewrite Hv. exact I.
    - destruct (Nat.eqb_spec (length var) n) as [En|En]; cbn [assert bind]; [|exact I].
      destruct (@take_total _ var idx) as [s Hs].
      { rewrite En. apply Forall_forall. intros i Hi.
        apply (Permutation_in _ P), in_seq in Hi. lia. }
      rewrite Hs. cbn [bind].
      destruct (mapM _ l) as [bs|[]]; try contradiction; exact I. }
  assert (is_ValidationError
            (mapM (fun var =>
                     assert (Nat.eqb (length var) n) "Wrong number of points in file" ;;;
                     take var idx) (first :: rest))) as V.
  { apply K. apply Exists_cons_tl. exact Hbad. }
  destruct (mapM _ (first :: rest)) as [bs|[]]; try contradiction; exact I.
Qed.

End DownsampleFacts.

(* ================================================================== *)
(** * More on binary64 arithmetic *)

Module FloatArith.

Lemma ltb_leb (x y : float) : PrimFloat.ltb x y = true -> PrimFloat.leb x y = true.
Proof.
  rewrite ltb_spec, leb_spec. unfold SFltb, SFleb.
  destruct (SFcompare (Prim2SF x) (Prim2SF y)) as [[]|]; try discriminate; reflexivity.
Qed.

(** Shifting and rounding keep a mantissa that is not negative so. *)
Lemma shr_1_nonneg mrs : (0 <= shr_m mrs)%Z -> (0 <= shr_m (shr_1 mrs))%Z.
Proof.
  destruct mrs as [m r s]. cbn [shr_m]. intros H. unfold shr_1.
  destruct m as [|[p|p|]|p]; cbn [shr_m]; lia.
Qed.

Lemma iter_pos_nonneg (n : positive) mrs :
  (0 <= shr_m mrs)%Z -> (0 <= shr_m (iter_pos shr_1 n mrs))%Z.
Proof.
  revert mrs. induction n as [n IH|n IH|]; intros mrs H; cbn [iter_pos].
  - apply IH, IH, shr_1_nonneg, H.
  - apply IH, IH, H.
  - apply shr_1_nonneg, H.
Qed.

Lemma shr_fexp_nonneg (m e : Z) (l : location) :
  (0 <= m)%Z -> (0 <= shr_m (fst (shr_fexp prec emax m e l)))%Z.
Proof.
  intros H. unfold shr_fexp, shr.
  assert (0 <= shr_m (shr_record_of_loc m l))%Z as H0.
  { destruct l as [|[]]; exact H. }
  destruct (fexp prec emax (Zdigits2 m + e) - e)%Z; cbn [fst]; try exact H0.
  apply iter_pos_nonneg, H0.
Qed.

Lemma round_nearest_even_nonneg (m : Z) (l : location) :
  (0 <= m)%Z -> (0 <= round_nearest_even m l)%Z.
Proof.
  intros H. unfold round_nearest_even.
  destruct l as [|[]]; try lia. destruct (Z.even m); lia.
Qed.

(** The sign of a rounded number is the sign it was given. *)
Lemma binary_round_aux_sign (sx : bool) (mx ex : Z) (lx : location) :
  (0 <= mx)%Z -> has_sign sx (binary_round_aux prec emax sx mx ex lx).
Proof.
  intros H. unfold binary_round_aux.
  pose proof (shr_fexp_nonneg ex lx H) as H1.
  destruct (shr_fexp prec emax mx ex lx) as [mrs' e']. cbn [fst] in H1.
  pose proof (shr_fexp_nonneg e' loc_Exact
                (round_nearest_even_nonneg (loc_of_shr_record mrs') H1)) as H2.
  destruct (shr_fexp prec emax _ e' loc_Exact) as [mrs'' e'']. cbn [fst] in H2.
  destruct (shr_m mrs''); [reflexivity| |lia].
  destruct (e'' <=? emax - prec)%Z; reflexivity.
Qed.

Lemma SFdiv_sign (sx sy : bool) (mx my : positive) (ex ey : Z) :
  has_sign (xorb sx sy)
           (SFdiv prec emax (S754_finite sx mx ex) (S754_finite sy my ey)).
Proof.
  unfold SFdiv, SFdiv_core_binary.
  set (s := (ex - ey - _)%Z).
  set (m' := match s with Z.pos _ => Z.shiftl (Z.pos mx) s | 0%Z => Z.pos mx
                     | Z.neg _ => 0%Z end).
  assert (0 <= m')%Z as Hm.
  { unfold m'. destruct s; try lia. apply Z.shiftl_nonneg. lia. }
  pose proof (Z.div_pos m' (Z.pos my) Hm eq_refl) as Hq.
  unfold Z.div in Hq. destruct (Z.div_eucl m' (Z.pos my)) as [q r].
  cbn [fst] in Hq. apply binary_round_aux_sign. exact Hq.
Qed.

(** The quotient of 1 by a positive float is not negative. *)
Lemma one_div_pos_nonneg (d : float) :
  PrimFloat.ltb 0 d = true -> PrimFloat.leb 0 (PrimFloat.div 1 d) = true.
Proof.
  rewrite ltb_spec, leb_spec, div_spec.
  replace (Prim2SF 0) with (S754_zero false) by (vm_compute; reflexivity).
  replace (Prim2SF 1) with (S754_finite false 4503599627370496 (-52))
    by (vm_compute; reflexivity).
  destruct (Prim2SF d) as [s|s| |s m e]; try destruct s; try discriminate;
    try reflexivity.
  intros _. pose proof (SFdiv_sign false false 4503599627370496 m (-52) e) as H.
  unfold SF64div.
  destruct (SFdiv prec emax _ _) as [s|s| |s m' e']; cbn in H; subst;
    try reflexivity; contradiction.
Qed.

End FloatArith.

(* ================================================================== *)
(** * Validation in fillPrt and fillAlpha *)

Module FillFacts.

Lemma scatter_Forall {A : Type} (P : A -> Prop) (full : list A) (m : list bool)
    (vals : list A) :
  Forall P full -> Forall P vals -> Forall P (np.scatter full m vals).
Proof.
  intros Hf. revert m vals.
  induction Hf as [|x full Hx Hf IH]; intros m vals Hv; [destruct m; constructor|].
  destruct m as [|[] m]; cbn [np.scatter].
  - constructor; assumption.
  - destruct Hv as [|v vals Hv1 Hv2]; constructor; try assumption.
    + apply IH. constructor.
    + apply IH. exact Hv2.
  - constructor; [exact Hx | apply IH; exact Hv].
Qed.

Lemma forallb_false_Exists {A : Type} (f : A -> bool) (l : list A) :
  forallb f l = false -> Exists (fun x => f x = false) l.
Proof.
  induction l as [|a l IH]; cbn [forallb]; [discriminate|].
  destruct (f a) eqn:E; cbn [andb].
  - intros H. apply Exists_cons_tl, IH, H.
  - intros _. apply Exists_cons_hd. exact E.
Qed.

Lemma forallb_true_Forall {A : Type} (f : A -> bool) (l : list A) :
  forallb f l = true -> Forall (fun x => f x = true) l.
Proof. intros H. apply Forall_forall, forallb_forall. exact H. Qed.

End FillFacts.

(** X8.  [fillPrt] raises nothing but the assertion error, and raises it
    exactly when the number of values is not the number of selected
    cells, or a value is not >= 0 (a [nan] included), or the default is
    not > 0.  When it returns, the array has one entry per cell and
    every entry is >= 0. *)
Theorem fillPrt_validation (constants : Constants) (Prt : np.vec)
    (should_use : list bool) (default_prt : option float) :
  match fillPrt constants Prt should_use default_prt with
  | Ok Prt_full =>
      length Prt = np.count_true should_use
      /\ Forall (fun x => PrimFloat.leb 0 x = true) Prt
      /\ PrimFloat.ltb 0 (default_or_PR_T constants default_prt) = true
      /\ length Prt_full = length should_use
      /\ Forall (fun x => PrimFloat.leb 0 x = true) Prt_full
  | Err e =>
      (exists msg, e = AssertionError msg)
      /\ (length Prt <> np.count_true should_use
          \/ Exists (fun x => PrimFloat.leb 0 x = false) Prt
          \/ PrimFloat.ltb 0 (default_or_PR_T constants default_prt) = false)
  end.
Proof.
  unfold fillPrt.
  destruct (Nat.eqb_spec (length Prt) (np.count_true should_use)) as [HP|HP];
    cbn [assert bind]; [|split; [eexists; reflexivity | left; exact HP]].
  destruct (forallb (fun x => PrimFloat.leb 0 x) Prt) eqn:HN; cbn [assert bind].
  2:{ split; [eexists; reflexivity|]. right. left.
      apply FillFacts.forallb_false_Exists. exact HN. }
  set (d := default_or_PR_T constants default_prt).
  destruct (PrimFloat.ltb 0 d) eqn:Hd; cbn [assert bind];
    [|split; [eexists; reflexivity | right; right; reflexivity]].
  rewrite map_repeat, FloatFacts.mul_1_l.
  unfold np.setmask. rewrite repeat_length, Nat.eqb_refl, HP, Nat.eqb_refl. cbn [negb].
  apply FillFacts.forallb_true_Forall in HN.
  split; [reflexivity|]. split; [exact HN|]. split; [reflexivity|].
  split; [rewrite MaskFacts.scatter_length; apply repeat_length|].
  apply FillFacts.scatter_Forall; [|exact HN].
  apply Forall_forall. intros x Hx. apply repeat_spec in Hx. subst x.
  apply FloatArith.ltb_leb. exact Hd.
Qed.

(** X9.  [fillAlpha] raises nothing but the assertion error, and raises
    it exactly when the number of tensors is not the number of selected
    cells, or a tensor is not 3x3, or a diagonal entry is not >= 0, or
    the default is not > 0.  When it returns, there is one 3x3 tensor per
    cell and every diagonal entry is >= 0. *)
Theorem fillAlpha_validation (constants : Constants) (alphaij : list np.mat)
    (should_use : list bool) (default_prt : option float) :
  match fillAlpha constants alphaij should_use default_prt with
  | Ok alphaij_full =>
      length alphaij = np.count_true should_use
      /\ Forall valid_tensor alphaij
      /\ PrimFloat.ltb 0 (default_or_PR_T constants default_prt) = true
      /\ length alphaij_full = length should_use
      /\ Forall valid_tensor alphaij_full
  | Err e =>
      (exists msg, e = AssertionError msg)
      /\ (length alphaij <> np.count_true should_use
          \/ Exists (fun m => ~ valid_tensor m) alphaij
          \/ PrimFloat.ltb 0 (default_or_PR_T constants default_prt) = false)
  end.
Proof.
  unfold fillAlpha.
  destruct (Nat.eqb_spec (length alphaij) (np.count_true should_use)) as [HA|HA];
    cbn [assert bind]; [|split; [eexists; reflexivity | left; exact HA]].
  assert (forall f : np.mat -> bool,
            (forall m, valid_tensor m -> f m = true) ->
            forallb f alphaij = false -> Exists (fun m => ~ valid_tensor m) alphaij) as Bad.
  { intros f Hf H. apply FillFacts.forallb_false_Exists in H.
    eapply Exists_impl; [|exact H]. intros m Hm Hok. cbv beta in Hm.
    pose proof (Hf m Hok). congruence. }
  destruct (forallb is_3x3 alphaij) eqn:H3; cbn [assert bind].
  2:{ split; [eexists; reflexivity|]. right. left.
      apply (Bad is_3x3); [intros m Hm; apply Hm | exact H3]. }
  destruct (forallb (fun m => PrimFloat.leb 0 (diag_entry 0 m)) alphaij) eqn:H0;
    cbn [assert bind].
  2:{ split; [eexists; reflexivity|]. right. left.
      apply (Bad (fun m => PrimFloat.leb 0 (diag_entry 0 m)));
        [intros m Hm; apply Hm | exact H0]. }
  destruct (forallb (fun m => PrimFloat.leb 0 (diag_entry 1 m)) alphaij) eqn:H1;
    cbn [assert bind].
  2:{ split; [eexists; reflexivity|]. right. left.
      apply (Bad (fun m => PrimFloat.leb 0 (diag_entry 1 m)));
        [intros m Hm; apply Hm | exact H1]. }
  destruct (forallb (fun m => PrimFloat.leb 0 (diag_entry 2 m)) alphaij) eqn:H2;
    cbn [assert bind].
  2:{ split; [eexists; reflexivity|]. right. left.
      apply (Bad (fun m => PrimFloat.leb 0 (diag_entry 2 m)));
        [intros m Hm; apply Hm | exact H2]. }
  set (d := default_or_PR_T constants default_prt).
  destruct (PrimFloat.ltb 0 d) eqn:Hd; cbn [assert bind];
    [|split; [eexists; reflexivity | right; right; reflexivity]].
  rewrite fillAlpha_default. fold (isotropic d).
  unfold np.setmask. rewrite repeat_length, Nat.eqb_refl, HA, Nat.eqb_refl. cbn [negb].
  assert (Forall valid_tensor alphaij) as Hok.
  { apply Forall_forall. intros m Hm. unfold valid_tensor.
    rewrite forallb_forall in H3, H0, H1, H2. auto. }
  split; [reflexivity|]. split; [exact Hok|]. split; [reflexivity|].
  split; [rewrite MaskFacts.scatter_length; apply repeat_length|].
  apply FillFacts.scatter_Forall; [|exact Hok].
  apply Forall_forall. intros m Hm. apply repeat_spec in Hm. subst m.
  pose proof (@FloatArith.one_div_pos_nonneg d Hd) as Hpos.
  unfold valid_tensor, isotropic, is_3x3, diag_entry. cbn. auto.
Qed.

(* ================================================================== *)
(** * More on the cleaning loop *)

Module WarningFacts.

Lemma last_cons {A : Type} (a d : A) (l : list A) : last (a :: l) d = last l a.
Proof.
  revert a d. induction l as [|b l IH]; intros a d; [reflexivity|].
  change (last (a :: b :: l) d) with (last (b :: l) d).
  rewrite (IH b d), (IH b a). reflexivity.
Qed.

Lemma last_snoc2 {A : Type} (l : list A) (a b d : A) : last (l ++ [a; b]) d = b.
Proof.
  induction l as [|x l IH]; [reflexivity|].
  cbn [app]. rewrite last_cons.
  destruct l as [|y l]; [reflexivity|].
  cbn [app] in *. rewrite last_cons in IH. rewrite last_cons. exact IH.
Qed.

(** Every pass records how many rows its mask leaves out. *)
Lemma clean_body_cleaned_exs (constants : Constants) (x_features : np.mat)
    (st : clean_state) :
  cleaned_exs (fst (clean_body constants x_features st))
  = Some (Z.of_nat (length x_features)
          - Z.of_nat (np.count_true (mask (fst (clean_body constants x_features st)))))%Z.
Proof.
  unfold clean_body.
  destruct (converged _ _ _); [reflexivity|].
  destruct (too_many_cleaned _ _ _); reflexivity.
Qed.

(** A loop that starts with the warning flag set and ends with it
    cleared has ended in the convergence test of its last pass. *)
Lemma clean_loop_converged (constants : Constants) (x_features : np.mat)
    (max_iter : nat) (st : clean_state) :
  warning_flag st = true ->
  warning_flag (last (clean_loop constants x_features max_iter st) st) = false ->
  exists earlier prev final new_cleaned_exs,
    st :: clean_loop constants x_features max_iter st = earlier ++ [prev; final]
    /\ cleaned_exs final = Some new_cleaned_exs
    /\ converged constants (cleaned_exs prev) new_cleaned_exs = true.
Proof.
  revert st. induction max_iter as [|k IH]; intros st Hw Hl.
  - cbn in Hl. congruence.
  - cbn [clean_loop] in *.
    pose proof (clean_body_cleaned_exs constants x_features st) as Hc.
    unfold clean_body in *.
    set (m := map negb (outliers constants x_features (mask st))) in *.
    set (new := (Z.of_nat (length x_features) - Z.of_nat (np.count_true m))%Z) in *.
    destruct (converged constants (cleaned_exs st) new) eqn:C.
    + exists [], st. eexists. exists new. split; [reflexivity|]. split; [reflexivity|].
      exact C.
    + destruct (too_many_cleaned constants new (length x_features)).
      * cbn in Hl. congruence.
      * rewrite last_cons in Hl.
        set (st' := {| mask := m; cleaned_exs := Some new;
                       warning_flag := warning_flag st |}) in *.
        destruct (IH st' Hw Hl) as (earlier & prev & final & c & E & Ec & Cv).
        exists (st :: earlier), prev, final, c.
        split; [cbn [app]; rewrite <- E; reflexivity|]. split; assumption.
Qed.

Lemma clean_loop_length (constants : Constants) (x_features : np.mat)
    (max_iter : nat) (st : clean_state) :
  length (clean_loop constants x_features max_iter st) <= max_iter.
Proof.
  revert st. induction max_iter as [|k IH]; intros st; [apply Nat.le_refl|].
  cbn [clean_loop]. destruct (clean_body constants x_features st) as [st' brk].
  destruct brk; cbn [length]; [lia|]. specialize (IH st'). lia.
Qed.

Lemma clean_loop_first_pass (constants : Constants) (x_features : np.mat)
    (max_iter : nat) (st : clean_state) :
  cleaned_exs st = None -> max_iter <= 1 ->
  warning_flag (last (clean_loop constants x_features max_iter st) st) = warning_flag st.
Proof.
  intros Hn Hm. destruct max_iter as [|[|k]]; [reflexivity| |lia].
  cbn [clean_loop]. unfold clean_body. rewrite Hn. cbn [converged].
  destruct (too_many_cleaned _ _ _); reflexivity.
Qed.

End WarningFacts.

(** X10.  [cleanFeatures] prints the warning unless the loop stopped at
    its convergence test: when the warning is not printed, at least two
    passes were made and the relative change of the cleaned-row count
    between the last two passes is below TOL.  The first pass has no
    previous count to compare with, so with MAX_ITER <= 1 the warning is
    always printed.  At most MAX_ITER passes are made. *)
Theorem cleanFeatures_warning (constants : Constants) (x_features : np.mat) :
  (forall (B : Type) should_use (tensor_basis : option (list B)) out,
     cleanFeatures constants x_features should_use tensor_basis = Ok out ->
     warning_printed out = warning_flag (clean_final constants x_features))
  /\ (warning_flag (clean_final constants x_features) = false ->
      exists earlier prev previous_count cleaned_count,
        clean_passes constants x_features = earlier ++ [prev; clean_final constants x_features]
        /\ cleaned_exs prev = Some previous_count
        /\ cleaned_exs (clean_final constants x_features) = Some cleaned_count
        /\ PrimFloat.ltb
             (PrimFloat.div (float_of_Z (cleaned_count - previous_count))
                            (float_of_Z previous_count))
             (TOL constants) = true)
  /\ (MAX_ITER constants <= 1 -> warning_flag (clean_final constants x_features) = true)
  /\ length (clean_passes constants x_features) <= MAX_ITER constants.
Proof.
  unfold clean_final.
  set (final := last (clean_passes constants x_features) (clean_init x_features)).
  split; [|split; [|split]].
  - intros B should_use tensor_basis out H. unfold cleanFeatures in H. fold final in H.
    destruct (np.getmask x_features (mask final)); cbn [bind] in H; [|discriminate].
    destruct (np.setmask _ should_use (mask final)); cbn [bind] in H; [|discriminate].
    destruct tensor_basis as [tb|].
    + destruct (np.getmask tb (mask final)); cbn [bind] in H; [|discriminate].
      inversion H. reflexivity.
    + inversion H. reflexivity.
  - intros Hw. unfold final, clean_passes in *.
    destruct (@WarningFacts.clean_loop_converged constants x_features (MAX_ITER constants)
                (clean_init x_features) eq_refl Hw)
      as (earlier & prev & fin & c & E & Ec & Cv).
    assert (last (clean_loop constants x_features (MAX_ITER constants)
                    (clean_init x_features)) (clean_init x_features) = fin) as Ef.
    { rewrite <- (WarningFacts.last_cons (clean_init x_features) (clean_init x_features)).
      rewrite E. apply WarningFacts.last_snoc2. }
    destruct (cleaned_exs prev) as [cp|] eqn:Ep; [|discriminate Cv].
    destruct earlier as [|a earlier].
    + cbn [app] in E. inversion E; subst. discriminate Ep.
    + cbn [app] in E. inversion E as [[Ea E']].
      exists earlier, prev, cp, c. rewrite Ef.
      split; [exact E'|]. split; [exact Ep|]. split; [exact Ec | exact Cv].
  - intros Hm. unfold final, clean_passes.
    rewrite WarningFacts.clean_loop_first_pass; [reflexivity | reflexivity | exact Hm].
  - apply WarningFacts.clean_loop_length.
Qed.

Module NanFacts.

Lemma Prim2SF_nan : Prim2SF nan = S754_nan.
Proof. reflexivity. Qed.

Ltac nan_arith spec :=
  intros; apply Prim2SF_inj; rewrite spec, ?Prim2SF_nan;
  repeat match goal with
         | |- context [Prim2SF ?x] => destruct (Prim2SF x) as [[]|[]| |[] ? ?]
         end; reflexivity.

Lemma add_nan_l (x : float) : PrimFloat.add nan x = nan.
Proof. nan_arith add_spec. Qed.

Lemma add_nan_r (x : float) : PrimFloat.add x nan = nan.
Proof. nan_arith add_spec. Qed.

Lemma sub_nan_l (x : float) : PrimFloat.sub nan x = nan.
Proof. nan_arith sub_spec. Qed.

Lemma sub_nan_r (x : float) : PrimFloat.sub x nan = nan.
Proof. nan_arith sub_spec. Qed.

Lemma mul_nan_l (x : float) : PrimFloat.mul nan x = nan.
Proof. nan_arith mul_spec. Qed.

Lemma mul_nan_r (x : float) : PrimFloat.mul x nan = nan.
Proof. nan_arith mul_spec. Qed.

Lemma div_nan_l (x : float) : PrimFloat.div nan x = nan.
Proof. nan_arith div_spec. Qed.

Lemma sqrt_nan : PrimFloat.sqrt nan = nan.
Proof. reflexivity. Qed.

Lemma ltb_nan_r (x : float) : PrimFloat.ltb x nan = false.
Proof. rewrite ltb_spec, Prim2SF_nan. destruct (Prim2SF x); reflexivity. Qed.

Lemma ltb_nan_l (x : float) : PrimFloat.ltb nan x = false.
Proof. rewrite ltb_spec, Prim2SF_nan. destruct (Prim2SF x); reflexivity. Qed.

(** A sum over an array with a [nan] is [nan]; so are its mean and its
    standard deviation. *)
Lemma fold_add_nan (v : np.vec) : fold_left PrimFloat.add v nan = nan.
Proof. induction v as [|x v IH]; [reflexivity|]. cbn. rewrite add_nan_l. exact IH. Qed.

Lemma sum_nan (v : np.vec) : In nan v -> np.sum v = nan.
Proof.
  unfold np.sum. generalize 0%float as acc.
  induction v as [|x v IH]; intros acc H; [contradiction|].
  cbn [fold_left]. destruct H as [->|H].
  - rewrite add_nan_r. apply fold_add_nan.
  - apply IH. exact H.
Qed.

Lemma mean_nan (v : np.vec) : In nan v -> np.mean v = nan.
Proof. intros H. unfold np.mean. rewrite (sum_nan _ H). apply div_nan_l. Qed.

Lemma std_nan (v : np.vec) : In nan v -> np.std v = nan.
Proof.
  intros H. unfold np.std. rewrite (mean_nan _ H), sum_nan.
  - rewrite div_nan_l. apply sqrt_nan.
  - rewrite map_map. apply in_map_iff. exists nan. split; [|exact H].
    rewrite sub_nan_r. apply mul_nan_l.
Qed.

Lemma map2_map_map {A B C D : Type} (f : B -> C -> D) (g : A -> B) (h : A -> C)
    (l : list A) :
  np.map2 f (map g l) (map h l) = map (fun a => f (g a) (h a)) l.
Proof. induction l as [|a l IH]; [reflexivity|]. cbn. rewrite IH. reflexivity. Qed.

Lemma map2_all_false {A B : Type} (f : A -> B -> bool) (l : list A) (l' : list B) :
  (forall a b, In b l' -> f a b = false) ->
  Forall (fun b => b = false) (np.map2 f l l').
Proof.
  revert l'. induction l as [|a l IH]; intros [|b l'] H; cbn [np.map2]; constructor.
  - apply H. left. reflexivity.
  - apply IH. intros a' b' Hb. apply H. right. exact Hb.
Qed.

Lemma existsb_orb_false (l l' : list bool) :
  Forall (fun b => b = false) l -> Forall (fun b => b = false) l' ->
  existsb (fun b => b) (np.map2 orb l l') = false.
Proof.
  intros H. revert l'. induction H as [|b l Hb Hl IH]; intros l' H'; [reflexivity|].
  destruct H' as [|b' l' Hb' Hl']; [reflexivity|].
  cbn [np.map2 existsb]. subst b b'. cbn [orb]. apply IH. exact Hl'.
Qed.

(** When every feature has a [nan] among the rows, the statistics of all
    rows flag no row. *)
Lemma outliers_nan (constants : Constants) (x_features : np.mat) :
  (forall j, j < np.shape1 x_features -> In nan (np.column x_features j)) ->
  outliers constants x_features (repeat true (length x_features))
  = repeat false (length x_features).
Proof.
  intros H. unfold outliers. rewrite MaskFacts.select_repeat_true.
  unfold np.mean0, np.std0. rewrite !map2_map_map.
  set (lo := map _ (seq 0 (np.shape1 x_features))).
  set (hi := map _ (seq 0 (np.shape1 x_features))).
  assert (forall b, In b lo -> b = nan) as Hlo.
  { intros b Hb. apply in_map_iff in Hb. destruct Hb as [j [<- Hj]].
    apply in_seq in Hj. rewrite mean_nan by (apply H; lia). apply sub_nan_l. }
  assert (forall b, In b hi -> b = nan) as Hhi.
  { intros b Hb. apply in_map_iff in Hb. destruct Hb as [j [<- Hj]].
    apply in_seq in Hj. rewrite mean_nan by (apply H; lia). apply add_nan_l. }
  clearbody lo hi. clear H.
  induction x_features as [|r x IH]; [reflexivity|].
  cbn [map length repeat]. f_equal; [|exact IH].
  apply existsb_orb_false; apply map2_all_false; intros a b Hb.
  - rewrite (Hlo b Hb). apply ltb_nan_r.
  - rewrite (Hhi b Hb). apply ltb_nan_l.
Qed.

(** If the statistics of all rows flag no row, every pass keeps every
    row, whatever the constants. *)
Lemma clean_loop_all_kept (constants : Constants) (x_features : np.mat) (max_iter : nat)
    (st : clean_state) :
  outliers constants x_features (repeat true (length x_features))
    = repeat false (length x_features) ->
  mask st = repeat true (length x_features) ->
  Forall (fun s => mask s = repeat true (length x_features))
         (clean_loop constants x_features max_iter st).
Proof.
  intros Hout. revert st. induction max_iter as [|k IH]; intros st Hm; [constructor|].
  cbn [clean_loop].
  pose proof (CleanFacts.clean_body_mask constants x_features st) as Hb.
  destruct (clean_body constants x_features st) as [st' brk]. cbn [fst] in Hb.
  assert (mask st' = repeat true (length x_features)) as Hm'.
  { rewrite Hb, Hm, Hout, map_repeat. reflexivity. }
  constructor; [exact Hm'|]. destruct brk; [constructor | apply IH; exact Hm'].
Qed.

(** What [cleanFeatures] returns when its final mask keeps every row. *)
Lemma cleanFeatures_all_kept {B : Type} (constants : Constants) (x_features : np.mat)
    (should_use : list bool) (tensor_basis : option (list B)) (out : cleaned B) :
  mask (last (clean_passes constants x_features) (clean_init x_features))
    = repeat true (length x_features) ->
  cleanFeatures constants x_features should_use tensor_basis = Ok out ->
  new_x_features out = x_features
  /\ new_should_use out = should_use
  /\ new_tensor_basis out = tensor_basis.
Proof.
  intros Hm H. unfold cleanFeatures in H. rewrite Hm in H.
  unfold np.getmask at 1 in H.
  rewrite repeat_length, Nat.eqb_refl, MaskFacts.select_repeat_true in H. cbn [bind] in H.
  assert (forall r, np.setmask (repeat false (length should_use)) should_use
                      (repeat true (length x_features)) = Ok r -> r = should_use) as Hs.
  { intros r. unfold np.setmask. rewrite !repeat_length, Nat.eqb_refl. cbn [negb].
    destruct (Nat.eqb (length x_features) (np.count_true should_use)) eqn:En.
    - apply Nat.eqb_eq in En. rewrite En. intros Hr. inversion Hr.
      apply ZeroCountFacts.scatter_all_true.
    - destruct (length x_features) as [|[|n]]; cbn [repeat]; try discriminate.
      intros Hr. inversion Hr. apply ZeroCountFacts.scatter_all_true. }
  destruct (np.setmask (repeat false (length should_use)) should_use
              (repeat true (length x_features))) as [r|e] eqn:Er; [|discriminate].
  cbn [bind] in H. rewrite (Hs r eq_refl) in H.
  destruct tensor_basis as [tb|].
  - unfold np.getmask in H. rewrite repeat_length in H.
    destruct (Nat.eqb_spec (length x_features) (length tb)) as [E|E];
      cbn [bind] in H; [|discriminate].
    rewrite E, MaskFacts.select_repeat_true in H. inversion H; subst. cbn. auto.
  - inversion H; subst. cbn. auto.
Qed.

End NanFacts.

(** X11.  A [nan] disables the cleaning: when every feature (column) has
    a [nan] in some row, no pass flags any row, whatever the constants,
    and [cleanFeatures] returns the features, the gating mask and the
    tensor basis as they were given. *)
Theorem cleanFeatures_nan (constants : Constants) (x_features : np.mat) :
  (forall j, j < np.shape1 x_features -> In nan (np.column x_features j)) ->
  Forall (fun st => mask st = repeat true (length x_features))
         (clean_passes constants x_features)
  /\ forall (B : Type) should_use (tensor_basis : option (list B)) out,
       cleanFeatures constants x_features should_use tensor_basis = Ok out ->
       new_x_features out = x_features
       /\ new_should_use out = should_use
       /\ new_tensor_basis out = tensor_basis.
Proof.
  intros H.
  pose proof (@NanFacts.clean_loop_all_kept constants x_features (MAX_ITER constants)
                (clean_init x_features) (NanFacts.outliers_nan constants x_features H)
                eq_refl) as K.
  split; [exact K|].
  intros B should_use tensor_basis out Ho.
  eapply NanFacts.cleanFeatures_all_kept; [|exact Ho].
  apply (@CleanFacts.last_Forall _
           (fun s => mask s = repeat true (length x_features))); [exact K | reflexivity].
Qed.

(** X12.  [cleanFeatures] needs one feature row per selected cell: with
    another number of rows (other than a single row, which the masked
    assignment would repeat) it fails in the assignment of the mask, and
    with a tensor basis of another number of rows it fails in the
    indexing of the basis.  Nothing is returned in either case. *)
Theorem cleanFeatures_shape_errors {B : Type} (constants : Constants)
    (x_features : np.mat) (should_use : list bool) (tensor_basis : option (list B)) :
  (length x_features <> np.count_true should_use ->
   length x_features <> 1 ->
   cleanFeatures constants x_features should_use tensor_basis = Err ValueError)
  /\ (length x_features = np.count_true should_use ->
      forall tb, tensor_basis = Some tb -> length tb <> length x_features ->
      cleanFeatures constants x_features should_use tensor_basis = Err IndexError).
Proof.
  pose proof (CleanFacts.final_mask_length constants x_features) as Hl.
  unfold cleanFeatures.
  set (st := last (clean_passes constants x_features) (clean_init x_features)) in *.
  split.
  - intros Hx H1. apply Nat.eqb_neq in Hx.
    unfold np.getmask at 1. rewrite Hl, Nat.eqb_refl. cbn [bind].
    unfold np.setmask. rewrite repeat_length, Nat.eqb_refl, Hl, Hx. cbn [negb].
    destruct (mask st) as [|b [|b' m]]; cbn [length] in Hl; try reflexivity.
    congruence.
  - intros Hx tb -> Ht.
    unfold np.getmask, np.setmask.
    rewrite repeat_length, !Hl, !Nat.eqb_refl. cbn [bind negb].
    rewrite <- Hx, Nat.eqb_refl. cbn [bind].
    replace (Nat.eqb (length x_features) (length tb)) with false
      by (symmetry; apply Nat.eqb_neq; congruence).
    reflexivity.
Qed.

(* ================================================================== *)
(** * More on the invariants *)

Module InvariantFacts.

Lemma setitem_length {A : Type} (a r : list A) (i : nat) (v : A) :
  np.setitem a i v = Ok r -> length r = length a.
Proof.
  revert i r. induction a as [|x a IH]; intros i r; [discriminate|].
  destruct i as [|i]; cbn [np.setitem].
  - intros H. inversion H. reflexivity.
  - destruct (np.setitem a i v) as [r'|e] eqn:E; cbn [bind]; [|discriminate].
    intros H. inversion H. cbn [length]. rewrite (IH _ _ E). reflexivity.
Qed.

Lemma setitem_Err {A : Type} (a : list A) (i : nat) (v : A) :
  length a <= i -> np.setitem a i v = Err IndexError.
Proof.
  revert i. induction a as [|x a IH]; intros i H; [reflexivity|].
  destruct i as [|i]; cbn [length] in H; [lia|].
  cbn [np.setitem]. rewrite IH by lia. reflexivity.
Qed.

Lemma setitem_Ok {A : Type} (a : list A) (i : nat) (v : A) :
  i < length a -> exists r, np.setitem a i v = Ok r.
Proof.
  revert i. induction a as [|x a IH]; intros i H; [cbn in H; lia|].
  destruct i as [|i]; cbn [np.setitem]; [eexists; reflexivity|].
  destruct (IH i) as [r Hr]; [cbn in H; lia|]. rewrite Hr. eexists. reflexivity.
Qed.

Lemma setitem_skipn {A : Type} (a r : list A) (i k : nat) (v : A) :
  np.setitem a i v = Ok r -> i < k -> skipn k r = skipn k a.
Proof.
  revert i k r. induction a as [|x a IH]; intros i k r; [discriminate|].
  destruct i as [|i]; cbn [np.setitem].
  - intros H Hk. inversion H. destruct k; [lia | reflexivity].
  - destruct (np.setitem a i v) as [r'|e] eqn:E; cbn [bind]; [|discriminate].
    intros H Hk. inversion H. destruct k as [|k]; [lia|]. cbn [skipn].
    apply (IH _ _ _ E). lia.
Qed.

Lemma setitem_cases {A : Type} (a : list A) (i : nat) (v : A) :
  match np.setitem a i v with
  | Ok r => i < length a /\ length r = length a
            /\ (forall k, i < k -> skipn k r = skipn k a)
  | Err e => e = IndexError /\ length a <= i
  end.
Proof.
  destruct (Nat.lt_ge_cases i (length a)) as [H|H].
  - destruct (@setitem_Ok _ a i v H) as [r Hr]. rewrite Hr.
    split; [exact H|]. split; [eapply setitem_length; exact Hr|].
    intros k Hk. eapply setitem_skipn; [exact Hr | exact Hk].
  - rewrite (@setitem_Err _ a i v H). split; [reflexivity | exact H].
Qed.

Lemma skipn_repeat {A : Type} (x : A) (n k : nat) :
  skipn k (repeat x n) = repeat x (n - k).
Proof.
  revert n. induction k as [|k IH]; intros n.
  - rewrite Nat.sub_0_r. reflexivity.
  - destruct n as [|n]; [reflexivity|]. cbn [repeat skipn]. apply IH.
Qed.

(** One assignment in a chain of assignments. *)
Ltac step_setitem :=
  match goal with
  | |- context [np.setitem ?a ?i ?v] =>
      let H := fresh "H" in
      pose proof (setitem_cases a i v) as H;
      destruct (np.setitem a i v); cbn [bind]
  end.

End InvariantFacts.

(** What [calcInvariants] returns, and when. *)
Lemma calcInvariants_cases (constants : Constants) (gradU : np.mat)
    (gradT : np.vec) (basis : bool) :
  match calcInvariants constants gradU gradT basis with
  | Ok (invariants, tensor_basis) =>
      15 <= N_FEATURES constants
      /\ length invariants = N_FEATURES constants - 2
      /\ skipn 13 invariants = np.empty (N_FEATURES constants - 15)
      /\ match tensor_basis with
         | None => basis = false
         | Some tb =>
             basis = true /\ 6 <= N_BASIS constants /\ length tb = N_BASIS constants
         end
  | Err e =>
      (e = ValueError /\ N_FEATURES constants < 2)
      \/ (e = IndexError /\ 2 <= N_FEATURES constants
          /\ (N_FEATURES constants < 15 \/ (basis = true /\ N_BASIS constants < 6)))
  end.
Proof.
  unfold calcInvariants, np.empty_int.
  destruct (Z.ltb_spec (Z.of_nat (N_FEATURES constants) - 2) 0) as [Hneg|Hpos];
    cbn [bind].
  { left. split; [reflexivity | lia]. }
  replace (Z.to_nat (Z.of_nat (N_FEATURES constants) - 2))
    with (N_FEATURES constants - 2) by lia.
  assert (2 <= N_FEATURES constants) as H2 by lia.
  pose proof (repeat_length nan (N_FEATURES constants - 2)) as L0.
  pose proof (InvariantFacts.skipn_repeat nan (N_FEATURES constants - 2) 13) as K0.
  fold (np.empty (N_FEATURES constants - 2)) in L0, K0.
  replace (N_FEATURES constants - 2 - 13) with (N_FEATURES constants - 15) in K0 by lia.
  fold (np.empty (N_FEATURES constants - 15)) in K0.
  generalize dependent (np.empty (N_FEATURES constants - 2)). intros a0 L0 K0.
  do 13 (InvariantFacts.step_setitem;
         [|right; split; [tauto | split; [exact H2 | left; lia]]]).
  match goal with
  | |- context [Ok (?r, None)] =>
      assert (K : skipn 13 r = np.empty (N_FEATURES constants - 15))
  end.
  { repeat match goal with
           | H : _ /\ _ /\ (forall k, _ -> skipn k ?r = _) |- skipn 13 ?r = _ =>
               rewrite (proj2 (proj2 H) 13) by lia
           end.
    exact K0. }
  destruct basis.
  - pose proof (repeat_length (repeat (np.empty 3) 3) (N_BASIS constants)) as M0.
    generalize dependent (repeat (repeat (np.empty 3) 3) (N_BASIS constants)).
    intros b0 M0.
    do 6 (InvariantFacts.step_setitem;
          [|right; split; [tauto|]; split; [exact H2|]; right;
            split; [reflexivity | unfold np.mat, np.vec in *; lia]]).
    unfold np.mat, np.vec in *. repeat split; try assumption; lia.
  - repeat split; try assumption; lia.
Qed.

(** X13.  On a velocity gradient of shape 3x3 and a temperature
    gradient of 3 entries, [calcInvariants] depends on the constants
    only through bounds.  It allocates N_FEATURES - 2 entries, which
    numpy refuses with a value error when N_FEATURES is below 2; it
    writes the entries 0..12 and, with the basis, the entries 0..5 of an
    array of N_BASIS tensors.  So it returns exactly when N_FEATURES is
    at least 15 and (with the basis) N_BASIS at least 6, and otherwise
    fails with a value error (N_FEATURES < 2) or an index error.  The
    returned invariants have N_FEATURES - 2 entries, of which those from
    13 on are left as the allocation made them; the basis is returned
    exactly when it is asked for, and has N_BASIS tensors. *)
Theorem calcInvariants_bounds (constants : Constants) (gradU : np.mat)
    (gradT : np.vec) (basis : bool) :
  is_3x3 gradU = true ->
  length gradT = 3 ->
  ((exists r, calcInvariants constants gradU gradT basis = Ok r)
   <-> 15 <= N_FEATURES constants /\ (basis = true -> 6 <= N_BASIS constants))
  /\ (forall e, calcInvariants constants gradU gradT basis = Err e ->
                e = if Nat.ltb (N_FEATURES constants) 2 then ValueError else IndexError)
  /\ (forall invariants tensor_basis,
        calcInvariants constants gradU gradT basis = Ok (invariants, tensor_basis) ->
        length invariants = N_FEATURES constants - 2
        /\ skipn 13 invariants = np.empty (N_FEATURES constants - 15)
        /\ match tensor_basis with
           | None => basis = false
           | Some tb => basis = true /\ length tb = N_BASIS constants
           end).
Proof.
  intros _ _.
  pose proof (calcInvariants_cases constants gradU gradT basis) as K.
  destruct (calcInvariants constants gradU gradT basis) as [[inv tb]|e].
  - destruct K as (HN & L & Sk & Htb). split; [|split].
    + split; [intros _ | intros _; eexists; reflexivity].
      split; [exact HN|]. intros Hb.
      destruct tb as [t|]; [tauto | congruence].
    + intros e H. discriminate H.
    + intros i t H. inversion H; subst. split; [exact L|]. split; [exact Sk|].
      destruct t; tauto.
  - split; [|split].
    + split; [intros [r H]; discriminate H|]. intros [HN HB]. exfalso.
      destruct K as [[_ K]|(_ & _ & [K|[Kb K]])];
        [lia | lia | specialize (HB Kb); lia].
    + intros e' H. inversion H; subst e'.
      destruct K as [[-> K]|(-> & K & _)].
      * replace (Nat.ltb (N_FEATURES constants) 2) with true
          by (symmetry; apply Nat.ltb_lt; exact K).
        reflexivity.
      * replace (Nat.ltb (N_FEATURES constants) 2) with false
          by (symmetry; apply Nat.ltb_ge; exact K).
        reflexivity.
    + intros i t H. discriminate H.
Qed.

Module ZeroFacts.

Lemma is_zero_Zr (x : float) : Zr x -> PrimFloat.is_zero x = true.
Proof.
  intros [s H]. unfold PrimFloat.is_zero. rewrite eqb_spec, H. reflexivity.
Qed.

Lemma is_finite_Fn (x : float) : PrimFloat.is_finite x = true -> Fn x.
Proof.
  unfold PrimFloat.is_finite, PrimFloat.is_nan, PrimFloat.is_infinity, Fn.
  rewrite !eqb_spec, abs_spec.
  destruct (Prim2SF x) as [s|s| |s m e]; cbn; try discriminate; try exact (fun _ => I).
  destruct s; discriminate.
Qed.

Lemma Zr_Fn (x : float) : Zr x -> Fn x.
Proof. intros [s H]. unfold Fn. rewrite H. exact I. Qed.

Lemma Zr_0 : Zr 0%float.
Proof. exists false. reflexivity. Qed.

Lemma mul_Zr_Fn (x y : float) : Zr x -> Fn y -> Zr (x * y)%float.
Proof.
  intros [s H] F. unfold Fn in F. unfold Zr. rewrite mul_spec, H.
  destruct (Prim2SF y) as [sy|sy| |sy my ey]; try contradiction;
    eexists; reflexivity.
Qed.

Lemma mul_Fn_Zr (x y : float) : Fn x -> Zr y -> Zr (x * y)%float.
Proof.
  intros F [s H]. unfold Fn in F. unfold Zr. rewrite mul_spec, H.
  destruct (Prim2SF x) as [sx|sx| |sx mx ex]; try contradiction;
    eexists; reflexivity.
Qed.

Lemma add_Zr (x y : float) : Zr x -> Zr y -> Zr (x + y)%float.
Proof.
  intros [s H] [s' H']. unfold Zr. rewrite add_spec, H, H'.
  destruct s, s'; eexists; reflexivity.
Qed.

Lemma sub_diag (x : float) : Fn x -> Zr (x - x)%float.
Proof.
  intros F. unfold Fn in F. unfold Zr. rewrite sub_spec.
  destruct (Prim2SF x) as [s|s| |s m e]; try contradiction.
  - destruct s; eexists; reflexivity.
  - exists false. unfold SF64sub, SFsub. cbv zeta.
    rewrite Z.sub_diag. reflexivity.
Qed.

Lemma sum_Zr (v : np.vec) : Forall Zr v -> Zr (np.sum v).
Proof.
  unfold np.sum. generalize Zr_0. generalize 0%float.
  induction v as [|x v IH]; intros acc Ha Hv; [exact Ha|].
  cbn [fold_left]. inversion Hv; subst. apply IH; [apply add_Zr|]; assumption.
Qed.

Lemma map2_Forall {A B C : Type} (P : A -> Prop) (Q : B -> Prop) (R : C -> Prop)
    (f : A -> B -> C) :
  (forall a b, P a -> Q b -> R (f a b)) ->
  forall l l', Forall P l -> Forall Q l' -> Forall R (np.map2 f l l').
Proof.
  intros Hf l. induction l as [|a l IH]; intros l' Hl Hl'; [constructor|].
  destruct l' as [|b l']; [constructor|].
  inversion Hl; inversion Hl'; subst. cbn [np.map2].
  constructor; [apply Hf | apply IH]; assumption.
Qed.

Lemma map2_diag {A C : Type} (P : A -> Prop) (R : C -> Prop) (f : A -> A -> C) :
  (forall a, P a -> R (f a a)) ->
  forall l, Forall P l -> Forall R (np.map2 f l l).
Proof.
  intros Hf l. induction l as [|a l IH]; intros Hl; [constructor|].
  inversion Hl; subst. cbn [np.map2]. constructor; [apply Hf | apply IH]; assumption.
Qed.

Lemma nth_Forall {A : Type} (P : A -> Prop) (l : list A) (d : A) (i : nat) :
  Forall P l -> P d -> P (nth i l d).
Proof.
  intros Hl Hd. revert i. induction Hl as [|x l Hx Hl IH]; intros [|i]; cbn [nth];
    auto.
Qed.

Lemma transpose_Forall (P : float -> Prop) (m : np.mat) :
  Forall (Forall P) m -> Forall (Forall P) (np.transpose m).
Proof.
  induction m as [|r m IH]; intros H; [constructor|].
  inversion H as [|? ? Hr Hm]; subst. cbn [np.transpose].
  destruct m as [|r' m'].
  - apply Forall_map. eapply Forall_impl; [|exact Hr].
    intros x Hx. constructor; [exact Hx | constructor].
  - apply (@map2_Forall _ _ _ P (Forall P) (Forall P)); [|exact Hr | exact (IH Hm)].
    intros a b Ha Hb. constructor; assumption.
Qed.

Lemma dot_Zr_Fn (a b : np.vec) : Forall Zr a -> Forall Fn b -> Zr (np.dot a b).
Proof.
  intros Ha Hb. apply sum_Zr.
  exact (@map2_Forall _ _ _ Zr Fn Zr PrimFloat.mul mul_Zr_Fn a b Ha Hb).
Qed.

Lemma dot_Fn_Zr (a b : np.vec) : Forall Fn a -> Forall Zr b -> Zr (np.dot a b).
Proof.
  intros Ha Hb. apply sum_Zr.
  exact (@map2_Forall _ _ _ Fn Zr Zr PrimFloat.mul mul_Fn_Zr a b Ha Hb).
Qed.

Lemma vecmat_Zr_Fn (v : np.vec) (m : np.mat) :
  Forall Zr v -> Forall (Forall Fn) m -> Forall Zr (np.vecmat v m).
Proof.
  intros Hv Hm. apply Forall_map.
  eapply Forall_impl; [|exact (@transpose_Forall Fn m Hm)].
  intros c Hc. apply dot_Zr_Fn; assumption.
Qed.

Lemma vecmat_Fn_Zr (v : np.vec) (m : np.mat) :
  Forall Fn v -> Forall (Forall Zr) m -> Forall Zr (np.vecmat v m).
Proof.
  intros Hv Hm. apply Forall_map.
  eapply Forall_impl; [|exact (@transpose_Forall Zr m Hm)].
  intros c Hc. apply dot_Fn_Zr; assumption.
Qed.

Lemma matmul_Zr_Fn (a b : np.mat) :
  Forall (Forall Zr) a -> Forall (Forall Fn) b -> Forall (Forall Zr) (np.matmul a b).
Proof.
  intros Ha Hb. apply Forall_map. eapply Forall_impl; [|exact Ha].
  intros r Hr. apply vecmat_Zr_Fn; assumption.
Qed.

Lemma matmul_Fn_Zr (a b : np.mat) :
  Forall (Forall Fn) a -> Forall (Forall Zr) b -> Forall (Forall Zr) (np.matmul a b).
Proof.
  intros Ha Hb. apply Forall_map. eapply Forall_impl; [|exact Ha].
  intros r Hr. apply vecmat_Fn_Zr; assumption.
Qed.

Lemma Zr_Fn_mat (m : np.mat) : Forall (Forall Zr) m -> Forall (Forall Fn) m.
Proof.
  intros H. eapply Forall_impl; [|exact H].
  intros r Hr. eapply Forall_impl; [|exact Hr]. exact Zr_Fn.
Qed.

Lemma trace_Zr (m : np.mat) : Forall (Forall Zr) m -> Zr (np.trace m).
Proof.
  intros H. apply sum_Zr. unfold np.diagonal. apply Forall_map.
  apply Forall_forall. intros i _.
  apply nth_Forall; [|exact Zr_0].
  apply (@nth_Forall _ (Forall Zr)); [exact H | constructor].
Qed.

Lemma finite_vec_Fn (v : np.vec) : finite_vec v = true -> Forall Fn v.
Proof.
  unfold finite_vec. rewrite forallb_forall. intros H.
  apply Forall_forall. intros x Hx. apply is_finite_Fn, H, Hx.
Qed.

Lemma finite_mat_Fn (m : np.mat) : finite_mat m = true -> Forall (Forall Fn) m.
Proof.
  unfold finite_mat. rewrite forallb_forall. intros H.
  apply Forall_forall. intros r Hr. apply finite_vec_Fn, H, Hr.
Qed.

(** Without rotation the antisymmetric part vanishes. *)
Lemma calcInvariants_R_Zr (gradU : np.mat) :
  np.transpose gradU = gradU -> Forall (Forall Fn) gradU ->
  Forall (Forall Zr) (calcInvariants_R gradU).
Proof.
  intros Hs HF. unfold calcInvariants_R, np.msub. rewrite Hs.
  apply (@map2_diag _ _ (Forall Fn) (Forall Zr)); [|exact HF].
  intros r Hr. apply (@map2_diag _ _ Fn Zr); [exact sub_diag | exact Hr].
Qed.

(** The entries of the result in which the rotation appears. *)
Lemma calcInvariants_rotation_entries (constants : Constants) (gradU : np.mat)
    (gradT : np.vec) (basis : bool) (invariants : np.vec)
    (tensor_basis : option (list np.mat)) :
  calcInvariants constants gradU gradT basis = Ok (invariants, tensor_basis) ->
  let S := calcInvariants_S gradU in
  let R := calcInvariants_R gradU in
  let S2 := np.multi_dot [S; S] in
  let R2 := np.multi_dot [R; R] in
  let S_R2 := np.multi_dot [S; R2] in
  nth 2 invariants nan = np.trace R2
  /\ nth 3 invariants nan = np.trace S_R2
  /\ nth 4 invariants nan = np.trace (np.multi_dot [S2; R2])
  /\ nth 5 invariants nan = np.trace (np.multi_dot [S2; R2; S; R])
  /\ nth 9 invariants nan = np.multi_dot_v gradT [R2] gradT
  /\ nth 10 invariants nan = np.multi_dot_v gradT [S; R] gradT
  /\ nth 11 invariants nan = np.multi_dot_v gradT [S2; R] gradT
  /\ nth 12 invariants nan = np.multi_dot_v gradT [R; S_R2] gradT.
Proof.
  unfold calcInvariants, np.empty_int. intros H. cbv zeta in H |- *.
  destruct (Z.of_nat (N_FEATURES constants) - 2 <? 0)%Z; cbn [bind] in H;
    [discriminate|].
  destruct (Z.to_nat (Z.of_nat (N_FEATURES constants) - 2))
    as [|[|[|[|[|[|[|[|[|[|[|[|[|k]]]]]]]]]]]]];
    cbn [np.empty repeat np.setitem bind] in H; try discriminate.
  destruct basis.
  - repeat match type of H with
           | context [np.setitem ?a ?i ?v] =>
               destruct (np.setitem a i v); cbn [bind] in H; [|discriminate]
           end.
    inversion H. cbn [nth]. repeat split.
  - inversion H. cbn [nth]. repeat split.
Qed.

End ZeroFacts.

(** X14.  Without rotation [calcInvariants] returns zero in every
    invariant that involves the antisymmetric part R: for a symmetric
    velocity gradient whose strain products stay finite, the entries 2,
    3, 4, 5, 9, 10, 11 and 12 of the result are zero (of either sign),
    for every temperature gradient and with or without the basis. *)
Theorem calcInvariants_no_rotation (constants : Constants) (gradU : np.mat)
    (gradT : np.vec) (basis : bool) (invariants : np.vec)
    (tensor_basis : option (list np.mat)) :
  np.transpose gradU = gradU ->
  strain_finite gradU gradT = true ->
  calcInvariants constants gradU gradT basis = Ok (invariants, tensor_basis) ->
  Forall (fun i => PrimFloat.is_zero (nth i invariants nan) = true)
         [2; 3; 4; 5; 9; 10; 11; 12].
Proof.
  intros Hs Hf Hc.
  unfold strain_finite in Hf. cbv zeta in Hf.
  repeat (apply andb_prop in Hf; destruct Hf as [Hf ?]).
  pose proof (@ZeroFacts.finite_mat_Fn _ Hf) as FG.
  pose proof (@ZeroFacts.calcInvariants_R_Zr _ Hs FG) as ZR.
  pose proof (@ZeroFacts.Zr_Fn_mat _ ZR) as FR.
  repeat match goal with
         | H : finite_mat _ = true |- _ => apply ZeroFacts.finite_mat_Fn in H
         | H : finite_vec _ = true |- _ => apply ZeroFacts.finite_vec_Fn in H
         end.
  destruct (@ZeroFacts.calcInvariants_rotation_entries _ _ _ _ _ _ Hc)
    as (E2 & E3 & E4 & E5 & E9 & E10 & E11 & E12).
  unfold np.multi_dot_v, np.multi_dot in *. cbn [fold_left] in *.
  set (S := calcInvariants_S gradU) in *.
  set (R := calcInvariants_R gradU) in *.
  assert (ZR2 : Forall (Forall Zr) (np.matmul R R))
    by (apply ZeroFacts.matmul_Zr_Fn; assumption).
  pose proof (@ZeroFacts.Zr_Fn_mat _ ZR2) as FR2.
  assert (ZSR2 : Forall (Forall Zr) (np.matmul S (np.matmul R R)))
    by (apply ZeroFacts.matmul_Fn_Zr; assumption).
  assert (ZS2R2 : Forall (Forall Zr) (np.matmul (np.matmul S S) (np.matmul R R)))
    by (apply ZeroFacts.matmul_Fn_Zr; assumption).
  repeat constructor; apply ZeroFacts.is_zero_Zr.
  - rewrite E2. apply ZeroFacts.trace_Zr, ZR2.
  - rewrite E3. apply ZeroFacts.trace_Zr, ZSR2.
  - rewrite E4. apply ZeroFacts.trace_Zr, ZS2R2.
  - rewrite E5. apply ZeroFacts.trace_Zr.
    apply ZeroFacts.matmul_Zr_Fn; [|exact FR].
    apply ZeroFacts.matmul_Zr_Fn; assumption.
  - rewrite E9. apply ZeroFacts.dot_Zr_Fn; [|assumption].
    apply ZeroFacts.vecmat_Fn_Zr; assumption.
  - rewrite E10. apply ZeroFacts.dot_Zr_Fn; [|assumption].
    apply ZeroFacts.vecmat_Fn_Zr; assumption.
  - rewrite E11. apply ZeroFacts.dot_Zr_Fn; [|assumption].
    apply ZeroFacts.vecmat_Fn_Zr; assumption.
  - rewrite E12. apply ZeroFacts.dot_Zr_Fn; [|assumption].
    apply ZeroFacts.vecmat_Zr_Fn; [|apply ZeroFacts.Zr_Fn_mat, ZSR2].
    apply ZeroFacts.vecmat_Fn_Zr; assumption.
Qed.

(* ================================================================== *)
(** * The container of the mean flow quantities *)

(** ** Division by one is exact *)

Module DivFacts.

Lemma SFdiv_1_r x : valid_binary x = true ->
  SFdiv prec emax x (S754_finite false 4503599627370496 (-52)) = x.
Proof.
  intros V. destruct x as [s|s| |s m e]; try reflexivity; try (destruct s; reflexivity).
  unfold SpecFloat.valid_binary, bounded, canonical_mantissa in V.
  apply andb_prop in V. destruct V as [V1 V2].
  apply Z.eqb_eq in V1.
  unfold SFdiv. rewrite xorb_false_r.
  unfold SFdiv_core_binary.
  change (Zdigits2 4503599627370496) with 53%Z.
  unfold Zdigits2.
  set (d := Z.pos (digits2_pos m)) in *.
  assert (Hd : (0 < d)%Z) by (unfold d; lia).
  unfold fexp, emin in V1. unfold fexp, emin.
  change prec with 53%Z in *. change emax with 1024%Z in *.
  cbv zeta.
  match goal with
  | |- context [IntDef.Z.min ?a ?b] => set (e' := IntDef.Z.min a b)
  end.
  assert (K : exists k, (k = 0 \/ k = 1)%Z /\ e' = (e - k)%Z).
  { subst e'. change IntDef.Z.min with Z.min. change IntDef.Z.max with Z.max in *.
    destruct (Z.eq_dec e (-1074)) as [E|E].
    - exists 0%Z. split; [left; reflexivity|]. lia.
    - exists 1%Z. split; [right; reflexivity|]. lia. }
  destruct K as [k [Hk Ek]]. clearbody e'. subst e'.
  change IntDef.Z.max with Z.max in *.
  replace (e - -52 - (e - k))%Z with (52 + k)%Z by lia.
  destruct Hk as [-> | ->].
  - change (52 + 0)%Z with 52%Z. cbv iota.
    change IntDef.Z.shiftl with Z.shiftl. change IntDef.Z.div_eucl with Z.div_eucl.
    rewrite Z.shiftl_mul_pow2 by lia.
    change (2 ^ 52)%Z with 4503599627370496%Z.
    pose proof (Z.div_eucl_eq (Z.pos m * 4503599627370496) 4503599627370496 ltac:(lia)) as Q.
    pose proof (Z.mod_mul (Z.pos m) 4503599627370496 ltac:(lia)) as R.
    pose proof (Z.div_mul (Z.pos m) 4503599627370496 ltac:(lia)) as D.
    unfold Z.modulo in R. unfold Z.div in D.
    destruct (Z.div_eucl (Z.pos m * 4503599627370496) 4503599627370496) as [q r].
    cbn [fst snd] in *. subst q r.
    change (new_location 4503599627370496 0) with loc_Exact.
    unfold binary_round_aux, shr_fexp, Zdigits2. fold d.
    unfold fexp, emin. change prec with 53%Z. change emax with 1024%Z.
    replace (e - 0)%Z with e by lia.
    change IntDef.Z.max with Z.max. rewrite V1, Z.sub_diag.
    cbv [shr shr_record_of_loc shr_m loc_of_shr_record round_nearest_even Zdigits2].
    fold d. rewrite V1, Z.sub_diag. rewrite V2. reflexivity.
  - change (52 + 1)%Z with 53%Z. cbv iota.
    change IntDef.Z.shiftl with Z.shiftl. change IntDef.Z.div_eucl with Z.div_eucl.
    rewrite Z.shiftl_mul_pow2 by lia.
    change (2 ^ 53)%Z with (2 * 4503599627370496)%Z.
    rewrite Z.mul_assoc.
    pose proof (Z.mod_mul (Z.pos m * 2) 4503599627370496 ltac:(lia)) as R.
    pose proof (Z.div_mul (Z.pos m * 2) 4503599627370496 ltac:(lia)) as D.
    unfold Z.modulo in R. unfold Z.div in D.
    destruct (Z.div_eucl (Z.pos m * 2 * 4503599627370496) 4503599627370496) as [q r].
    cbn [fst snd] in *. subst q r.
    change (new_location 4503599627370496 0) with loc_Exact.
    replace (Z.pos m * 2)%Z with (Z.pos (xO m)) by lia.
    unfold binary_round_aux, shr_fexp, Zdigits2.
    cbn [digits2_pos]. rewrite Pos2Z.inj_succ. fold d.
    unfold fexp, emin. change prec with 53%Z. change emax with 1024%Z.
    change IntDef.Z.max with Z.max.
    replace (Z.succ d + (e - 1))%Z with (d + e)%Z by lia.
    rewrite V1. replace (e - (e - 1))%Z with 1%Z by lia.
    unfold shr at 1.
    cbv [shr_record_of_loc iter_pos shr_1 shr_m loc_of_shr_record orb round_nearest_even Zdigits2].
    fold d. replace (e - 1 + 1)%Z with e by lia. rewrite V1, Z.sub_diag.
    cbv [shr shr_m]. rewrite V2. reflexivity.
Qed.

Lemma div_1_r (x : float) : PrimFloat.div x 1 = x.
Proof.
  apply Prim2SF_inj. rewrite div_spec.
  replace (Prim2SF 1) with (S754_finite false 4503599627370496 (-52))
    by (vm_compute; reflexivity).
  apply SFdiv_1_r, Prim2SF_valid.
Qed.

End DivFacts.

(** ** Shapes of the arrays *)

Module ShapeFacts.
Import MeanFlowQuantities.

Lemma map2_length {A B C : Type} (f : A -> B -> C) (l : list A) (l' : list B) :
  length l' = length l -> length (np.map2 f l l') = length l.
Proof.
  revert l'. induction l as [|a l IH]; intros [|b l'] H; cbn in *; try reflexivity;
    try discriminate.
  rewrite IH by lia. reflexivity.
Qed.

Lemma map2_Forall_l {A B C : Type} (P : A -> Prop) (Q : C -> Prop) (f : A -> B -> C)
    (l : list A) (l' : list B) :
  (forall a b, P a -> Q (f a b)) -> Forall P l -> Forall Q (np.map2 f l l').
Proof.
  intros Hf H. revert l'. induction H as [|a l Ha Hl IH]; intros [|b l'];
    cbn [np.map2]; constructor; auto.
Qed.

Lemma put_length {A : Type} (j : nat) (row : list A) (v : A) :
  j < length row -> length (firstn j row ++ v :: skipn (S j) row) = length row.
Proof.
  revert row. induction j as [|j IH]; intros [|x row] H; cbn in H; try lia.
  - reflexivity.
  - cbn [firstn app length]. f_equal. apply IH. lia.
Qed.

Lemma setcol_shape (a a' : np.mat) (j : nat) (col : np.vec) :
  setcol a j col = Ok a' -> j < 3 -> Forall row3 a ->
  length a' = length a /\ Forall row3 a'.
Proof.
  unfold setcol. intros H Hj Ha.
  assert (forall row v, row3 row ->
            row3 (firstn j row ++ v :: skipn (S j) row)) as Hput.
  { intros row v Hr. unfold row3 in *. rewrite put_length; [exact Hr | lia]. }
  destruct (Nat.eqb_spec (length col) (length a)) as [E|E].
  - inversion H; subst. split; [apply map2_length; exact E|].
    apply (@map2_Forall_l _ _ _ row3 row3); [|exact Ha].
    intros row v Hr. apply Hput, Hr.
  - destruct col as [|v [|]]; try discriminate. inversion H; subst.
    split; [apply length_map|]. apply Forall_map.
    eapply Forall_impl; [|exact Ha]. intros row Hr. apply Hput, Hr.
Qed.

Lemma read3_shape (rd : string -> result np.vec) (n : nat) (k0 k1 k2 : string)
    (a : np.mat) :
  read3 rd n k0 k1 k2 = Ok a -> length a = n /\ Forall row3 a.
Proof.
  unfold read3, empty3. intros H.
  assert (length (repeat (np.empty 3) n) = n /\ Forall row3 (repeat (np.empty 3) n))
    as [L F].
  { split; [apply repeat_length|]. apply Forall_forall. intros r Hr.
    apply repeat_spec in Hr. subst. reflexivity. }
  revert H L F. generalize (repeat (np.empty 3) n). intros a0 H L F.
  destruct (rd k0) as [c0|]; cbn [bind] in H; [|discriminate].
  destruct (setcol a0 0 c0) as [a1|] eqn:E0; cbn [bind] in H; [|discriminate].
  destruct (rd k1) as [c1|]; cbn [bind] in H; [|discriminate].
  destruct (setcol a1 1 c1) as [a2|] eqn:E1; cbn [bind] in H; [|discriminate].
  destruct (rd k2) as [c2|]; cbn [bind] in H; [|discriminate].
  destruct (@setcol_shape _ _ _ _ E0 ltac:(lia) F) as [L1 F1].
  destruct (@setcol_shape _ _ _ _ E1 ltac:(lia) F1) as [L2 F2].
  destruct (@setcol_shape _ _ _ _ H ltac:(lia) F2) as [L3 F3].
  split; [unfold np.mat, np.vec in *; lia | exact F3].
Qed.

Lemma put2_shape (m : np.mat) (i j : nat) (v : float) :
  i < 3 -> j < 3 -> tensor33 m ->
  tensor33 (firstn i m ++ (firstn j (nth i m []) ++ v :: skipn (S j) (nth i m []))
                          :: skipn (S i) m).
Proof.
  unfold tensor33, is_3x3. intros Hi Hj H.
  apply andb_prop in H. destruct H as [L R]. apply Nat.eqb_eq in L.
  destruct m as [|r0 [|r1 [|r2 [|]]]]; try discriminate. clear L.
  cbn [forallb] in R.
  repeat (apply andb_prop in R; destruct R as [? R]).
  repeat match goal with
         | H : Nat.eqb (length ?r) 3 = true |- _ =>
             apply Nat.eqb_eq in H;
             destruct r as [|? [|? [|? [|]]]]; try discriminate; clear H
         end.
  destruct i as [|[|[|i]]]; [| | |lia];
    (destruct j as [|[|[|j]]]; [| | |lia]); reflexivity.
Qed.

Lemma setcol2_shape (a a' : list np.mat) (i j : nat) (col : np.vec) :
  setcol2 a i j col = Ok a' -> i < 3 -> j < 3 -> Forall tensor33 a ->
  length a' = length a /\ Forall tensor33 a'.
Proof.
  unfold setcol2. intros H Hi Hj Ha.
  destruct (Nat.eqb_spec (length col) (length a)) as [E|E].
  - inversion H; subst. split; [apply map2_length; exact E|].
    apply (@map2_Forall_l _ _ _ tensor33 tensor33); [|exact Ha].
    intros m v Hm. apply put2_shape; assumption.
  - destruct col as [|v [|]]; try discriminate. inversion H; subst.
    split; [apply length_map|]. apply Forall_map.
    eapply Forall_impl; [|exact Ha]. intros m Hm. apply put2_shape; assumption.
Qed.

Lemma empty33_shape (n : nat) : length (empty33 n) = n /\ Forall tensor33 (empty33 n).
Proof.
  unfold empty33. split; [apply repeat_length|]. apply Forall_forall. intros m Hm.
  apply repeat_spec in Hm. subst. reflexivity.
Qed.

Lemma map_row3 (f : float -> float) (a : np.mat) :
  Forall row3 a -> Forall row3 (map (map f) a).
Proof.
  intros H. apply Forall_map. eapply Forall_impl; [|exact H].
  intros r Hr. unfold row3 in *. rewrite length_map. exact Hr.
Qed.

(** The shapes of what [load] reads. *)
Lemma load_shapes (zone : Zone) (var_names : string -> option string)
    (labels : bool) (mask : option (list bool)) (loaded : obj) :
  load zone var_names labels mask = Ok loaded ->
  n_points loaded = match mask with
                    | None => num_elements zone
                    | Some m => np.count_true m
                    end
  /\ length (gradT loaded) = n_points loaded
  /\ Forall row3 (gradT loaded)
  /\ length (rho loaded) = n_points loaded
  /\ length (mut loaded) = n_points loaded
  /\ match mode loaded with
     | inl la =>
         labels = true
         /\ length (u la) = n_points loaded /\ Forall row3 (u la)
         /\ length (uc la) = n_points loaded /\ Forall row3 (uc la)
         /\ length (t la) = n_points loaded
     | inr fa =>
         labels = false
         /\ length (gradU fa) = n_points loaded /\ Forall tensor33 (gradU fa)
         /\ length (tke fa) = n_points loaded
         /\ length (epsilon fa) = n_points loaded
         /\ length (mu fa) = n_points loaded
         /\ length (d fa) = n_points loaded
     end.
Proof.
  unfold load.
  set (m := match mask with None => repeat true (num_elements zone) | Some m => m end).
  assert (np.count_true m = match mask with
                            | None => num_elements zone
                            | Some m => np.count_true m
                            end) as Hn.
  { subst m. destruct mask; [reflexivity | apply MaskFacts.count_true_repeat_true]. }
  rewrite <- Hn. clear Hn. generalize dependent m. intros m.
  intros H.
  destruct (read3 (read zone var_names m) (np.count_true m) "ddx_T" "ddy_T" "ddz_T")
    as [gT|] eqn:EgT; cbn [bind] in H; [|discriminate].
  destruct (read3_shape _ _ _ _ _ EgT) as [LgT FgT].
  destruct (read zone var_names m "Density") as [r|] eqn:Er; cbn [bind] in H;
    [|discriminate].
  destruct (read zone var_names m "turbulent viscosity") as [mt|] eqn:Emt;
    cbn [bind] in H; [|discriminate].
  apply CheckFacts.read_length in Er, Emt.
  destruct labels.
  - destruct (read3 (read zone var_names m) (np.count_true m) "U" "V" "W")
      as [uu|] eqn:Eu; cbn [bind] in H; [|discriminate].
    destruct (read3 (read zone var_names m) (np.count_true m) "uc" "vc" "wc")
      as [cc|] eqn:Ec; cbn [bind] in H; [|discriminate].
    destruct (read zone var_names m "T") as [tt|] eqn:Et; cbn [bind] in H;
      [|discriminate].
    apply CheckFacts.read_length in Et.
    destruct (read3_shape _ _ _ _ _ Eu) as [Lu Fu].
    destruct (read3_shape _ _ _ _ _ Ec) as [Lc Fc].
    inversion H; subst. cbn. repeat split; assumption.
  - destruct (empty33_shape (np.count_true m)) as [L0 F0].
    revert H L0 F0. generalize (empty33 (np.count_true m)). intros g0 H L0 F0.
    repeat match type of H with
           | bind (read ?z ?v ?k ?key) _ = _ =>
               let E := fresh "E" in
               destruct (read z v k key) eqn:E; cbn [bind] in H; [|discriminate];
               apply CheckFacts.read_length in E
           | bind (setcol2 ?g ?i ?j ?c) _ = _ =>
               let E := fresh "E" in
               let L := fresh "L" in
               let F := fresh "F" in
               destruct (setcol2 g i j c) eqn:E; cbn [bind] in H; [|discriminate];
               match goal with
               | Fg : Forall tensor33 g |- _ =>
                   destruct (@setcol2_shape _ _ _ _ _ E ltac:(lia) ltac:(lia) Fg) as [L F]
               end
           end.
    inversion H; subst. cbn. unfold np.mat, np.vec in *.
    repeat split; try assumption; lia.
Qed.

(** A constructed container is the loaded one after
    [nonDimensionalize], which keeps the number of rows of gradT. *)
Lemma init_Ok_load (zone : Zone) (var_names : string -> option string)
    (deltaT0 : float) (labels : bool) (mask : option (list bool)) (self : obj) :
  init zone var_names deltaT0 labels mask = Ok self ->
  exists loaded,
    load zone var_names labels mask = Ok loaded
    /\ self = nonDimensionalize loaded deltaT0.
Proof.
  unfold init. intros H.
  destruct (load zone var_names labels mask) as [loaded|]; cbn [bind] in H;
    [|discriminate].
  destruct (check (nonDimensionalize loaded deltaT0)) as [[]|]; cbn [bind] in H;
    [|discriminate].
  inversion H. exists loaded. split; reflexivity.
Qed.

Lemma nonDimensionalize_gradT_length (self : obj) (deltaT0 : float) :
  length (gradT (nonDimensionalize self deltaT0)) = length (gradT self).
Proof.
  unfold nonDimensionalize. destruct (negb (labels self)); [|reflexivity].
  cbn [gradT]. apply length_map.
Qed.

End ShapeFacts.

(** X15.  A constructed [MeanFlowQuantities] has the shapes that its
    consumers index: n_points is the number of selected cells (all cells
    of the zone without a mask), gradT has n_points rows of 3 entries,
    rho and mut have n_points entries, the mode is the one asked for, and
    in label mode u and uc have n_points rows of 3 entries and t has
    n_points entries, in feature mode gradU has n_points tensors of shape
    3x3 and tke, epsilon, mu and d have n_points entries. *)
Theorem init_shapes (zone : MFQ.Zone) (var_names : string -> option string)
    (deltaT0 : float) (labels : bool) (mask : option (list bool)) (self : MFQ.obj) :
  MFQ.init zone var_names deltaT0 labels mask = Ok self ->
  MFQ.n_points self = match mask with
                      | None => MFQ.num_elements zone
                      | Some m => np.count_true m
                      end
  /\ MFQ.labels self = labels
  /\ length (MFQ.gradT self) = MFQ.n_points self
  /\ Forall (fun r => length r = 3) (MFQ.gradT self)
  /\ length (MFQ.rho self) = MFQ.n_points self
  /\ length (MFQ.mut self) = MFQ.n_points self
  /\ match MFQ.mode self with
     | inl la =>
         length (MFQ.u la) = MFQ.n_points self
         /\ Forall (fun r => length r = 3) (MFQ.u la)
         /\ length (MFQ.uc la) = MFQ.n_points self
         /\ Forall (fun r => length r = 3) (MFQ.uc la)
         /\ length (MFQ.t la) = MFQ.n_points self
     | inr fa =>
         length (MFQ.gradU fa) = MFQ.n_points self
         /\ Forall (fun m => is_3x3 m = true) (MFQ.gradU fa)
         /\ length (MFQ.tke fa) = MFQ.n_points self
         /\ length (MFQ.epsilon fa) = MFQ.n_points self
         /\ length (MFQ.mu fa) = MFQ.n_points self
         /\ length (MFQ.d fa) = MFQ.n_points self
     end.
Proof.
  unfold MFQ.init. intros H.
  destruct (MFQ.load zone var_names labels mask) as [loaded|] eqn:El;
    cbn [bind] in H; [|discriminate].
  destruct (MFQ.check (MFQ.nonDimensionalize loaded deltaT0)) as [[]|];
    cbn [bind] in H; [|discriminate].
  inversion H; subst. clear H.
  destruct (ShapeFacts.load_shapes _ _ _ _ El) as (Hn & LT & FT & Lr & Lm & Hmode).
  destruct loaded as [n gT r mt md]. cbn [MFQ.n_points MFQ.gradT MFQ.rho MFQ.mut MFQ.mode] in *.
  unfold MFQ.nonDimensionalize, MFQ.labels.
  cbn [MFQ.n_points MFQ.gradT MFQ.rho MFQ.mut MFQ.mode].
  destruct md as [la|fa]; cbn [negb MFQ.n_points MFQ.gradT MFQ.rho MFQ.mut MFQ.mode].
  - destruct Hmode as (-> & Hrest). repeat split; try tauto.
  - destruct Hmode as (-> & Hrest). rewrite length_map.
    repeat split; try tauto. apply ShapeFacts.map_row3, FT.
Qed.

(** X16.  As the constructor documents, [deltaT0 = 1] does nothing to
    the dataset: [nonDimensionalize] with 1 returns the container as it
    is (every float divided by 1.0 is itself), and so does any [deltaT0]
    on a label container; a construction with [deltaT0 = 1] is the
    loading followed by the check. *)
Theorem nonDimensionalize_one (self : MFQ.obj) :
  MFQ.nonDimensionalize self 1 = self
  /\ (MFQ.labels self = true ->
      forall deltaT0, MFQ.nonDimensionalize self deltaT0 = self)
  /\ (forall zone var_names labels mask,
        MFQ.load zone var_names labels mask = Ok self ->
        MFQ.init zone var_names 1 labels mask = (MFQ.check self ;;; Ok self)).
Proof.
  assert (MFQ.nonDimensionalize self 1 = self) as H1.
  { unfold MFQ.nonDimensionalize. destruct (negb (MFQ.labels self)); [|reflexivity].
    destruct self as [n gT r mt md]. cbn [MFQ.n_points MFQ.gradT MFQ.rho MFQ.mut MFQ.mode].
    f_equal. rewrite <- (map_id gT) at 2. apply map_ext. intros row.
    rewrite <- (map_id row) at 2. apply map_ext. intros x. apply DivFacts.div_1_r. }
  split; [exact H1|]. split.
  - intros Hl deltaT0. unfold MFQ.nonDimensionalize. rewrite Hl. reflexivity.
  - intros zone var_names labels mask Hload. unfold MFQ.init.
    rewrite Hload. cbn [bind]. rewrite H1. reflexivity.
Qed.

Module KeyFacts.
Import MeanFlowQuantities.

Lemma read_inv (zone : Zone) (var_names : string -> option string)
    (mask : list bool) (key : string) (v : np.vec) :
  read zone var_names mask key = Ok v ->
  exists name a, var_names key = Some name /\ values zone name = Ok a
                 /\ length a = length mask.
Proof.
  unfold read. destruct (var_names key) as [name|]; [|discriminate].
  destruct (values zone name) as [a|e] eqn:Ea; cbn [bind]; [|discriminate].
  unfold np.getmask. destruct (Nat.eqb_spec (length mask) (length a)) as [E|E];
    [|discriminate].
  intros _. exists name, a. repeat split; congruence.
Qed.

Lemma read_ext (zone : Zone) (var_names var_names' : string -> option string)
    (mask : list bool) (key : string) :
  var_names key = var_names' key ->
  read zone var_names mask key = read zone var_names' mask key.
Proof. intros H. unfold read. rewrite H. reflexivity. Qed.

Lemma read3_inv (rd : string -> result np.vec) (n : nat) (k0 k1 k2 : string)
    (a : np.mat) :
  read3 rd n k0 k1 k2 = Ok a ->
  (exists c, rd k0 = Ok c) /\ (exists c, rd k1 = Ok c) /\ (exists c, rd k2 = Ok c).
Proof.
  unfold read3. intros H.
  repeat match type of H with
         | bind ?r _ = _ => destruct r eqn:?; cbn [bind] in H; [|discriminate]
         end.
  repeat split; eexists; reflexivity.
Qed.

End KeyFacts.

(** X17.  The constructor looks up exactly the keys of its mode: two
    dictionaries that agree on them give the same result (whatever else
    they hold, or lack), and a construction that succeeds found every
    one of them, with an array of one entry per entry of the mask. *)
Theorem init_required_keys (zone : MFQ.Zone) (var_names : string -> option string)
    (deltaT0 : float) (labels : bool) (mask : option (list bool)) :
  (forall var_names',
     (forall key, In key (required_keys labels) -> var_names key = var_names' key) ->
     MFQ.init zone var_names deltaT0 labels mask
     = MFQ.init zone var_names' deltaT0 labels mask)
  /\ (forall self,
        MFQ.init zone var_names deltaT0 labels mask = Ok self ->
        Forall (fun key =>
                  exists name a,
                    var_names key = Some name /\ MFQ.values zone name = Ok a
                    /\ length a = match mask with
                                  | None => MFQ.num_elements zone
                                  | Some m => length m
                                  end)
               (required_keys labels)).
Proof.
  split.
  - intros var_names' Hk. unfold MFQ.init. f_equal.
    unfold MFQ.load, MFQ.read3.
    set (m := match mask with None => repeat true (MFQ.num_elements zone) | Some m => m end).
    assert (forall key, In key (required_keys labels) ->
              MFQ.read zone var_names m key = MFQ.read zone var_names' m key) as Hrd
      by (intros key Hin; apply KeyFacts.read_ext, Hk, Hin).
    destruct labels;
      repeat match goal with
             | |- context [MFQ.read zone var_names m ?k] =>
                 rewrite (Hrd k) by (cbn; repeat (try (left; reflexivity); right))
             end; reflexivity.
  - intros self H. unfold MFQ.init in H.
    destruct (MFQ.load zone var_names labels mask) as [loaded|] eqn:El; [|discriminate].
    clear H. unfold MFQ.load in El.
    set (m := match mask with None => repeat true (MFQ.num_elements zone) | Some m => m end)
      in El.
    assert (length m = match mask with
                       | None => MFQ.num_elements zone
                       | Some m => length m
                       end) as Hm
      by (subst m; destruct mask; [reflexivity | apply repeat_length]).
    rewrite <- Hm. clearbody m. clear Hm.
    destruct labels;
      repeat match type of El with
             | bind ?r _ = _ => destruct r eqn:?; cbn [bind] in El; [|discriminate]
             end;
      repeat match goal with
             | E : MFQ.read3 _ _ _ _ _ = Ok _ |- _ =>
                 apply KeyFacts.read3_inv in E; destruct E as ([? ?] & [? ?] & [? ?])
             end;
      unfold required_keys; cbn [app];
      repeat constructor; eapply KeyFacts.read_inv; eassumption.
Qed.

(* ================================================================== *)
(** * The feature matrix *)

Module FeatureFacts.

Lemma getmask_inv {A : Type} (a r : list A) (m : list bool) :
  np.getmask a m = Ok r ->
  length a = length m /\ r = np.select a m /\ length r = np.count_true m.
Proof.
  unfold np.getmask. destruct (Nat.eqb_spec (length m) (length a)) as [E|E];
    [|discriminate].
  intros H. inversion H. split; [congruence|]. split; [reflexivity|].
  apply MaskFacts.select_length. congruence.
Qed.

Lemma map2_length_min {A B C : Type} (f : A -> B -> C) (l : list A) (l' : list B) :
  length (np.map2 f l l') = Nat.min (length l) (length l').
Proof.
  revert l'. induction l as [|a l IH]; intros [|b l']; cbn; try reflexivity.
  rewrite IH. reflexivity.
Qed.

Lemma py_index_lt (n : nat) (j : Z) (k : nat) : py_index n j = Ok k -> k < n.
Proof.
  unfold py_index.
  destruct ((0 <=? j) && (j <? Z.of_nat n))%Z eqn:E1.
  - intros H. inversion H. apply andb_prop in E1. destruct E1 as [A B].
    apply Z.leb_le in A. apply Z.ltb_lt in B. lia.
  - destruct ((j <? 0) && (- Z.of_nat n <=? j))%Z eqn:E2; [|discriminate].
    intros H. inversion H. apply andb_prop in E2. destruct E2 as [A B].
    apply Z.ltb_lt in A. apply Z.leb_le in B. lia.
Qed.

Lemma py_index_from_end (n k : nat) :
  1 <= k <= n -> py_index n (Z.of_nat n - Z.of_nat k) = Ok (n - k).
Proof.
  intros H. unfold py_index.
  replace ((0 <=? Z.of_nat n - Z.of_nat k) && (Z.of_nat n - Z.of_nat k <? Z.of_nat n))%Z
    with true.
  - f_equal. lia.
  - symmetry. apply andb_true_intro. split; [apply Z.leb_le | apply Z.ltb_lt]; lia.
Qed.

Lemma nth_put_eq {A : Type} (k : nat) (row : list A) (v d : A) :
  k < length row -> nth k (firstn k row ++ v :: skipn (S k) row) d = v.
Proof.
  revert row. induction k as [|k IH]; intros [|x row] H; cbn in H; try lia.
  - reflexivity.
  - cbn [firstn app nth skipn]. apply IH. lia.
Qed.

Lemma nth_put_neq {A : Type} (k k' : nat) (row : list A) (v d : A) :
  k' <> k -> nth k' (firstn k row ++ v :: skipn (S k) row) d = nth k' row d
             \/ length row <= k.
Proof.
  revert k' row. induction k as [|k IH]; intros k' [|x row] H; cbn [length];
    try (right; lia).
  - left. destruct k' as [|k']; [congruence | reflexivity].
  - destruct k' as [|k']; [left; reflexivity|].
    cbn [firstn app nth skipn].
    destruct (IH k' row ltac:(lia)) as [E|E]; [left; exact E | right; lia].
Qed.

(** A column assignment keeps the shape, puts the values in the column
    and leaves the other columns. *)
Lemma setcolumn_spec (ncols : nat) (a a' : np.mat) (j : Z) (col : np.vec) :
  setcolumn ncols a j col = Ok a' ->
  Forall (fun r => length r = ncols) a ->
  length col = length a ->
  exists k, py_index ncols j = Ok k
            /\ length a' = length a
            /\ Forall (fun r => length r = ncols) a'
            /\ np.column a' k = col
            /\ forall k', k' <> k -> np.column a' k' = np.column a k'.
Proof.
  unfold setcolumn. intros H Ha Hc.
  destruct (py_index ncols j) as [k|] eqn:Ek; cbn [bind] in H; [|discriminate].
  apply py_index_lt in Ek. exists k. split; [reflexivity|].
  rewrite Hc, Nat.eqb_refl in H. injection H as H. subst a'.
  revert col Hc. induction Ha as [|r a Hr Ha IH]; intros [|v col] Hc;
    try discriminate.
  - repeat split; try constructor; try (intros; reflexivity).
  - cbn [length] in Hc. destruct (IH col ltac:(lia)) as (L & F & C & O).
    cbn [np.map2 length np.column map]. repeat split.
    + rewrite L. reflexivity.
    + constructor; [|exact F].
      change (length (firstn k r ++ v :: skipn (S k) r) = ncols).
      rewrite ShapeFacts.put_length; [exact Hr | lia].
    + f_equal; [apply nth_put_eq; lia | exact C].
    + intros k' Hk. f_equal; [|apply O, Hk].
      destruct (@nth_put_neq _ k k' r v 0%float Hk) as [E|E]; [exact E | lia].
Qed.

Lemma getitem_repeat {A : Type} (x y : A) (n i : nat) :
  getitem (repeat x n) i = Ok y -> y = x /\ i < n.
Proof.
  unfold getitem. destruct (nth_error (repeat x n) i) as [z|] eqn:E; [|discriminate].
  intros H. inversion H; subst z.
  assert (i < n) as Hi.
  { rewrite <- (repeat_length x n). apply nth_error_Some. congruence. }
  rewrite nth_error_repeat_lt in E by exact Hi. split; [congruence | exact Hi].
Qed.

Lemma getitem_lt {A : Type} (a : list A) (i : nat) :
  i < length a -> exists x, getitem a i = Ok x.
Proof.
  intros H. unfold getitem. destruct (nth_error a i) as [x|] eqn:E.
  - exists x. reflexivity.
  - apply nth_error_None in E. lia.
Qed.

(** The slice assignment of the invariants into a row of the features. *)
Lemma setslice0_invariants (n : nat) (row v row' : np.vec) :
  length row = n -> length v = n - 2 -> 2 <= n ->
  setslice0 row (Z.of_nat n - 2) v = Ok row' ->
  row' = v ++ skipn (n - 2) row /\ length row' = n.
Proof.
  intros Hr Hv Hn. unfold setslice0. rewrite Hr.
  replace (Z.of_nat n - 2 <? 0)%Z with false by (symmetry; apply Z.ltb_ge; lia).
  replace (Z.to_nat (Z.min (Z.of_nat n - 2) (Z.of_nat n))) with (n - 2) by lia.
  rewrite Hv, Nat.eqb_refl. intros H. inversion H. split; [reflexivity|].
  rewrite length_app, length_skipn. lia.
Qed.

End FeatureFacts.

Section FeatureMatrix.

Variable np_power : float -> float -> float.

(** The thirteen assignments of the invariants do not depend on
    [basis]: with the basis the same invariants come with N_BASIS
    tensors, and N_BASIS >= 6 is all that the basis needs. *)
Lemma calcInvariants_with_basis (constants : Constants) (gradU : np.mat)
    (gradT : np.vec) (invariants : np.vec) :
  (forall tb, calcInvariants constants gradU gradT true = Ok (invariants, tb) ->
              calcInvariants constants gradU gradT false = Ok (invariants, None)
              /\ exists t, tb = Some t /\ length t = N_BASIS constants)
  /\ (6 <= N_BASIS constants ->
      forall tb, calcInvariants constants gradU gradT false = Ok (invariants, tb) ->
                 exists t, calcInvariants constants gradU gradT true
                           = Ok (invariants, Some t)
                           /\ length t = N_BASIS constants).
Proof.
  unfold calcInvariants. cbv zeta.
  destruct (np.empty_int (Z.of_nat (N_FEATURES constants) - 2)) as [a0|]; cbn [bind];
    [|split; [|intros _]; intros tb H; discriminate H].
  do 13 (match goal with
         | |- context [@np.setitem float ?a ?i ?v] =>
             destruct (@np.setitem float a i v); cbn [bind];
             [|split; [|intros _]; intros tb H; discriminate H]
         end).
  pose proof (repeat_length (repeat (np.empty 3) 3) (N_BASIS constants)) as M0.
  revert M0. generalize (repeat (repeat (np.empty 3) 3) (N_BASIS constants)).
  intros b0 M0. split.
  - intros tb H.
    do 6 (match type of H with
          | context [np.setitem ?a ?i ?v] =>
              let K := fresh "K" in
              pose proof (InvariantFacts.setitem_cases a i v) as K;
              destruct (np.setitem a i v); cbn [bind] in H; [|discriminate]
          end).
    inversion H; subst. split; [reflexivity|].
    eexists. split; [reflexivity|]. unfold np.mat, np.vec in *. lia.
  - intros HB tb H. inversion H; subst.
    do 6 (InvariantFacts.step_setitem;
          [|exfalso; unfold np.mat, np.vec in *; lia]).
    eexists. split; [reflexivity|]. unfold np.mat, np.vec in *. lia.
Qed.

(** A row of the loop: the invariants in front of the last two entries
    of the allocated row. *)
Lemma loop_row_shape (constants : Constants) (gradU : np.mat) (gradT : np.vec)
    (basis : bool) (r : np.vec * option (list np.mat)) (n i : nat)
    (row0 row : np.vec) :
  calcInvariants constants gradU gradT basis = Ok r ->
  getitem (repeat (np.empty (N_FEATURES constants)) n) i = Ok row0 ->
  setslice0 row0 (Z.of_nat (N_FEATURES constants) - 2) (fst r) = Ok row ->
  length row = N_FEATURES constants /\ 15 <= N_FEATURES constants /\ i < n.
Proof.
  intros Hc Hg Hs.
  pose proof (calcInvariants_cases constants gradU gradT basis) as K.
  rewrite Hc in K. destruct r as [inv tb]. destruct K as (HN & Li & _).
  apply FeatureFacts.getitem_repeat in Hg. destruct Hg as [-> Hi].
  cbn [fst] in Hs.
  destruct (@FeatureFacts.setslice0_invariants (N_FEATURES constants)
              (np.empty (N_FEATURES constants)) inv row
              (repeat_length _ _) Li ltac:(lia) Hs) as [_ L].
  repeat split; [exact L | exact HN | exact Hi].
Qed.

Lemma Forall2_Forall_r {A B : Type} (R : A -> B -> Prop) (P : B -> Prop)
    (l : list A) (l' : list B) :
  (forall a b, R a b -> P b) -> Forall2 R l l' -> Forall P l'.
Proof.
  intros H F. induction F; constructor; eauto.
Qed.

(** The four selected scalars have one entry per selected cell, and so
    have the two appended features. *)
Lemma scalars_length (mfq : MFQ.obj) (fa : MFQ.FeatureArrays) (should_use : list bool)
    (tke d rho mu mut : np.vec) :
  np.getmask (MFQ.tke fa) should_use = Ok tke ->
  np.getmask (MFQ.d fa) should_use = Ok d ->
  np.getmask (MFQ.rho mfq) should_use = Ok rho ->
  np.getmask (MFQ.mu fa) should_use = Ok mu ->
  np.getmask (MFQ.mut mfq) should_use = Ok mut ->
  np.map2 PrimFloat.div
    (np.map2 PrimFloat.mul (np.map2 PrimFloat.mul (map PrimFloat.sqrt tke) d) rho) mu
  = Re_wall mfq fa should_use
  /\ np.map2 PrimFloat.div mut mu = nut_over_nu mfq fa should_use
  /\ length (Re_wall mfq fa should_use) = np.count_true should_use
  /\ length (nut_over_nu mfq fa should_use) = np.count_true should_use.
Proof.
  intros Ht Hd Hr Hm Hmt.
  apply FeatureFacts.getmask_inv in Ht, Hd, Hr, Hm, Hmt.
  destruct Ht as (_ & -> & Lt). destruct Hd as (_ & -> & Ld).
  destruct Hr as (_ & -> & Lr). destruct Hm as (_ & -> & Lm).
  destruct Hmt as (_ & -> & Lmt).
  unfold Re_wall, nut_over_nu.
  repeat split; try reflexivity;
    rewrite ?FeatureFacts.map2_length_min, ?length_map; lia.
Qed.

(** The shape and the last two columns after the two column assignments. *)
Lemma last_columns (n N : nat) (rows x1 x : np.mat) (Re nut : np.vec) :
  length rows = n -> Forall (fun r => length r = N /\ 15 <= N) rows ->
  length Re = n -> length nut = n ->
  setcolumn N rows (Z.of_nat N - 2) Re = Ok x1 ->
  setcolumn N x1 (Z.of_nat N - 1) nut = Ok x ->
  length x = n
  /\ Forall (fun r => length r = N) x
  /\ (x <> [] -> 15 <= N)
  /\ np.column x (N - 2) = Re
  /\ np.column x (N - 1) = nut.
Proof.
  intros Ln F LR Lnu E1 E2.
  assert (Forall (fun r => length r = N) rows) as F'
    by (eapply Forall_impl; [|exact F]; intros r [Hr _]; exact Hr).
  destruct (@FeatureFacts.setcolumn_spec _ _ _ _ _ E1 F' ltac:(lia))
    as (k1 & P1 & L1 & F1 & C1 & O1).
  destruct (@FeatureFacts.setcolumn_spec _ _ _ _ _ E2 F1 ltac:(lia))
    as (k2 & P2 & L2 & F2 & C2 & O2).
  split; [lia|]. split; [exact F2|].
  destruct rows as [|r rows].
  - cbn [length] in *. destruct x1; [|discriminate]. destruct x; [|discriminate].
    destruct Re; [|cbn in LR; lia]. destruct nut; [|cbn in Lnu; lia].
    repeat split. intros H. congruence.
  - pose proof (Forall_inv F) as [Hr HN]. cbv beta in Hr, HN.
    split; [intros _; exact HN|].
    change (Z.of_nat N - 2)%Z with (Z.of_nat N - Z.of_nat 2)%Z in P1.
    change (Z.of_nat N - 1)%Z with (Z.of_nat N - Z.of_nat 1)%Z in P2.
    rewrite FeatureFacts.py_index_from_end in P1, P2 by lia.
    inversion P1; inversion P2; subst k1 k2.
    split; [|exact C2]. rewrite O2 by lia. exact C1.
Qed.

(** What a returned feature matrix went through: the rows of the loop,
    then the two column assignments. *)
Lemma calculateFeatures_inv (constants : Constants) (mfq : MFQ.obj)
    (should_use : list bool) (x_features : np.mat) :
  calculateFeatures np_power constants mfq should_use = Ok x_features ->
  exists fa rows x1,
    MFQ.mode mfq = inr fa
    /\ length rows = np.count_true should_use
    /\ Forall (fun r => length r = N_FEATURES constants /\ 15 <= N_FEATURES constants)
              rows
    /\ length (Re_wall mfq fa should_use) = np.count_true should_use
    /\ length (nut_over_nu mfq fa should_use) = np.count_true should_use
    /\ setcolumn (N_FEATURES constants) rows (Z.of_nat (N_FEATURES constants) - 2)
         (Re_wall mfq fa should_use) = Ok x1
    /\ setcolumn (N_FEATURES constants) x1 (Z.of_nat (N_FEATURES constants) - 1)
         (nut_over_nu mfq fa should_use) = Ok x_features.
Proof.
  unfold calculateFeatures. cbv zeta. intros H.
  destruct (MFQ.feature_arrays mfq) as [fa|] eqn:Efa; cbn [bind] in H; [|discriminate].
  assert (MFQ.mode mfq = inr fa) as Hmode.
  { unfold MFQ.feature_arrays in Efa. destruct (MFQ.mode mfq); congruence. }
  destruct (np.getmask (MFQ.tke fa) should_use) as [tke|] eqn:Etke; cbn [bind] in H;
    [|discriminate].
  destruct (np.getmask (MFQ.epsilon fa) should_use) as [eps|] eqn:Eeps; cbn [bind] in H;
    [|discriminate].
  destruct (np.getmask (MFQ.gradU fa) should_use) as [gU|] eqn:EgU; cbn [bind] in H;
    [|discriminate].
  destruct (np.getmask (MFQ.gradT mfq) should_use) as [gT|] eqn:EgT; cbn [bind] in H;
    [|discriminate].
  match type of H with
  | bind (mapM ?f ?l) _ = _ => destruct (mapM f l) as [rows|] eqn:Em
  end; cbn [bind] in H; [|discriminate].
  destruct (np.getmask (MFQ.d fa) should_use) as [d|] eqn:Ed; cbn [bind] in H;
    [|discriminate].
  destruct (np.getmask (MFQ.rho mfq) should_use) as [rho|] eqn:Erho; cbn [bind] in H;
    [|discriminate].
  destruct (np.getmask (MFQ.mu fa) should_use) as [mu|] eqn:Emu; cbn [bind] in H;
    [|discriminate].
  destruct (np.getmask (MFQ.mut mfq) should_use) as [mut|] eqn:Emut; cbn [bind] in H;
    [|discriminate].
  destruct (scalars_length _ _ _ Etke Ed Erho Emu Emut) as (ER & EN & LR & LN).
  rewrite ER, EN in H.
  match type of H with
  | bind (setcolumn ?N ?a ?j ?c) _ = _ => destruct (setcolumn N a j c) as [x1|] eqn:E1
  end; cbn [bind] in H; [|discriminate].
  match type of H with
  | bind (setcolumn ?N ?a ?j ?c) _ = _ => destruct (setcolumn N a j c) as [x2|] eqn:E2
  end; cbn [bind] in H; [|discriminate].
  inversion H; subst x2. clear H.
  apply MonadFacts.mapM_Forall2 in Em.
  assert (length rows = np.count_true should_use) as Lrows.
  { apply Forall2_length in Em. rewrite length_seq in Em. congruence. }
  assert (Forall (fun r => length r = N_FEATURES constants /\ 15 <= N_FEATURES constants)
                 rows) as Frows.
  { eapply Forall2_Forall_r; [|exact Em]. cbv beta. intros i row Hi.
    repeat match type of Hi with
           | bind ?r _ = _ => destruct r eqn:?; cbn [bind] in Hi; [|discriminate]
           end.
    edestruct loop_row_shape as (A & B & _); [eassumption | eassumption | exact Hi |].
    split; assumption. }
  exists fa, rows, x1. repeat split; assumption.
Qed.

Lemma features_rows (constants : Constants) (mfq : MFQ.obj)
    (should_use : list bool) (x_features : np.mat) :
  calculateFeatures np_power constants mfq should_use = Ok x_features ->
  length x_features = np.count_true should_use
  /\ Forall (fun row => length row = N_FEATURES constants) x_features.
Proof.
  intros H.
  destruct (@calculateFeatures_inv _ _ _ _ H)
    as (fa & rows & x1 & _ & Lrows & Frows & LR & LN & E1 & E2).
  destruct (@last_columns _ _ _ _ _ _ _ Lrows Frows LR LN E1 E2) as (L & F & _).
  split; assumption.
Qed.

(** X18.  The features that [calculateFeatures] returns have one row
    per selected cell and N_FEATURES columns; N_FEATURES is at least 15
    as soon as one cell is selected; the container is a feature
    container, and the last two columns are the wall Reynolds number
    sqrt(tke)*d*rho/mu and the viscosity ratio mut/mu of the selected
    cells. *)
Theorem calculateFeatures_shape (constants : Constants) (mfq : MFQ.obj)
    (should_use : list bool) (x_features : np.mat) :
  calculateFeatures np_power constants mfq should_use = Ok x_features ->
  length x_features = np.count_true should_use
  /\ Forall (fun row => length row = N_FEATURES constants) x_features
  /\ (x_features <> [] -> 15 <= N_FEATURES constants)
  /\ exists fa,
       MFQ.mode mfq = inr fa
       /\ np.column x_features (N_FEATURES constants - 2) = Re_wall mfq fa should_use
       /\ np.column x_features (N_FEATURES constants - 1)
          = nut_over_nu mfq fa should_use.
Proof.
  intros H.
  destruct (@calculateFeatures_inv _ _ _ _ H)
    as (fa & rows & x1 & Hmode & Lrows & Frows & LR & LN & E1 & E2).
  destruct (@last_columns _ _ _ _ _ _ _ Lrows Frows LR LN E1 E2)
    as (L & F & HN & C1 & C2).
  split; [exact L|]. split; [exact F|]. split; [exact HN|].
  exists fa. repeat split; assumption.
Qed.

Lemma mapM_map {A B C : Type} (f : A -> result B) (g : A -> result C) (h : B -> C)
    (l : list A) (r : list B) :
  (forall a b, In a l -> f a = Ok b -> g a = Ok (h b)) ->
  mapM f l = Ok r -> mapM g l = Ok (map h r).
Proof.
  revert r. induction l as [|a l IH]; intros r Hf H; cbn [mapM] in *.
  - inversion H. reflexivity.
  - destruct (f a) as [b|] eqn:Ea; cbn [bind] in H; [|discriminate].
    destruct (mapM f l) as [bs|] eqn:El; cbn [bind] in H; [|discriminate].
    inversion H; subst. rewrite (Hf a b (or_introl eq_refl) Ea). cbn [bind].
    rewrite (IH bs (fun a' b' Hin => Hf a' b' (or_intror Hin)) eq_refl).
    reflexivity.
Qed.

Lemma mapM_lift {A B C : Type} (f : A -> result B) (g : A -> result C) (h : B -> C)
    (l : list A) (r : list C) :
  (forall a c, In a l -> g a = Ok c -> exists b, f a = Ok b /\ h b = c) ->
  mapM g l = Ok r -> exists r', mapM f l = Ok r' /\ map h r' = r.
Proof.
  revert r. induction l as [|a l IH]; intros r Hg H; cbn [mapM] in *.
  - inversion H. exists []. split; reflexivity.
  - destruct (g a) as [c|] eqn:Ea; cbn [bind] in H; [|discriminate].
    destruct (mapM g l) as [cs|] eqn:El; cbn [bind] in H; [|discriminate].
    inversion H; subst.
    destruct (Hg a c (or_introl eq_refl) Ea) as (b & Eb & Hb).
    destruct (IH cs (fun a' c' Hin => Hg a' c' (or_intror Hin)) eq_refl)
      as (bs & Ebs & Hbs).
    exists (b :: bs). rewrite Eb. cbn [bind]. rewrite Ebs. cbn [bind map].
    split; [reflexivity | congruence].
Qed.

Lemma setcolumn_length (ncols : nat) (a a' : np.mat) (j : Z) (col : np.vec) :
  setcolumn ncols a j col = Ok a' -> length a' = length a.
Proof.
  unfold setcolumn. destruct (py_index ncols j) as [k|]; cbn [bind]; [|discriminate].
  destruct (Nat.eqb_spec (length col) (length a)) as [E|E].
  - intros H. injection H as <-. apply ShapeFacts.map2_length. exact E.
  - destruct col as [|v [|]]; try discriminate.
    intros H. injection H as <-. apply length_map.
Qed.

(** One pass of the loop with the basis gives the row of the pass
    without it, and N_BASIS tensors. *)
Lemma body_with_basis (constants : Constants) (gradU_temporary : list np.mat)
    (gradT_temporary : np.mat) (n i : nat) (b : np.vec * list np.mat) :
  (gU <- getitem gradU_temporary i ;;
   gT <- getitem gradT_temporary i ;;
   r <- calcInvariants constants gU gT true ;;
   row <- getitem (repeat (np.empty (N_FEATURES constants)) n) i ;;
   row <- setslice0 row (Z.of_nat (N_FEATURES constants) - 2) (fst r) ;;
   _ <- getitem (repeat (repeat (repeat (np.empty 3) 3) (N_BASIS constants)) n) i ;;
   match snd r with
   | Some tb => Ok (row, tb)
   | None => Err ValueError
   end) = Ok b ->
  (gU <- getitem gradU_temporary i ;;
   gT <- getitem gradT_temporary i ;;
   r <- calcInvariants constants gU gT false ;;
   row <- getitem (repeat (np.empty (N_FEATURES constants)) n) i ;;
   setslice0 row (Z.of_nat (N_FEATURES constants) - 2) (fst r)) = Ok (fst b)
  /\ length (snd b) = N_BASIS constants.
Proof.
  intros H.
  destruct (getitem gradU_temporary i) as [gU|]; cbn [bind] in *; [|discriminate].
  destruct (getitem gradT_temporary i) as [gT|]; cbn [bind] in *; [|discriminate].
  destruct (calcInvariants constants gU gT true) as [[inv tb]|] eqn:Ec;
    cbn [bind] in H; [|discriminate].
  destruct (proj1 (calcInvariants_with_basis constants gU gT inv) tb Ec)
    as (Ef & t & -> & Lt).
  rewrite Ef. cbn [bind fst snd] in *.
  destruct (getitem (repeat (np.empty (N_FEATURES constants)) n) i) as [row0|];
    cbn [bind] in *; [|discriminate].
  destruct (setslice0 row0 (Z.of_nat (N_FEATURES constants) - 2) inv) as [row|];
    cbn [bind] in *; [|discriminate].
  destruct (getitem (repeat (repeat (repeat (np.empty 3) 3) (N_BASIS constants)) n) i);
    cbn [bind] in H; [|discriminate].
  inversion H; subst. split; [reflexivity | exact Lt].
Qed.

(** With N_BASIS >= 6 a pass without the basis extends to one with it. *)
Lemma body_without_basis (constants : Constants) (gradU_temporary : list np.mat)
    (gradT_temporary : np.mat) (n i : nat) (row : np.vec) :
  6 <= N_BASIS constants ->
  (gU <- getitem gradU_temporary i ;;
   gT <- getitem gradT_temporary i ;;
   r <- calcInvariants constants gU gT false ;;
   row <- getitem (repeat (np.empty (N_FEATURES constants)) n) i ;;
   setslice0 row (Z.of_nat (N_FEATURES constants) - 2) (fst r)) = Ok row ->
  exists b,
    (gU <- getitem gradU_temporary i ;;
     gT <- getitem gradT_temporary i ;;
     r <- calcInvariants constants gU gT true ;;
     row <- getitem (repeat (np.empty (N_FEATURES constants)) n) i ;;
     row <- setslice0 row (Z.of_nat (N_FEATURES constants) - 2) (fst r) ;;
     _ <- getitem (repeat (repeat (repeat (np.empty 3) 3) (N_BASIS constants)) n) i ;;
     match snd r with
     | Some tb => Ok (row, tb)
     | None => Err ValueError
     end) = Ok b
    /\ fst b = row.
Proof.
  intros HB H.
  destruct (getitem gradU_temporary i) as [gU|]; cbn [bind] in *; [|discriminate].
  destruct (getitem gradT_temporary i) as [gT|]; cbn [bind] in *; [|discriminate].
  destruct (calcInvariants constants gU gT false) as [[inv tb]|] eqn:Ec;
    cbn [bind] in H; [|discriminate].
  destruct (proj2 (calcInvariants_with_basis constants gU gT inv) HB tb Ec)
    as (t & Et & Lt).
  rewrite Et. cbn [bind fst snd] in *.
  destruct (getitem (repeat (np.empty (N_FEATURES constants)) n) i) as [row0|] eqn:Eg;
    cbn [bind] in *; [|discriminate].
  rewrite H. cbn [bind].
  apply FeatureFacts.getitem_repeat in Eg. destruct Eg as [_ Hi].
  destruct (@FeatureFacts.getitem_lt _
              (repeat (repeat (repeat (np.empty 3) 3) (N_BASIS constants)) n) i)
    as [tb0 E0]; [rewrite repeat_length; exact Hi|].
  rewrite E0. cbn [bind]. eexists. split; reflexivity.
Qed.

(** The features with and without the basis. *)
Lemma with_basis_same_features (constants : Constants) (mfq : MFQ.obj)
    (should_use : list bool) :
  (forall x_features tensor_basis,
     calculateFeaturesAndBasis np_power constants mfq should_use
     = Ok (x_features, tensor_basis) ->
     calculateFeatures np_power constants mfq should_use = Ok x_features
     /\ length tensor_basis = length x_features
     /\ Forall (fun tb => length tb = N_BASIS constants) tensor_basis)
  /\ (6 <= N_BASIS constants ->
      forall x_features,
        calculateFeatures np_power constants mfq should_use = Ok x_features ->
        exists tensor_basis,
          calculateFeaturesAndBasis np_power constants mfq should_use
          = Ok (x_features, tensor_basis)).
Proof.
  unfold calculateFeaturesAndBasis, calculateFeatures. cbv zeta.
  destruct (MFQ.feature_arrays mfq) as [fa|]; cbn [bind];
    [|split; [|intros _]; intros; discriminate].
  do 4 (match goal with
        | |- context [bind (np.getmask ?a ?m) _] =>
            destruct (np.getmask a m); cbn [bind];
            [|split; [|intros _]; intros; discriminate]
        end).
  match goal with
  | |- context [mapM ?fb (seq 0 _)] =>
      match type of fb with
      | nat -> result (_ * _) => set (with_basis := fb)
      end
  end.
  match goal with
  | |- context [mapM ?f (seq 0 _)] =>
      tryif (match type of f with nat -> result (_ * _) => idtac end)
      then fail
      else set (without := f)
  end.
  split.
  - intros x tb H.
    destruct (mapM with_basis (seq 0 (np.count_true should_use))) as [both|] eqn:Em;
      cbn [bind] in H; [|discriminate].
    rewrite (@mapM_map _ _ _ with_basis without fst _ both
               (fun i b _ Hb => proj1 (@body_with_basis _ _ _ _ _ _ Hb)) Em).
    cbn [bind].
    repeat match type of H with
           | bind ?r _ = _ => destruct r eqn:?; cbn [bind] in H |- *; [|discriminate]
           end.
    inversion H; subst. split; [reflexivity|].
    apply MonadFacts.mapM_Forall2 in Em.
    split.
    + repeat match goal with
             | E : setcolumn _ _ _ _ = Ok _ |- _ =>
                 apply setcolumn_length in E
             end.
      rewrite length_map in *. unfold np.mat, np.vec in *. congruence.
    + apply Forall_map.
      eapply Forall2_Forall_r; [|exact Em]. cbv beta.
      intros i b Hb. exact (proj2 (@body_with_basis _ _ _ _ _ _ Hb)).
  - intros HB x H.
    destruct (mapM without (seq 0 (np.count_true should_use))) as [rows|] eqn:Em;
      cbn [bind] in H; [|discriminate].
    destruct (@mapM_lift _ _ _ with_basis without fst _ rows
                (fun i row _ Hr => @body_without_basis _ _ _ _ _ _ HB Hr) Em)
      as (both & Eb & Hfst).
    rewrite Eb. cbn [bind]. rewrite Hfst.
    repeat match type of H with
           | bind ?r _ = _ => destruct r eqn:?; cbn [bind] in H |- *; [|discriminate]
           end.
    inversion H; subst. eexists. reflexivity.
Qed.


(** [cleanFeatures] returns on features with one row per selected cell,
    and the rows it keeps are rows of the features. *)
Lemma cleanFeatures_returns {B : Type} (constants : Constants) (x_features : np.mat)
    (should_use : list bool) (tensor_basis : option (list B)) :
  length x_features = np.count_true should_use ->
  (forall tb, tensor_basis = Some tb -> length tb = length x_features) ->
  exists out,
    cleanFeatures constants x_features should_use tensor_basis = Ok out
    /\ np.count_true (new_should_use out) = length (new_x_features out)
    /\ (exists m, new_x_features out = np.select x_features m)
    /\ (forall tb, tensor_basis = Some tb ->
          exists ntb, new_tensor_basis out = Some ntb
                      /\ length ntb = length (new_x_features out)).
Proof.
  intros Hx Htb. unfold cleanFeatures.
  pose proof (CleanFacts.final_mask_length constants x_features) as Hl.
  set (st := last (clean_passes constants x_features) (clean_init x_features)) in *.
  unfold np.getmask at 1. rewrite Hl, Nat.eqb_refl. cbn [bind].
  unfold np.setmask. rewrite repeat_length, Nat.eqb_refl. cbn [negb].
  rewrite Hl, Hx, Nat.eqb_refl. cbn [bind].
  assert (length (mask st) = np.count_true should_use) as Hc by congruence.
  assert (np.count_true (np.scatter (repeat false (length should_use)) should_use (mask st))
          = length (np.select x_features (mask st))) as Hcount.
  { rewrite MaskFacts.count_true_scatter_false by exact Hc.
    symmetry. apply MaskFacts.select_length. congruence. }
  destruct tensor_basis as [tb|].
  - unfold np.getmask. rewrite Hl, (Htb tb eq_refl), Nat.eqb_refl. cbn [bind].
    eexists. split; [reflexivity|]. cbn.
    split; [exact Hcount|]. split; [eexists; reflexivity|].
    intros tb' E. inversion E; subst tb'. eexists. split; [reflexivity|].
    rewrite !MaskFacts.select_length; [reflexivity | congruence |].
    rewrite (Htb tb eq_refl). congruence.
  - eexists. split; [reflexivity|]. cbn.
    split; [exact Hcount|]. split; [eexists; reflexivity|].
    intros tb' E. discriminate.
Qed.

Lemma select_Forall {A : Type} (P : A -> Prop) (a : list A) (m : list bool) :
  Forall P a -> Forall P (np.select a m).
Proof.
  intros H. revert m. induction H as [|x a Hx Ha IH]; intros [|[] m]; cbn [np.select];
    try constructor; auto.
Qed.

(** X20.  The features of [calculateFeatures] are what [cleanFeatures]
    expects: on them, with the mask they were computed for, the cleaning
    returns, its new mask counts the rows it kept, and the kept rows have
    N_FEATURES columns; with the features and the basis of
    [calculateFeaturesAndBasis] it also returns the basis of the kept
    rows, one block per row. *)
Theorem features_then_clean (constants : Constants) (mfq : MFQ.obj)
    (should_use : list bool) :
  (forall x_features,
     calculateFeatures np_power constants mfq should_use = Ok x_features ->
     exists out,
       cleanFeatures constants x_features should_use (@None (list (list np.mat))) = Ok out
       /\ np.count_true (new_should_use out) = length (new_x_features out)
       /\ Forall (fun row => length row = N_FEATURES constants) (new_x_features out))
  /\ (forall x_features tensor_basis,
        calculateFeaturesAndBasis np_power constants mfq should_use
        = Ok (x_features, tensor_basis) ->
        exists out ntb,
          cleanFeatures constants x_features should_use (Some tensor_basis) = Ok out
          /\ new_tensor_basis out = Some ntb
          /\ length ntb = length (new_x_features out)
          /\ np.count_true (new_should_use out) = length (new_x_features out)
          /\ Forall (fun row => length row = N_FEATURES constants) (new_x_features out)).
Proof.
  split.
  - intros x H.
    destruct (@features_rows _ _ _ _ H) as (L & F).
    destruct (@cleanFeatures_returns (list np.mat) constants x should_use None L
                ltac:(intros tb E; discriminate E))
      as (out & Ho & Hc & [m Hm] & _).
    exists out. split; [exact Ho|]. split; [exact Hc|].
    rewrite Hm. apply select_Forall, F.
  - intros x tb H.
    destruct (proj1 (with_basis_same_features constants mfq should_use) x tb H)
      as (Hf & Ltb & _).
    destruct (@features_rows _ _ _ _ Hf) as (L & F).
    destruct (@cleanFeatures_returns (list np.mat) constants x should_use (Some tb) L
                ltac:(intros tb' E; inversion E; subst; exact Ltb))
      as (out & Ho & Hc & [m Hm] & Hb).
    destruct (Hb tb eq_refl) as (ntb & Hn & Ln).
    exists out, ntb. split; [exact Ho|]. split; [exact Hn|]. split; [exact Ln|].
    split; [exact Hc|]. rewrite Hm. apply select_Forall, F.
Qed.

Lemma getmask_Ok {A : Type} (a : list A) (m : list bool) :
  length a = length m -> np.getmask a m = Ok (np.select a m).
Proof. intros H. unfold np.getmask. rewrite H, Nat.eqb_refl. reflexivity. Qed.

Lemma setslice0_Ok (n : nat) (row v : np.vec) :
  length row = n -> length v = n - 2 -> 2 <= n ->
  setslice0 row (Z.of_nat n - 2) v = Ok (v ++ skipn (n - 2) row).
Proof.
  intros Hr Hv Hn. unfold setslice0. rewrite Hr.
  replace (Z.of_nat n - 2 <? 0)%Z with false by (symmetry; apply Z.ltb_ge; lia).
  replace (Z.to_nat (Z.min (Z.of_nat n - 2) (Z.of_nat n))) with (n - 2) by lia.
  rewrite Hv, Nat.eqb_refl. reflexivity.
Qed.

Lemma setcolumn_Ok (ncols : nat) (a : np.mat) (j : Z) (col : np.vec) (k : nat) :
  py_index ncols j = Ok k -> length col = length a ->
  exists a', setcolumn ncols a j col = Ok a'.
Proof.
  intros Hk Hc. unfold setcolumn. rewrite Hk. cbn [bind].
  rewrite Hc, Nat.eqb_refl. eexists. reflexivity.
Qed.

(** The feature matrix exists for arrays of the size of the mask. *)
Lemma features_total (constants : Constants) (mfq : MFQ.obj)
    (fa : MFQ.FeatureArrays) (should_use : list bool) :
  MFQ.mode mfq = inr fa ->
  15 <= N_FEATURES constants ->
  Forall (fun a => length a = length should_use) (checked_arrays mfq fa) ->
  length (MFQ.gradU fa) = length should_use ->
  length (MFQ.gradT mfq) = length should_use ->
  exists x_features,
    calculateFeatures np_power constants mfq should_use = Ok x_features.
Proof.
  intros Hmode HN Hlen LU LT.
  { unfold checked_arrays in Hlen.
    repeat match goal with
           | H : Forall _ (_ :: _) |- _ =>
               let L := fresh "L" in
               pose proof (Forall_inv H) as L; cbv beta in L;
               apply Forall_inv_tail in H
           end.
    unfold calculateFeatures. cbv zeta.
    unfold MFQ.feature_arrays. rewrite Hmode. cbn [bind].
    rewrite !getmask_Ok by assumption. cbn [bind].
    set (n := np.count_true should_use).
    assert (forall (A : Type) (a : list A), length a = length should_use ->
              length (np.select a should_use) = n) as Hsel
      by (intros A a Ha; apply MaskFacts.select_length; exact Ha).
    match goal with
    | |- context [mapM ?f (seq 0 n)] =>
        destruct (@MonadFacts.mapM_total _ _ f (fun i => i < n) (seq 0 n)) as [rows Em]
    end.
    - intros i Hi.
      match goal with
      | |- context [getitem ?a i] =>
          destruct (@FeatureFacts.getitem_lt _ a i) as [gU EgU]
      end.
      { rewrite !FeatureFacts.map2_length_min, !length_map, !Hsel by assumption. lia. }
      rewrite EgU. cbn [bind].
      match goal with
      | |- context [getitem ?a i] =>
          destruct (@FeatureFacts.getitem_lt _ a i) as [gT EgT]
      end.
      { rewrite !FeatureFacts.map2_length_min, !length_map, !Hsel by assumption. lia. }
      rewrite EgT. cbn [bind].
      pose proof (calcInvariants_cases constants gU gT false) as K.
      destruct (calcInvariants constants gU gT false) as [[inv tb]|e];
        [|destruct K as [[_ K]|(_ & _ & [K|[K _]])]; [lia | lia | discriminate]].
      destruct K as (_ & Li & _). cbn [bind fst].
      unfold getitem at 1. rewrite nth_error_repeat_lt by exact Hi. cbn [bind].
      rewrite (@setslice0_Ok (N_FEATURES constants)) by
        (try apply repeat_length; try exact Li; lia).
      eexists. reflexivity.
    - apply Forall_forall. intros i Hi. apply in_seq in Hi. lia.
    - rewrite Em. cbn [bind].
      pose proof Em as Em'. apply MonadFacts.mapM_Forall2 in Em'.
      assert (length rows = n) as Lrows
        by (apply Forall2_length in Em'; rewrite length_seq in Em'; congruence).
      match goal with
      | |- context [setcolumn ?N rows ?j ?c] =>
          destruct (@setcolumn_Ok N rows j c (N - 2)) as [x1 E1]
      end.
      { change 2%Z with (Z.of_nat 2). apply FeatureFacts.py_index_from_end. lia. }
      { rewrite !FeatureFacts.map2_length_min, !length_map, !Hsel by assumption.
        unfold np.mat, np.vec in *. lia. }
      rewrite E1. cbn [bind].
      match goal with
      | |- context [setcolumn ?N x1 ?j ?c] =>
          destruct (@setcolumn_Ok N x1 j c (N - 1)) as [x2 E2]
      end.
      { change 1%Z with (Z.of_nat 1). apply FeatureFacts.py_index_from_end. lia. }
      { apply setcolumn_length in E1.
        rewrite !FeatureFacts.map2_length_min, !Hsel by assumption.
        unfold np.mat, np.vec in *. lia. }
      rewrite E2. cbn [bind]. eexists. reflexivity. }
Qed.


(** X22.  What the consumers do with a constructed container.  A
    feature container gives a gating mask of n_points entries for every
    threshold, for that mask a feature matrix (when N_FEATURES >= 15),
    and no label: [calculateGamma] fails on the missing attribute.  A
    label container gives a label of n_points entries for every cap
    other than 0, with or without the correction, and no gating mask. *)
Theorem constructed_container_consumers (constants : Constants) (zone : MFQ.Zone)
    (var_names : string -> option string) (deltaT0 : float) (labels : bool)
    (mask : option (list bool)) (self : MFQ.obj) :
  MFQ.init zone var_names deltaT0 labels mask = Ok self ->
  if labels then
    (forall threshold,
       calculateShouldUse np_power self threshold = Err AttributeError)
    /\ (forall prt_cap use_correction,
          PrimFloat.eqb prt_cap 0 = false ->
          exists gamma,
            calculateGamma self prt_cap use_correction = Ok gamma
            /\ length gamma = MFQ.n_points self)
  else
    (forall threshold,
       exists should_use,
         calculateShouldUse np_power self threshold = Ok should_use
         /\ length should_use = MFQ.n_points self
         /\ (15 <= N_FEATURES constants ->
             exists x_features,
               calculateFeatures np_power constants self should_use = Ok x_features))
    /\ (forall prt_cap use_correction,
          calculateGamma self prt_cap use_correction = Err AttributeError).
Proof.
  intros H.
  destruct (@ShapeFacts.init_Ok_load _ _ _ _ _ _ H) as (loaded & Hload & ->).
  destruct (ShapeFacts.load_shapes _ _ _ _ Hload) as (_ & LT & _ & Lr & Lm & Hmode).
  destruct (CheckFacts.nonDimensionalize_arrays loaded deltaT0) as (En & Er & Emt & Emo).
  rewrite <- (ShapeFacts.nonDimensionalize_gradT_length loaded deltaT0) in LT.
  rewrite <- En in LT, Lr, Lm, Hmode. rewrite <- Er in Lr. rewrite <- Emt in Lm.
  rewrite <- Emo in Hmode.
  set (self := MFQ.nonDimensionalize loaded deltaT0) in *. clearbody self.
  destruct (MFQ.mode self) as [la|fa] eqn:Em;
    [destruct Hmode as [-> Hmode] | destruct Hmode as [-> Hmode]].
  - destruct Hmode as (Lu & _ & Lc & _ & Lt). split.
    + intros threshold. unfold calculateShouldUse, MFQ.feature_arrays.
      rewrite Em. reflexivity.
    + intros prt_cap use_correction Hcap.
      unfold calculateGamma, raw_gamma, MFQ.label_arrays. rewrite Em. cbn [bind].
      unfold clip_gamma. rewrite Hcap. eexists. split; [reflexivity|].
      destruct use_correction; unfold np.emul;
        rewrite ?length_map, ?FeatureFacts.map2_length_min, ?length_map,
                ?FeatureFacts.map2_length_min, ?length_map,
                ?FeatureFacts.map2_length_min, ?length_map,
                ?FeatureFacts.map2_length_min, ?length_map;
        unfold np.mat, np.vec in *; lia.
  - destruct Hmode as (LU & _ & Lk & Le & Lmu & Ld). split.
    + intros threshold. unfold calculateShouldUse, MFQ.feature_arrays.
      rewrite Em. cbn [bind]. eexists. split; [reflexivity|].
      assert (length (map (fun g => PrimFloat.leb threshold g)
                (np.map2 PrimFloat.mul (grad_norm (MFQ.gradT self))
                   (np.map2 PrimFloat.div
                      (map (fun k => np_power k 1.5) (MFQ.tke fa)) (MFQ.epsilon fa))))
              = MFQ.n_points self) as Lsu.
      { unfold grad_norm.
        rewrite ?length_map, ?FeatureFacts.map2_length_min, ?length_map,
                ?FeatureFacts.map2_length_min, ?length_map.
        unfold np.mat, np.vec in *. lia. }
      split; [exact Lsu|]. intros HN.
      refine (@features_total constants self fa _ Em HN _ _ _).
      * unfold checked_arrays. repeat constructor; congruence.
      * congruence.
      * congruence.
    + intros prt_cap use_correction.
      unfold calculateGamma, raw_gamma, MFQ.label_arrays. rewrite Em. reflexivity.
Qed.

End FeatureMatrix.

(* ================================================================== *)
(** * The further statements at concrete inputs *)

Lemma downsampleIdx_indices_witness :
  (forall g l, Permutation (snd (reversing_shuffle g l)) l)
  /\ downsampleIdx reversing_shuffle 0 10 (Some (PyInt 3)) = Ok (1, [9; 8; 7])
  /\ NoDup [9; 8; 7]
  /\ (forall i, In i [9; 8; 7] -> i < 10)
  /\ length [9; 8; 7] <= 10
  /\ exists rest, Permutation ([9; 8; 7] ++ rest) (seq 0 10).
Proof.
  split; [exact reversing_shuffle_Permutation|]. split; [reflexivity|].
  exact (@downsampleIdx_indices nat reversing_shuffle reversing_shuffle_Permutation
           0 1 10 (Some (PyInt 3)) [9; 8; 7] eq_refl).
Defined.

Lemma downsampleIdx_integer_spec_witness :
  (forall g l, Permutation (snd (reversing_shuffle g l)) l)
  /\ (1 <= 3)%Z
  /\ exists g' idx,
       downsampleIdx reversing_shuffle 0 10 (Some (PyInt 3)) = Ok (g', idx)
       /\ length idx = (if (3 =? 1)%Z then 10 else Nat.min (Z.to_nat 3) 10).
Proof.
  assert (1 <= 3)%Z as H by lia.
  split; [exact reversing_shuffle_Permutation|]. split; [exact H|].
  exact (@downsampleIdx_integer_spec nat reversing_shuffle reversing_shuffle_Permutation
           0 10 3 H).
Defined.

Lemma downsample_not_positive_witness :
  number_positive (PyInt 0) = false
  /\ is_ValidationError (downsampleIdx reversing_shuffle 0 3 (Some (PyInt 0)))
  /\ is_ValidationError
       (saveTrainingFeatures reversing_shuffle 0 uneven_disk ([1; 2; 3] :: [[4; 5]])
          "RF" "features.pckl" (Some (PyInt 0)))
  /\ (uneven_disk "features.pckl" = Some ("RF", [1; 2; 3] :: [[4; 5]]) ->
      is_ValidationError
        (loadTrainingFeatures reversing_shuffle 0 uneven_disk "features.pckl" "RF"
           (Some (PyInt 0)))).
Proof.
  split; [reflexivity|].
  exact (@downsample_not_positive nat reversing_shuffle nat 0 uneven_disk 3 (PyInt 0)
           [1; 2; 3] [[4; 5]] "RF" "features.pckl" eq_refl).
Defined.

Lemma saveTrainingFeatures_aligned_witness :
  (forall g l, Permutation (snd (reversing_shuffle g l)) l)
  /\ exists g' fs',
       saveTrainingFeatures reversing_shuffle 0 empty_disk ten_rows "RF" "features.pckl"
         (Some (PyInt 3)) = Ok (g', fs')
       /\ exists idx save_var,
            fs' "features.pckl" = Some ("RF", save_var)
            /\ NoDup idx
            /\ (forall i, In i idx -> i < length (hd [] ten_rows))
            /\ Forall2 (fun var saved => take var idx = Ok saved
                                          /\ length saved = length idx)
                        ten_rows save_var.
Proof.
  split; [exact reversing_shuffle_Permutation|].
  eexists. eexists.
  assert (forall g' fs'
            (H : saveTrainingFeatures reversing_shuffle 0 empty_disk ten_rows "RF"
                   "features.pckl" (Some (PyInt 3)) = Ok (g', fs')),
            saveTrainingFeatures reversing_shuffle 0 empty_disk ten_rows "RF"
              "features.pckl" (Some (PyInt 3)) = Ok (g', fs')
            /\ exists idx save_var,
                 fs' "features.pckl" = Some ("RF", save_var)
                 /\ NoDup idx
                 /\ (forall i, In i idx -> i < length (hd [] ten_rows))
                 /\ Forall2 (fun var saved => take var idx = Ok saved
                                               /\ length saved = length idx)
                             ten_rows save_var) as K.
  { intros g' fs' H. split; [exact H|].
    exact (@saveTrainingFeatures_aligned nat reversing_shuffle nat
             reversing_shuffle_Permutation 0 g' empty_disk fs' ten_rows "RF"
             "features.pckl" (Some (PyInt 3)) H). }
  apply K. reflexivity.
Defined.

Lemma saveTrainingFeatures_None_succeeds_witness :
  (forall g l, Permutation (snd (reversing_shuffle g l)) l)
  /\ ((exists g' fs',
         saveTrainingFeatures reversing_shuffle 0 empty_disk ten_rows "RF" "features.pckl"
           None = Ok (g', fs'))
      <-> (ten_rows <> []
           /\ Forall (fun var => length (hd [] ten_rows) <= length var) ten_rows)).
Proof.
  split; [exact reversing_shuffle_Permutation|].
  exact (@saveTrainingFeatures_None_succeeds nat reversing_shuffle nat
           reversing_shuffle_Permutation 0 empty_disk ten_rows "RF" "features.pckl").
Defined.

Lemma save_then_load_witness :
  (forall g l, Permutation (snd (reversing_shuffle g l)) l)
  /\ exists g1 fs1,
       saveTrainingFeatures reversing_shuffle 0 empty_disk ten_rows "RF" "features.pckl"
         (Some (PyFloat 0.5)) = Ok (g1, fs1)
       /\ exists g3 loaded idx,
            loadTrainingFeatures reversing_shuffle 7 fs1 "features.pckl" "RF" None
              = Ok (g3, loaded)
            /\ NoDup idx
            /\ (forall i, In i idx -> i < length (hd [] ten_rows))
            /\ mapM (fun var => take var idx) ten_rows = Ok loaded.
Proof.
  split; [exact reversing_shuffle_Permutation|].
  eexists. eexists.
  assert (forall g1 fs1
            (H : saveTrainingFeatures reversing_shuffle 0 empty_disk ten_rows "RF"
                   "features.pckl" (Some (PyFloat 0.5)) = Ok (g1, fs1)),
            saveTrainingFeatures reversing_shuffle 0 empty_disk ten_rows "RF"
              "features.pckl" (Some (PyFloat 0.5)) = Ok (g1, fs1)
            /\ exists g3 loaded idx,
                 loadTrainingFeatures reversing_shuffle 7 fs1 "features.pckl" "RF" None
                   = Ok (g3, loaded)
                 /\ NoDup idx
                 /\ (forall i, In i idx -> i < length (hd [] ten_rows))
                 /\ mapM (fun var => take var idx) ten_rows = Ok loaded) as K.
  { intros g1 fs1 H. split; [exact H|].
    exact (@save_then_load nat reversing_shuffle nat reversing_shuffle_Permutation
             0 g1 7 empty_disk fs1 ten_rows "RF" "features.pckl"
             (Some (PyFloat 0.5)) H). }
  apply K. vm_compute. reflexivity.
Defined.

Lemma loadTrainingFeatures_uneven_witness :
  (forall g l, Permutation (snd (reversing_shuffle g l)) l)
  /\ uneven_disk "features.pckl" = Some ("RF", [1; 2; 3] :: [[4; 5]])
  /\ Exists (fun var => length var <> length [1; 2; 3]) [[4; 5]]
  /\ is_ValidationError
       (loadTrainingFeatures reversing_shuffle 0 uneven_disk "features.pckl" "RF" None).
Proof.
  assert (Exists (fun var : list nat => length var <> length [1; 2; 3]) [[4; 5]]) as H
    by (apply Exists_cons_hd; discriminate).
  split; [exact reversing_shuffle_Permutation|]. split; [reflexivity|].
  split; [exact H|].
  exact (@loadTrainingFeatures_uneven nat reversing_shuffle nat
           reversing_shuffle_Permutation 0 uneven_disk "features.pckl" "RF"
           [1; 2; 3] [[4; 5]] eq_refl H).
Defined.

Lemma cleanFeatures_nan_witness :
  (forall j, j < np.shape1 nan_rows -> In nan (np.column nan_rows j))
  /\ Forall (fun st => mask st = repeat true (length nan_rows))
            (clean_passes constants_15 nan_rows)
  /\ forall (B : Type) should_use (tensor_basis : option (list B)) out,
       cleanFeatures constants_15 nan_rows should_use tensor_basis = Ok out ->
       new_x_features out = nan_rows
       /\ new_should_use out = should_use
       /\ new_tensor_basis out = tensor_basis.
Proof.
  assert (forall j, j < np.shape1 nan_rows -> In nan (np.column nan_rows j)) as H.
  { intros j Hj. destruct j as [|[|j]].
    - left. reflexivity.
    - right. left. reflexivity.
    - cbn in Hj. lia. }
  split; [exact H|].
  exact (@cleanFeatures_nan constants_15 nan_rows H).
Defined.

Lemma calcInvariants_bounds_witness :
  is_3x3 pure_strain = true
  /\ length [1; 0; 0]%float = 3
  /\ ((exists r, calcInvariants constants_15 pure_strain [1; 0; 0]%float true = Ok r)
      <-> 15 <= N_FEATURES constants_15 /\ (true = true -> 6 <= N_BASIS constants_15))
  /\ (forall e, calcInvariants constants_15 pure_strain [1; 0; 0]%float true = Err e ->
                e = if Nat.ltb (N_FEATURES constants_15) 2 then ValueError else IndexError)
  /\ (forall invariants tensor_basis,
        calcInvariants constants_15 pure_strain [1; 0; 0]%float true
        = Ok (invariants, tensor_basis) ->
        length invariants = N_FEATURES constants_15 - 2
        /\ skipn 13 invariants = np.empty (N_FEATURES constants_15 - 15)
        /\ match tensor_basis with
           | None => true = false
           | Some tb => true = true /\ length tb = N_BASIS constants_15
           end).
Proof.
  split; [reflexivity|]. split; [reflexivity|].
  exact (@calcInvariants_bounds constants_15 pure_strain [1; 0; 0]%float true
           eq_refl eq_refl).
Defined.

Lemma calcInvariants_no_rotation_witness :
  np.transpose pure_strain = pure_strain
  /\ strain_finite pure_strain [1; 2; 3]%float = true
  /\ exists invariants tensor_basis,
       calcInvariants constants_15 pure_strain [1; 2; 3]%float true
       = Ok (invariants, tensor_basis)
       /\ Forall (fun i => PrimFloat.is_zero (nth i invariants nan) = true)
                 [2; 3; 4; 5; 9; 10; 11; 12].
Proof.
  split; [reflexivity|]. split; [vm_compute; reflexivity|].
  eexists. eexists.
  assert (forall invariants tensor_basis
            (H : calcInvariants constants_15 pure_strain [1; 2; 3]%float true
                 = Ok (invariants, tensor_basis)),
            calcInvariants constants_15 pure_strain [1; 2; 3]%float true
            = Ok (invariants, tensor_basis)
            /\ Forall (fun i => PrimFloat.is_zero (nth i invariants nan) = true)
                      [2; 3; 4; 5; 9; 10; 11; 12]) as K.
  { intros invariants tensor_basis H. split; [exact H|].
    exact (@calcInvariants_no_rotation constants_15 pure_strain [1; 2; 3]%float true
             invariants tensor_basis eq_refl eq_refl H). }
  apply K. vm_compute. reflexivity.
Defined.

Lemma init_shapes_witness :
  exists self,
    MFQ.init good_zone (fun k => Some k) 1 false None = Ok self
    /\ MFQ.n_points self = 2
    /\ length (MFQ.gradT self) = MFQ.n_points self.
Proof.
  eexists.
  assert (forall self
            (H : MFQ.init good_zone (fun k => Some k) 1 false None = Ok self),
            MFQ.init good_zone (fun k => Some k) 1 false None = Ok self
            /\ MFQ.n_points self = 2
            /\ length (MFQ.gradT self) = MFQ.n_points self) as K.
  { intros self H. split; [exact H|].
    pose proof (@init_shapes good_zone (fun k => Some k) 1%float false None self H) as S.
    split; [exact (proj1 S) | exact (proj1 (proj2 (proj2 S)))]. }
  apply K. vm_compute. reflexivity.
Defined.

Lemma calculateFeatures_shape_witness :
  exists x_features,
    calculateFeatures power_of_one constants_15 one_cell [true] = Ok x_features
    /\ length x_features = np.count_true [true]
    /\ Forall (fun row => length row = N_FEATURES constants_15) x_features.
Proof.
  eexists.
  assert (forall x_features
            (H : calculateFeatures power_of_one constants_15 one_cell [true]
                 = Ok x_features),
            calculateFeatures power_of_one constants_15 one_cell [true] = Ok x_features
            /\ length x_features = np.count_true [true]
            /\ Forall (fun row => length row = N_FEATURES constants_15) x_features) as K.
  { intros x_features H. split; [exact H|].
    pose proof (@calculateFeatures_shape power_of_one constants_15 one_cell [true]
                  x_features H) as S.
    split; [exact (proj1 S) | exact (proj1 (proj2 S))]. }
  apply K. vm_compute. reflexivity.
Defined.

Lemma constructed_container_consumers_witness :
  exists self,
    MFQ.init good_zone (fun k => Some k) 1 false None = Ok self
    /\ (forall threshold,
          exists should_use,
            calculateShouldUse power_of_one self threshold = Ok should_use
            /\ length should_use = MFQ.n_points self
            /\ (15 <= N_FEATURES constants_15 ->
                exists x_features,
                  calculateFeatures power_of_one constants_15 self should_use
                  = Ok x_features))
    /\ (forall prt_cap use_correction,
          calculateGamma self prt_cap use_correction = Err AttributeError).
Proof.
  eexists.
  assert (forall self
            (H : MFQ.init good_zone (fun k => Some k) 1 false None = Ok self),
            MFQ.init good_zone (fun k => Some k) 1 false None = Ok self
            /\ (forall threshold,
                  exists should_use,
                    calculateShouldUse power_of_one self threshold = Ok should_use
                    /\ length should_use = MFQ.n_points self
                    /\ (15 <= N_FEATURES constants_15 ->
                        exists x_features,
                          calculateFeatures power_of_one constants_15 self should_use
                          = Ok x_features))
            /\ (forall prt_cap use_correction,
                  calculateGamma self prt_cap use_correction = Err AttributeError)) as K.
  { intros self H. split; [exact H|].
    exact (@constructed_container_consumers power_of_one constants_15 good_zone
             (fun k => Some k) 1%float false None self H). }
  apply K. vm_compute. reflexivity.
Defined.

